(** * droidlet: agent memory, task ledger and command interpreter

    A shallow embedding of [base_agent/sql_memory.py], [base_agent/memory_nodes.py]
    and [base_agent/dialogue_objects/interpreter.py].

    The SQLite store is a finite map from table names to lists of rows kept in
    insertion order; a row is a finite map from column names to values.  Every
    SQL statement of the source is written out with the small set of
    combinators of module [Sql].  Python exceptions are an explicit outcome
    that still carries the store, because every write is committed before the
    next statement runs. *)

From stdpp Require Import gmap strings list pretty.
From Stdlib Require Import QArith Ascii.

Open Scope string_scope.
Open Scope Z_scope.
Open Scope list_scope.

(** ** Values

    What the Python side binds into a statement and reads back from a cursor:
    [None], integers (booleans are bound as 0 and 1), floats, strings, and the
    bytes produced by [pickle.dumps].  A pickled task is represented by the
    task it encodes. *)

Record Task := mkTask {
  task_class : string;          (* task.__class__.__name__ *)
  task_memid : option string;   (* task.memid, set by TaskNode.create *)
  task_data : string            (* everything else the task carries *)
}.

Inductive Value :=
| VNull
| VInt (z : Z)
| VReal (q : Q)
| VText (s : string)
| VBlob (t : Task).

#[global] Instance Task_eq_dec : EqDecision Task.
Proof. solve_decision. Defined.

#[global] Instance Q_eq_dec : EqDecision Q.
Proof. solve_decision. Defined.

#[global] Instance Value_eq_dec : EqDecision Value.
Proof. solve_decision. Defined.

#[global] Instance Value_inhabited : Inhabited Value := populate VNull.

Definition of_bool (b : bool) : Value := VInt (if b then 1 else 0).

(** Python truthiness, as used by [assert subj or subj_text], [if not obj]. *)
Definition truthy (v : Value) : bool :=
  match v with
  | VNull => false
  | VInt z => negb (z =? 0)%Z
  | VReal q => negb (Qeq_bool q 0)
  | VText s => negb (String.eqb s "")
  | VBlob _ => true
  end.

Definition is_None (v : Value) : bool :=
  match v with VNull => true | _ => false end.

(** ** SQL comparisons *)

Module Sql.

(** Storage classes sort NULL < numbers < TEXT < BLOB. *)
Definition rank (v : Value) : Z :=
  match v with
  | VNull => 0
  | VInt _ | VReal _ => 1
  | VText _ => 2
  | VBlob _ => 3
  end.

(** The order [ORDER BY] sorts with.  Two blobs are never ordered by a query
    of the source; they are left tied. *)
Definition compare (v w : Value) : comparison :=
  match v, w with
  | VInt a, VInt b => (a ?= b)%Z
  | VInt a, VReal q => (inject_Z a ?= q)%Q
  | VReal q, VInt b => (q ?= inject_Z b)%Q
  | VReal p, VReal q => (p ?= q)%Q
  | VText s, VText t => String.compare s t
  | _, _ => (rank v ?= rank w)%Z
  end.

(** [WHERE a = b]: unknown, hence not selected, when either side is NULL. *)
Definition eq (v w : Value) : bool :=
  match v, w with
  | VNull, _ | _, VNull => false
  | VBlob s, VBlob t => bool_decide (s = t)
  | _, _ => match compare v w with Eq => true | _ => false end
  end.

Definition lt (v w : Value) : bool :=
  match v, w with
  | VNull, _ | _, VNull => false
  | _, _ => match compare v w with Lt => true | _ => false end
  end.

Definition ge (v w : Value) : bool :=
  match v, w with
  | VNull, _ | _, VNull => false
  | _, _ => match compare v w with Lt => false | _ => true end
  end.

(** [ORDER BY key] (ascending) as a stable insertion sort: rows with equal
    keys keep their insertion order. *)
Section OrderBy.
Context {A : Type} (key : A → Value).

Fixpoint insert_asc (x : A) (l : list A) : list A :=
  match l with
  | [] => [x]
  | y :: l' =>
      match compare (key x) (key y) with
      | Lt => x :: y :: l'
      | _ => y :: insert_asc x l'
      end
  end.

Fixpoint insert_desc (x : A) (l : list A) : list A :=
  match l with
  | [] => [x]
  | y :: l' =>
      match compare (key x) (key y) with
      | Gt => x :: y :: l'
      | _ => y :: insert_desc x l'
      end
  end.

Definition order_by (l : list A) : list A :=
  foldl (λ acc x, insert_asc x acc) [] l.

Definition order_by_desc (l : list A) : list A :=
  foldl (λ acc x, insert_desc x acc) [] l.
End OrderBy.

End Sql.

(** ** The store *)

Abbreviation Row := (gmap string Value).

(** A column that a row does not mention reads as NULL. *)
Definition col (c : string) (r : Row) : Value := default VNull (r !! c).

(** The node classes of [memory_nodes.py]. *)
Inductive NodeCls :=
| MemoryNode | ProgramNode | NamedAbstractionNode | SetNode
| ReferenceObjectNode | PlayerNode | SelfNode | LocationNode | AttentionNode
| TimeNode | ChatNode | TaskNode.

#[global] Instance NodeCls_eq_dec : EqDecision NodeCls.
Proof. solve_decision. Defined.

Record AgentMemory := mkMemory {
  db : gmap string (list Row);     (* self.db: table name -> rows *)
  time : Z;                        (* self.time *)
  uuid_supply : N;                 (* how many uuids uuid4() has handed out *)
  nodes : gmap string NodeCls      (* self.nodes *)
}.

Definition set_db (f : gmap string (list Row) → gmap string (list Row))
    (m : AgentMemory) : AgentMemory :=
  mkMemory (f (db m)) (time m) (uuid_supply m) (nodes m).

Definition table (name : string) (m : AgentMemory) : list Row :=
  db m !!! name.

(** ** Exceptions and the memory monad *)

Inductive Exn :=
| ValueError (msg : string)
| TypeError
| AssertionError
| KeyError
| AttributeError
| ProgrammingError
| OperationalError
| NextDialogueStep
| ErrorWithResponse (chat : string).

Inductive Outcome (S A : Type) :=
| Returns (a : A) (s : S)
| Raises (e : Exn) (s : S).
Arguments Returns {S A} a s.
Arguments Raises {S A} e s.

(** A computation over a state [S] that returns or raises. *)
Definition St (S A : Type) : Type := S → Outcome S A.

Section StateMonad.
Context {S : Type}.

Definition ret {A} (a : A) : St S A := λ s, Returns a s.
Definition raise {A} (e : Exn) : St S A := λ s, Raises e s.
Definition bind {A B} (c : St S A) (k : A → St S B) : St S B :=
  λ s, match c s with
       | Returns a s' => k a s'
       | Raises e s' => Raises e s'
       end.
Definition gets {A} (f : S → A) : St S A := λ s, Returns (f s) s.
Definition modify (f : S → S) : St S unit := λ s, Returns tt (f s).
Definition assert (b : bool) : St S unit :=
  if b then ret tt else raise AssertionError.
End StateMonad.

#[global] Instance St_ret {S} : MRet (St S) := @ret S.
#[global] Instance St_bind {S} : MBind (St S) := λ A B k c, bind c k.

Definition final_state {S A} (o : Outcome S A) : S :=
  match o with Returns _ s | Raises _ s => s end.

(** Computations over the agent's memory. *)
Abbreviation M := (St AgentMemory).

(** ** Database access: [_db_read], [_db_read_one], [_db_write] *)

(** [SELECT ... FROM name WHERE cond] *)
Definition _db_read (name : string) (cond : Row → bool) : M (list Row) :=
  gets (λ m, List.filter cond (table name m)).

(** [c.fetchone()]: the first row, or [None]. *)
Definition _db_read_one (name : string) (cond : Row → bool) : M (option Row) :=
  gets (λ m, head (List.filter cond (table name m))).

(** [INSERT INTO name ...]; [c.rowcount] is 1. *)
Definition append_row (name : string) (r : Row) (m : AgentMemory)
    : AgentMemory :=
  set_db (λ d, <[name := (table name m ++ [r])%list]> d) m.

Definition db_insert (name : string) (r : Row) : M nat :=
  λ m, Returns 1%nat (append_row name r m).

(** [UPDATE name SET ... WHERE cond]; [c.rowcount] is the number of rows the
    WHERE clause selects: SQLite counts a row it rewrites with the value it
    already had. *)
Definition db_update (name : string) (cond : Row → bool) (set : Row → Row)
    : M nat :=
  λ m, Returns (length (List.filter cond (table name m)))
         (set_db (λ d, <[name :=
            List.map (λ r, if cond r then set r else r) (table name m)]> d) m).

(** [DELETE FROM name WHERE cond] *)
Definition db_delete (name : string) (cond : Row → bool) : M nat :=
  λ m, Returns (length (List.filter cond (table name m)))
         (set_db (λ d, <[name :=
            List.filter (λ r, negb (cond r)) (table name m)]> d) m).

(** Modelled from the spec: the schema file [base_memory_schema.sql] is not
    part of the sources.  The spec lists the entity columns (kind, created,
    updated and attended timestamps, snapshot flag) and the relation columns
    (subject, subject_text, predicate_id, predicate_text, object, object_text,
    confidence); the column names are the ones the queries of the source use. *)
Definition Memories_columns : list string :=
  ["uuid"; "node_type"; "create_time"; "updated_time"; "attended_time";
   "is_snapshot"].

Definition Triples_columns : list string :=
  ["uuid"; "subj"; "subj_text"; "pred"; "pred_text"; "obj"; "obj_text";
   "confidence"].

(** Modelled from the spec: column defaults of the missing schema.  A task is
    created with [finished_at] unset, which the spec fixes as negative, and
    not paused. *)
Definition schema_defaults (name : string) : Row :=
  if decide (name = "Tasks")
  then {[ "paused" := VInt 0; "finished_at" := VInt (-1) ]}
  else ∅.

(** [INSERT INTO name (cols) VALUES (vals)] *)
Definition make_row (name : string) (cols : list string) (vals : list Value)
    : Row :=
  list_to_map (zip cols vals) ∪ schema_defaults name.

(** ** Time

    Modelled from the spec: the [Time] class of [base_util] is not part of the
    sources.  The spec describes it as a logical clock that advances on
    request. *)
Definition get_time : M Z := gets time.

Definition ticked (ticks : Z) (m : AgentMemory) : AgentMemory :=
  mkMemory (db m) (time m + ticks) (uuid_supply m) (nodes m).

Definition add_tick (ticks : Z) : M unit := modify (ticked ticks).

(** ** Identifiers

    [uuid.uuid4().hex] draws a fresh identifier.  The draws are modelled by a
    counter; the k-th draw is the decimal numeral of k, so that two draws never
    collide. *)
Definition uuid_hex (k : N) : string := pretty k.

Definition drawn (m : AgentMemory) : AgentMemory :=
  mkMemory (db m) (time m) (uuid_supply m + 1) (nodes m).

Definition uuid4 : M string :=
  λ m, Returns (uuid_hex (uuid_supply m)) (drawn m).

(** [self.self_memid = "0" * len(uuid.uuid4().hex)] *)
Definition self_memid : string := "00000000000000000000000000000000".

(** ** Memory nodes: class attributes *)

Definition NODE_TYPE (c : NodeCls) : Value :=
  match c with
  | MemoryNode => VNull
  | ProgramNode => VText "Program"
  | NamedAbstractionNode => VText "NamedAbstraction"
  | SetNode => VText "Set"
  | ReferenceObjectNode => VText "ReferenceObject"
  | PlayerNode => VText "Player"
  | SelfNode => VText "Self"
  | LocationNode => VText "Location"
  | AttentionNode => VText "Attention"
  | TimeNode => VText "Time"
  | ChatNode => VText "Time"
  | TaskNode => VText "Task"
  end.

Definition TABLE (c : NodeCls) : option string :=
  match c with
  | MemoryNode => None
  | ProgramNode => Some "Programs"
  | NamedAbstractionNode => Some "NamedAbstractions"
  | SetNode => Some "SetMems"
  | ReferenceObjectNode | PlayerNode | SelfNode | LocationNode
  | AttentionNode => Some "ReferenceObjects"
  | TimeNode => Some "Times"
  | ChatNode => Some "Chats"
  | TaskNode => Some "Tasks"
  end.

Definition ARCHIVE_TABLE (c : NodeCls) : option string :=
  match c with
  | ReferenceObjectNode | PlayerNode | SelfNode | LocationNode
  | AttentionNode => Some "ArchivedReferenceObjects"
  | _ => None
  end.

Definition TABLE_COLUMNS (c : NodeCls) : list string :=
  match c with
  | MemoryNode | SetNode | ReferenceObjectNode => ["uuid"]
  | ProgramNode => ["uuid"; "logical_form"]
  | NamedAbstractionNode => ["uuid"; "name"]
  | PlayerNode | SelfNode =>
      ["uuid"; "eid"; "name"; "x"; "y"; "z"; "pitch"; "yaw"; "ref_type"]
  | LocationNode => ["uuid"; "x"; "y"; "z"; "ref_type"]
  | AttentionNode => ["uuid"; "x"; "y"; "z"; "type_name"; "ref_type"]
  | TimeNode => ["uuid"; "time"]
  | ChatNode => ["uuid"; "speaker"; "chat"; "time"]
  | TaskNode =>
      ["uuid"; "action_name"; "pickled"; "paused"; "created_at"; "finished_at"]
  end.

Definition NODELIST : list NodeCls :=
  [TaskNode; ChatNode; LocationNode; AttentionNode; SetNode; TimeNode;
   PlayerNode; SelfNode; ProgramNode; NamedAbstractionNode].

(** The row that [MemoryNode.new] inserts. *)
Definition memory_row (memid : string) (cls : NodeCls) (now : Z)
    (snapshot : bool) : Row :=
  make_row "Memories" Memories_columns
    [VText memid; NODE_TYPE cls; VInt now; VInt now; VInt now;
     of_bool snapshot].

(** [MemoryNode.new]: a fresh row of [Memories]. *)
Definition new (cls : NodeCls) (snapshot : bool) : M string :=
  memid ← uuid4;
  t ← get_time;
  db_insert "Memories" (memory_row memid cls t snapshot);;
  mret memid.

(** A node object: the class whose constructor ran, and the memid it holds. *)
Record Node := mkNode { node_cls : NodeCls; node_memid : Value }.

(** ** Named abstractions and triples *)

(** The row that [NamedAbstractionNode.create] inserts. *)
Definition abstraction_row (memid : string) (name : Value) : Row :=
  make_row "NamedAbstractions" ["uuid"; "name"] [VText memid; name].

(** [NamedAbstractionNode.create] *)
Definition NamedAbstractionNode_create (name : Value) (snapshot : bool)
    : M Value :=
  memid ← _db_read_one "NamedAbstractions" (λ r, Sql.eq (col "name" r) name);
  match memid with
  | Some r => mret (col "uuid" r)
  | None =>
      memid ← new NamedAbstractionNode snapshot;
      db_insert "NamedAbstractions" (abstraction_row memid name);;
      mret (VText memid)
  end.

(** [if not subj_text: subj_text = None] *)
Definition text_or_None (text : Value) : Value :=
  if truthy text then text else VNull.

(** The row that [AgentMemory.add_triple] inserts. *)
Definition triple_row (memid : string)
    (subj subj_text pred pred_text obj obj_text confidence : Value) : Row :=
  make_row "Triples" Triples_columns
    [VText memid; subj; subj_text; pred; pred_text; obj; obj_text; confidence].

(** [AgentMemory.add_triple].  The keyword arguments are taken in the order
    of the signature; a caller that leaves one out passes its default [""]
    (and 1.0 for the confidence). *)
Definition add_triple (subj obj subj_text pred_text obj_text confidence : Value)
    : M unit :=
  assert (truthy subj || truthy subj_text);;
  assert (truthy obj || truthy obj_text);;
  assert (negb (truthy subj && truthy subj_text));;
  assert (negb (truthy obj && truthy obj_text));;
  memid ← uuid4;
  pred ← NamedAbstractionNode_create pred_text false;
  obj ← (if truthy obj then mret obj
         else NamedAbstractionNode_create obj_text false);
  subj ← (if truthy subj then mret subj
          else NamedAbstractionNode_create subj_text false);
  let subj_text := text_or_None subj_text in
  let obj_text := text_or_None obj_text in
  db_insert "Triples"
    (triple_row memid subj subj_text pred pred_text obj obj_text confidence);;
  mret tt.

Definition no_text : Value := VText "".
Definition default_confidence : Value := VReal 1.

(** [AgentMemory.tag] *)
Definition tag (subj_memid tag_text : Value) : M unit :=
  add_triple subj_memid no_text no_text (VText "has_tag") tag_text
    default_confidence.

(** [AgentMemory.__init__]: empty tables, the node registry built from the
    node list (a later class overwrites an earlier one registered under the
    same [NODE_TYPE]), and the "self" memory with its two tags. *)
Definition register_nodes (nodelist : list NodeCls) : gmap string NodeCls :=
  foldl (λ acc node,
           match NODE_TYPE node with
           | VText k => <[k := node]> acc
           | _ => acc
           end) ∅ nodelist.

Definition AgentMemory_init (nodelist : list NodeCls) (agent_time : Z)
    : Outcome AgentMemory unit :=
  (db_insert "Memories"
     (make_row "Memories" Memories_columns
        [VText self_memid; VText "Self"; VInt 0; VInt 0; VInt (-1);
         of_bool false]);;
   tag (VText self_memid) (VText "_agent");;
   tag (VText self_memid) (VText "_self"))
  (mkMemory ∅ agent_time 0 (register_nodes nodelist)).

(** ** Lookup of nodes *)

(** [AgentMemory.get_node_from_memid]: unpacking [None] raises. *)
Definition get_node_from_memid (memid : Value) : M Value :=
  r ← _db_read_one "Memories" (λ r, Sql.eq (col "uuid" r) memid);
  match r with
  | Some r => mret (col "node_type" r)
  | None => raise TypeError
  end.

(** The constructors.  [TaskNode.__init__], [ChatNode.__init__],
    [PlayerNode.__init__] and [LocationNode.__init__] unpack the row they
    read and raise when there is none; [TaskNode.__init__] also unpickles;
    [ProgramNode.__init__] hands the fetched tuple to [ast.literal_eval],
    which rejects it; the others never fail. *)
Record TaskNode_obj := mkTaskNode {
  task_node_memid : Value;
  task : Task;
  created_at : Value;
  finished_at : Value;
  action_name : Value
}.

Definition TaskNode_init (memid : Value) : M TaskNode_obj :=
  r ← _db_read_one "Tasks" (λ r, Sql.eq (col "uuid" r) memid);
  match r with
  | None => raise TypeError
  | Some r =>
      match col "pickled" r with
      | VBlob t =>
          mret (mkTaskNode memid t (col "created_at" r) (col "finished_at" r)
                  (col "action_name" r))
      | _ => raise TypeError
      end
  end.

Definition construct (cls : NodeCls) (memid : Value) : M Node :=
  match cls with
  | TaskNode => TaskNode_init memid;; mret (mkNode cls memid)
  | ProgramNode => raise (ValueError "malformed node or string")
  | MemoryNode | SetNode | ReferenceObjectNode | NamedAbstractionNode
  | TimeNode => mret (mkNode cls memid)
  | ChatNode | PlayerNode | SelfNode | LocationNode | AttentionNode =>
      r ← _db_read_one (default "" (TABLE cls))
             (λ r, Sql.eq (col "uuid" r) memid);
      match r with
      | Some _ => mret (mkNode cls memid)
      | None => raise TypeError
      end
  end.

(** [AgentMemory.get_mem_by_id]; [node_type = None] is the default. *)
Definition get_mem_by_id (memid : Value) (node_type : Value) : M Node :=
  node_type ← (if is_None node_type then get_node_from_memid memid
               else mret node_type);
  if is_None node_type then construct MemoryNode memid
  else
    nodes ← gets nodes;
    let cls := match node_type with
               | VText k => default MemoryNode (nodes !! k)
               | _ => MemoryNode
               end in
    construct cls memid.

(** ** Chats *)

(** [ChatNode.create] *)
Definition ChatNode_create (speaker chat : Value) : M string :=
  memid ← new ChatNode false;
  t ← get_time;
  db_insert "Chats"
    (make_row "Chats" ["uuid"; "speaker"; "chat"; "time"]
       [VText memid; speaker; chat; VInt t]);;
  mret memid.

(** [AgentMemory.add_chat] *)
Definition add_chat (speaker_memid chat : Value) : M string :=
  ChatNode_create speaker_memid chat.

(** [speaker != ?] *)
Definition sql_ne (v w : Value) : bool :=
  negb (is_None v) && negb (is_None w) && negb (Sql.eq v w).

(** [AgentMemory.get_most_recent_incoming_chat] *)
Definition get_most_recent_incoming_chat (after : Value) : M (option Node) :=
  rows ← _db_read "Chats"
    (λ r, sql_ne (col "speaker" r) (VText self_memid)
          && Sql.ge (col "time" r) after);
  match head (Sql.order_by_desc (col "time") rows) with
  | Some r => n ← construct ChatNode (col "uuid" r); mret (Some n)
  | None => mret None
  end.

(** ** Tasks *)

(** [safe_pickle]: the collaborators it strips from the task (memory handle,
    closures) are put back by [safe_unpickle]; the pair is the identity on
    what a task is here. *)
Definition safe_pickle (t : Task) : Value := VBlob t.

(** [task.memid = memid] *)
Definition set_task_memid (memid : string) (task : Task) : Task :=
  mkTask (task_class task) (Some memid) (task_data task).

(** The row that [TaskNode.create] inserts. *)
Definition task_row (memid : string) (task : Task) (now : Z) : Row :=
  make_row "Tasks" ["uuid"; "action_name"; "pickled"; "created_at"]
    [VText memid; VText (task_class task); safe_pickle task; VInt now].

(** [TaskNode.create] *)
Definition TaskNode_create (task : Task) : M string :=
  memid ← new TaskNode false;
  let task := set_task_memid memid task in
  t ← get_time;
  db_insert "Tasks" (task_row memid task t);;
  mret memid.

(** [AgentMemory.task_stack_push]; [parent_memid = None] and
    [chat_effect = False] are the defaults. *)
Definition task_stack_push (task : Task) (parent_memid : Value)
    (chat_effect : bool) : M TaskNode_obj :=
  memid ← TaskNode_create task;
  (if truthy parent_memid
   then add_triple (VText memid) parent_memid no_text
          (VText "_has_parent_task") no_text default_confidence
   else mret tt);;
  (if chat_effect
   then chat ← get_most_recent_incoming_chat (VInt (-1));
        match chat with
        | None => raise AssertionError
        | Some chat =>
            add_triple (node_memid chat) (VText memid) no_text
              (VText "chat_effect_") no_text default_confidence
        end
   else mret tt);;
  TaskNode_init (VText memid).

(** [finished_at < 0 AND paused = 0] *)
Definition on_stack (r : Row) : bool :=
  Sql.lt (col "finished_at" r) (VInt 0) && Sql.eq (col "paused" r) (VInt 0).

(** [AgentMemory.task_stack_peek] *)
Definition task_stack_peek : M (option TaskNode_obj) :=
  rows ← _db_read "Tasks" on_stack;
  match head (Sql.order_by_desc (col "created_at") rows) with
  | Some r => n ← TaskNode_init (col "uuid" r); mret (Some n)
  | None => mret None
  end.

(** [AgentMemory.task_stack_pop] *)
Definition task_stack_pop : M TaskNode_obj :=
  mem ← task_stack_peek;
  match mem with
  | None => raise (ValueError "Called task_stack_pop with empty stack")
  | Some mem =>
      t ← get_time;
      db_update "Tasks" (λ r, Sql.eq (col "uuid" r) (task_node_memid mem))
        (λ r, <["finished_at" := VInt t]> r);;
      mret mem
  end.

(** [finished_at < 0] *)
Definition unfinished (r : Row) : bool :=
  Sql.lt (col "finished_at" r) (VInt 0).

(** [AgentMemory.task_stack_pause] *)
Definition task_stack_pause : M bool :=
  n ← db_update "Tasks" unfinished (λ r, <["paused" := VInt 1]> r);
  mret (bool_decide (0 < n)%nat).

(** [AgentMemory.task_stack_clear] *)
Definition task_stack_clear : M unit :=
  db_delete "Tasks" unfinished;;
  mret tt.

(** [AgentMemory.task_stack_resume] *)
Definition task_stack_resume : M bool :=
  n ← db_update "Tasks" (λ _, true) (λ r, <["paused" := VInt 0]> r);
  mret (bool_decide (0 < n)%nat).

(** [AgentMemory.task_stack_find_lowest_instance].  [cls_names] is the list
    of names; a single string is the one-element list.  With no name at all
    the WHERE clause is empty and SQLite rejects the statement. *)
Definition task_stack_find_lowest_instance (cls_names : list Value)
    : M (option TaskNode_obj) :=
  match cls_names with
  | [] => raise OperationalError
  | names =>
      rows ← _db_read "Tasks"
        (λ r, existsb (λ n, Sql.eq (col "action_name" r) n) names);
      match head (Sql.order_by (col "created_at") rows) with
      | None => raise TypeError
      | Some r =>
          let memid := col "uuid" r in
          if negb (is_None memid)
          then n ← TaskNode_init memid; mret (Some n)
          else mret None
      end
  end.

(** [AgentMemory.task_stack_get_all] *)
Definition task_stack_get_all : M (list TaskNode_obj) :=
  rows ← _db_read "Tasks" on_stack;
  mapM (λ r, TaskNode_init (col "uuid" r))
    (Sql.order_by (col "created_at") rows).

(** ** Queries over triples *)

(** What [SELECT DISTINCT] keeps: the first row of each value. *)
Definition same_value (v w : Value) : bool :=
  match v, w with
  | VBlob s, VBlob t => bool_decide (s = t)
  | _, _ => match Sql.compare v w with Eq => true | _ => false end
  end.

Fixpoint distinct (l : list Value) : list Value :=
  match l with
  | [] => []
  | v :: l' => v :: List.filter (λ w, negb (same_value v w)) (distinct l')
  end.

(** [FROM Triples INNER JOIN Memories as M ON Triples.subj = M.uuid
     WHERE M.is_snapshot = 0 AND cond]: the pairs of a triple and a memory
    row that the query keeps. *)
Definition join_live (cond : Row → bool) (m : AgentMemory)
    : list (Row * Row) :=
  t ← List.filter cond (table "Triples" m);
  e ← List.filter
        (λ e, Sql.eq (col "subj" t) (col "uuid" e)
              && Sql.eq (col "is_snapshot" e) (VInt 0))
        (table "Memories" m);
  [(t, e)].

(** [AgentMemory.get_triples].  An argument left out is [None]. *)
Definition get_triples (subj obj subj_text pred_text obj_text : Value)
    (return_obj_text : string) : M (list (Value * Value * Value)) :=
  assert (truthy subj || truthy subj_text || truthy pred_text
          || truthy obj || truthy obj_text);;
  assert (negb (truthy subj && truthy subj_text));;
  assert (negb (truthy obj && truthy obj_text));;
  let pairs :=
    [("subj", subj); ("subj_text", subj_text); ("pred_text", pred_text);
     ("obj", obj); ("obj_text", obj_text)] in
  let where_ := List.filter (λ x, negb (is_None x.2)) pairs in
  r ← gets (join_live
              (λ t, forallb (λ x, Sql.eq (col x.1 t) x.2) where_));
  let r := (λ te : Row * Row,
              (col "subj" te.1, col "pred_text" te.1, col "obj" te.1,
               col "obj_text" te.1)) <$> r in
  mret ((λ x : Value * Value * Value * Value,
           let '(s, pt, o, ot) := x in
           if String.eqb return_obj_text "if_exists"
           then (if truthy ot then (s, pt, ot) else (s, pt, o))
           else if String.eqb return_obj_text "always" then (s, pt, ot)
           else (s, pt, o)) <$> r).

(** [AgentMemory.get_memids_by_tag] *)
Definition get_memids_by_tag (tag : Value) : M (list Value) :=
  r ← gets (join_live
              (λ t, Sql.eq (col "pred_text" t) (VText "has_tag")
                    && Sql.eq (col "obj_text" t) tag));
  mret (distinct ((λ te : Row * Row, col "uuid" te.2) <$> r)).

(** ** Recency and snapshots *)

(** The query of [AgentMemory.get_recent_entities]. *)
Definition recent_memids (memtype : Value) (time_window : Z) : M (list Value) :=
  t ← get_time;
  r ← _db_read "Memories"
        (λ r, Sql.eq (col "node_type" r) memtype
              && Sql.ge (col "attended_time" r) (VInt (t - time_window))
              && Sql.eq (col "is_snapshot" r) (VInt 0));
  mret (col "uuid" <$> Sql.order_by_desc (col "attended_time") r).

(** [AgentMemory.get_recent_entities] *)
Definition get_recent_entities (memtype : Value) (time_window : Z)
    : M (list Node) :=
  r ← recent_memids memtype time_window;
  mapM (λ memid, get_mem_by_id memid memtype) r.

(** [link_archive_to_mem] *)
Definition link_archive_to_mem (memid archive_memid : Value) : M unit :=
  add_triple archive_memid memid no_text (VText "_archive_of") no_text
    default_confidence;;
  add_triple memid archive_memid no_text (VText "_has_archive") no_text
    default_confidence.

(** [MemoryNode.snapshot].  A class without [TABLE] has nothing to read; the
    [raise] of a string literal is itself a [TypeError]. *)
Definition MemoryNode_snapshot (self : Node) : M unit :=
  let cls := node_cls self in
  match TABLE cls with
  | None => raise AttributeError
  | Some tbl =>
      data ← _db_read_one tbl (λ r, Sql.eq (col "uuid" r) (node_memid self));
      match data with
      | None => raise TypeError
      | Some r =>
          let data := (λ c, col c r) <$> TABLE_COLUMNS cls in
          archive_memid ← new cls true;
          let new_data := <[0%nat := VText archive_memid]> data in
          let archive_table := default tbl (ARCHIVE_TABLE cls) in
          db_insert archive_table
            (make_row archive_table (TABLE_COLUMNS cls) new_data);;
          link_archive_to_mem (node_memid self) (VText archive_memid)
      end
  end.

(** [SetNode.create]: the statement has one placeholder and is given two
    values, which sqlite3 refuses. *)
Definition SetNode_create (snapshot : bool) : M string :=
  memid ← new SetNode snapshot;
  raise ProgrammingError.

(** [snapshot] as the object dispatches it: [SetNode] overrides it. *)
Definition snapshot (self : Node) : M unit :=
  match node_cls self with
  | SetNode => SetNode_create true;; mret tt
  | _ => MemoryNode_snapshot self
  end.

(** ** The interpreter *)

(** Logical forms: what the semantic parser returns. *)
#[warnings="-register-all"]
Inductive LF :=
| LStr (s : string)
| LList (l : list LF)
| LDict (d : gmap string LF).

Definition Response : Type := Value * Value.

Record Interpreter := mkInterpreter {
  speaker : string;
  action_dict : gmap string LF;
  finished : bool;
  loop_data : option Node;
  archived_loop_data : option Node;
  memory : AgentMemory
}.

Definition set_action_dict (d : gmap string LF) (i : Interpreter) :=
  mkInterpreter (speaker i) d (finished i) (loop_data i)
    (archived_loop_data i) (memory i).
Definition set_finished (b : bool) (i : Interpreter) :=
  mkInterpreter (speaker i) (action_dict i) b (loop_data i)
    (archived_loop_data i) (memory i).
Definition set_loop_data (l a : option Node) (i : Interpreter) :=
  mkInterpreter (speaker i) (action_dict i) (finished i) l a (memory i).
Definition set_memory (m : AgentMemory) (i : Interpreter) :=
  mkInterpreter (speaker i) (action_dict i) (finished i) (loop_data i)
    (archived_loop_data i) m.

(** Computations of the interpreter, and a call into [self.memory]. *)
Abbreviation I := (St Interpreter).

Definition with_memory {A} (c : M A) : I A :=
  λ i, match c (memory i) with
       | Returns a m => Returns a (set_memory m i)
       | Raises e m => Raises e (set_memory m i)
       end.

(** A handler: [self.action_handlers[action_type](self.speaker, action_def)]. *)
Definition Handler : Type := string → LF → I Response.

(** [Interpreter.handle_stop] *)
Definition handle_stop : Handler := λ speaker d,
  modify (set_finished true);;
  l ← gets loop_data;
  (match l with
   | Some _ => modify (set_loop_data None l)
   | None => mret tt
   end);;
  b ← with_memory task_stack_pause;
  if b : bool then mret (VText "Stopping.  What should I do next?", VNull)
  else mret (VText "I am not doing anything", VNull).

(** [Interpreter.handle_resume] *)
Definition handle_resume : Handler := λ speaker d,
  modify (set_finished true);;
  b ← with_memory task_stack_resume;
  if b : bool then
    a ← gets archived_loop_data;
    (match a with
     | Some _ => modify (set_loop_data a None)
     | None => mret tt
     end);;
    mret (VText "resuming", VNull)
  else mret (VText "nothing to resume", VNull).

(** [Interpreter.handle_otheraction] *)
Definition handle_otheraction : Handler := λ speaker d,
  modify (set_finished true);;
  mret (VText "I don't know how to do that yet", VNull).

(** [Interpreter.append_new_task] for a task that is already built. *)
Definition append_new_task (task : Task) : I unit :=
  with_memory (add_tick 1);;
  with_memory (task_stack_push task VNull true);;
  mret tt.

(** [self.action_handlers] as [Interpreter.__init__] fills it.  The bodies of
    [handle_move] and [handle_undo] start by looking up a task class in
    [self.task_objects], which only a subclass fills, and go on through the
    sub-interpreters; they are taken as given. *)
Definition base_action_handlers (handle_move handle_undo : Handler)
    : gmap string Handler :=
  {[ "MOVE" := handle_move; "STOP" := handle_stop; "RESUME" := handle_resume;
     "UNDO" := handle_undo; "OTHERACTION" := handle_otheraction ]}.

(** With the empty [self.task_objects] of the base class both raise at their
    first statement. *)
Definition handle_needs_task_object : Handler := λ speaker d, raise KeyError.

Section Step.
(** [self.action_handlers]; a subclass adds entries to it. *)
Context (action_handlers : gmap string Handler).

(** [action_def["action_type"]] *)
Definition get_action_type (action_def : LF) : I LF :=
  match action_def with
  | LDict d =>
      match d !! "action_type" with
      | Some t => mret t
      | None => raise KeyError
      end
  | _ => raise TypeError
  end.

(** [self.action_handlers[action_type]] *)
Definition get_handler (action_type : LF) : I Handler :=
  match action_type with
  | LStr k =>
      match action_handlers !! k with
      | Some h => mret h
      | None => raise KeyError
      end
  | _ => raise TypeError
  end.

(** The [for action_def in actions] loop.  Next to its outcome it gives the
    action definitions whose handler was called, in the order of the
    calls. *)
Fixpoint dispatch (actions : list LF) (response : Response) (i : Interpreter)
    : Outcome Interpreter Response * list LF :=
  match actions with
  | [] => (Returns response i, [])
  | action_def :: actions' =>
      match (action_type ← get_action_type action_def;
             get_handler action_type) i with
      | Raises e i' => (Raises e i', [])
      | Returns h i' =>
          match h (speaker i') action_def i' with
          | Raises e i'' => (Raises e i'', [action_def])
          | Returns response i'' =>
              let '(o, called) := dispatch actions' response i'' in
              (o, action_def :: called)
          end
      end
  end.

(** The body of the [try] block: which actions to run.  [actions.reverse()]
    reverses the list that [self.action_dict] holds, in place. *)
Definition collect_actions : I (list LF) :=
  d ← gets action_dict;
  match d !! "action" with
  | Some a => mret [a]
  | None =>
      match d !! "action_sequence" with
      | Some (LList l) =>
          modify (set_action_dict (<["action_sequence" := LList (reverse l)]> d));;
          mret (reverse l)
      | Some _ => raise AttributeError
      | None => mret []
      end
  end.

(** [self.action_dict["dialogue_type"] == "HUMAN_GIVE_COMMAND"] *)
Definition is_human_give_command (t : LF) : bool :=
  match t with
  | LStr s => String.eqb s "HUMAN_GIVE_COMMAND"
  | _ => false
  end.

Definition nothing_to_do : string :=
  "I thought you wanted me to do something, but now I don't know what".

(** The [try] block of [Interpreter.step]. *)
Definition step_body (i : Interpreter)
    : Outcome Interpreter Response * list LF :=
  match collect_actions i with
  | Raises e i' => (Raises e i', [])
  | Returns actions i' =>
      if bool_decide (length actions = 0%nat)
      then (Raises (ErrorWithResponse nothing_to_do) i', [])
      else dispatch actions (VNull, VNull) i'
  end.

(** [Interpreter.step]: the assertion, the [try] block and the two
    [except] clauses; any other exception propagates. *)
Definition step (i : Interpreter)
    : Outcome Interpreter Response * list LF :=
  match action_dict i !! "dialogue_type" with
  | None => (Raises KeyError i, [])
  | Some t =>
      if is_human_give_command t then
        let '(o, called) := step_body i in
        match o with
        | Raises NextDialogueStep i' => (Returns (VNull, VNull) i', called)
        | Raises (ErrorWithResponse chat) i' =>
            (Returns (VText chat, VNull) (set_finished true i'), called)
        | _ => (o, called)
        end
      else (Raises AssertionError i, [])
  end.
End Step.

(** * Invariant of the identifier supply

    No row carries an identifier that is still to be drawn. *)
Definition fresh (m : AgentMemory) : Prop :=
  ∀ name r k, r ∈ table name m → (uuid_supply m ≤ k)%N →
    col "uuid" r ≠ VText (uuid_hex k).

(** A check that decides [fresh] on a concrete store: every identifier in it
    is the agent's own or one already drawn. *)
Definition drawn_before (supply : N) (v : Value) : bool :=
  match v with
  | VText s =>
      String.eqb s self_memid
      || existsb (λ j, String.eqb s (uuid_hex (N.of_nat j)))
           (seq 0 (N.to_nat supply))
  | _ => true
  end.

Definition fresh_check (m : AgentMemory) : bool :=
  forallb (λ nr : string * list Row,
             forallb (λ r, drawn_before (uuid_supply m) (col "uuid" r)) nr.2)
    (map_to_list (db m)).


(** * Stores and nodes that the statements name *)

(** The store after [TaskNode.create]. *)
Definition pushed (task : Task) (m : AgentMemory) : AgentMemory :=
  let memid := uuid_hex (uuid_supply m) in
  append_row "Tasks"
    (task_row memid (set_task_memid memid task) (time m))
    (append_row "Memories" (memory_row memid TaskNode (time m) false)
       (drawn m)).

(** The node [TaskNode(self, memid)] of a task just created. *)
Definition pushed_node (task : Task) (m : AgentMemory) : TaskNode_obj :=
  let memid := uuid_hex (uuid_supply m) in
  mkTaskNode (VText memid) (set_task_memid memid task) (VInt (time m))
    (VInt (-1)) (VText (task_class task)).

(** The node that [TaskNode(self, uuid)] builds from a row of [Tasks]. *)
Definition node_of_row (r : Row) (task : Task) : TaskNode_obj :=
  mkTaskNode (col "uuid" r) task (col "created_at" r) (col "finished_at" r)
    (col "action_name" r).

(** The caller advances the clock, then pushes. *)
Definition push_after_tick (d : Z) (task : Task) : M TaskNode_obj :=
  add_tick d;; task_stack_push task VNull false.


(** * Example stores *)

Definition returned {S A} (o : Outcome S A) : option A :=
  match o with Returns a _ => Some a | Raises _ _ => None end.

Definition raised {S A} (o : Outcome S A) : option Exn :=
  match o with Returns _ _ => None | Raises e _ => Some e end.

(** The store right after [AgentMemory()]. *)
Definition fresh_memory : AgentMemory :=
  final_state (AgentMemory_init NODELIST 0).

Definition a_task (name : string) : Task := mkTask name None "".

(** One tick, then one [Move] task pushed. *)
Definition one_task_memory : AgentMemory :=
  final_state
    ((add_tick 1;; task_stack_push (a_task "Move") VNull false) fresh_memory).

(** The same store after the task has been popped, that is, finished. *)
Definition finished_task_memory : AgentMemory :=
  final_state ((add_tick 1;; task_stack_pop) one_task_memory).

(** The same store after the task has been paused. *)
Definition paused_task_memory : AgentMemory :=
  final_state (task_stack_pause one_task_memory).

(** * The interpreter: what the statements name *)

(** In the list of handler calls, the call for [a] comes before the call
    for [b]. *)
Definition invoked_before (a b : LF) (called : list LF) : Prop :=
  ∃ l1 l2 l3, called = l1 ++ a :: l2 ++ b :: l3.

(** The handler table of the base class, whose [self.task_objects] is empty. *)
Definition base_handlers : gmap string Handler :=
  base_action_handlers handle_needs_task_object handle_needs_task_object.

Definition an_action (action_type : string) : LF :=
  LDict {[ "action_type" := LStr action_type ]}.

(** An interpreter for a command with the given entries, over a store. *)
Definition an_interpreter (entries : list (string * LF)) (m : AgentMemory)
    : Interpreter :=
  mkInterpreter "speaker"
    (<["dialogue_type" := LStr "HUMAN_GIVE_COMMAND"]> (list_to_map entries))
    false None None m.

(** "stop, then something else": a command with a sequence of two actions. *)
Definition stop_then_other : Interpreter :=
  an_interpreter
    [("action_sequence", LList [an_action "STOP"; an_action "OTHERACTION"])]
    one_task_memory.

(** A command without [action] and without [action_sequence]. *)
Definition empty_command : Interpreter := an_interpreter [] one_task_memory.

(** * Live and archived entities *)

(** An identifier selects at most one row of [Memories]: [uuid] is its key. *)
Definition unique_memids (m : AgentMemory) : Prop :=
  ∀ s r1 r2, r1 ∈ table "Memories" m → r2 ∈ table "Memories" m →
    Sql.eq s (col "uuid" r1) = true → Sql.eq s (col "uuid" r2) = true →
    r1 = r2.

(** [s] identifies an entity whose [is_snapshot] is 0. *)
Definition live_entity (m : AgentMemory) (s : Value) : Prop :=
  ∃ e, e ∈ table "Memories" m ∧ Sql.eq s (col "uuid" e) = true
       ∧ Sql.eq (col "is_snapshot" e) (VInt 0) = true.

(** [s] identifies an entity whose [is_snapshot] is set. *)
Definition snapshot_entity (m : AgentMemory) (s : Value) : Prop :=
  ∃ e, e ∈ table "Memories" m ∧ Sql.eq s (col "uuid" e) = true
       ∧ truthy (col "is_snapshot" e) = true.

(** The assertions at the head of [get_triples]. *)
Definition accepted (subj obj subj_text pred_text obj_text : Value) : bool :=
  (truthy subj || truthy subj_text || truthy pred_text
   || truthy obj || truthy obj_text)
  && negb (truthy subj && truthy subj_text)
  && negb (truthy obj && truthy obj_text).

(** A check that decides [unique_memids] on a concrete store. *)
Definition unique_check (m : AgentMemory) : bool :=
  forallb (λ r, match col "uuid" r with VText _ => true | _ => false end)
    (table "Memories" m)
  && bool_decide (NoDup (col "uuid" <$> table "Memories" m)).

(** The store after the task of [one_task_memory] has been snapshotted. *)
Definition archived_task_memory : AgentMemory :=
  final_state (snapshot (mkNode TaskNode (VText "5")) one_task_memory).

(** * Named abstractions: what the statements name *)

(** The row that [NamedAbstractionNode.create] finds for a name, and the
    identifier it returns then. *)
Definition named (name : Value) (m : AgentMemory) : option Row :=
  head (List.filter (λ r, Sql.eq (col "name" r) name)
          (table "NamedAbstractions" m)).

Definition abstraction_id (name : Value) (m : AgentMemory) : option Value :=
  col "uuid" <$> named name m.

(** The assertions at the head of [add_triple]. *)
Definition add_triple_accepts (subj obj subj_text obj_text : Value) : bool :=
  (truthy subj || truthy subj_text) && (truthy obj || truthy obj_text)
  && negb (truthy subj && truthy subj_text)
  && negb (truthy obj && truthy obj_text).

(** [m'] is [m] with more identifiers drawn and named abstractions added,
    and nothing else. *)
Record abstracted (m m' : AgentMemory) : Prop := mkAbstracted {
  abs_time : time m' = time m;
  abs_nodes : nodes m' = nodes m;
  abs_supply : (uuid_supply m ≤ uuid_supply m')%N;
  abs_other : ∀ name, name ≠ "Memories" → name ≠ "NamedAbstractions" →
    table name m' = table name m;
  abs_memories : ∃ extra,
    table "Memories" m' = table "Memories" m ++ extra
    ∧ Forall (λ r, ∃ k, (uuid_supply m ≤ k < uuid_supply m')%N
                ∧ r = memory_row (uuid_hex k) NamedAbstractionNode (time m)
                        false) extra;
  abs_names : ∃ extra,
    table "NamedAbstractions" m' = table "NamedAbstractions" m ++ extra
    ∧ Forall (λ r, ∃ k name, (uuid_supply m ≤ k < uuid_supply m')%N
                ∧ r = abstraction_row (uuid_hex k) name
                ∧ memory_row (uuid_hex k) NamedAbstractionNode (time m) false
                  ∈ table "Memories" m') extra
}.


(** Either the value is given, or its text is resolved to an abstraction. *)
Definition resolved (v : Value) (x : string) (id : Value) (m : AgentMemory)
    : Prop :=
  if truthy v then id = v else abstraction_id (VText x) m = Some id.


(** * Snapshots: what the statements name *)

(** The archive row: the columns of the class read from [e], under the
    identifier of the snapshot. *)
Definition archive_row (cls : NodeCls) (tbl : string) (s : string) (e : Row)
    : Row :=
  make_row (default tbl (ARCHIVE_TABLE cls)) (TABLE_COLUMNS cls)
    (<[0%nat := VText s]> ((λ c, col c e) <$> TABLE_COLUMNS cls)).

(** A store with an entity of kind Set: [SetNode.create] has written its row
    of [Memories] and then raised. *)
Definition set_entity_memory : AgentMemory :=
  final_state (SetNode_create false one_task_memory).

(** The store after that entity has been snapshotted. *)
Definition archived_set_memory : AgentMemory :=
  final_state (snapshot (mkNode SetNode (VText "6")) set_entity_memory).


(** * Further operations of the memory *)

(** [AgentMemory.set_memory_attended_time] *)
Definition set_memory_attended_time (memid : Value) : M unit :=
  t ← get_time;
  db_update "Memories" (λ r, Sql.eq (col "uuid" r) memid)
    (λ r, <["attended_time" := VInt t]> r);;
  mret tt.

(** [MemoryNode.update_recently_attended] *)
Definition update_recently_attended (self : Node) : M unit :=
  set_memory_attended_time (node_memid self);;
  snapshot self.

(** [AgentMemory.check_memid_exists], for a table of the schema. *)
Definition check_memid_exists (memid : Value) (tbl : string) : M bool :=
  r ← _db_read_one tbl (λ r, Sql.eq (col "uuid" r) memid);
  mret (bool_decide (is_Some r)).

(** The WHERE clause of [untag]. *)
Definition is_tag (subj_memid tag_text : Value) (r : Row) : bool :=
  Sql.eq (col "subj" r) subj_memid
  && Sql.eq (col "pred_text" r) (VText "has_tag")
  && Sql.eq (col "obj_text" r) tag_text.

(** [AgentMemory.untag] *)
Definition untag (subj_memid tag_text : Value) : M unit :=
  db_delete "Triples" (is_tag subj_memid tag_text);;
  mret tt.

(** [AgentMemory.get_tags_by_memid] *)
Definition get_tags_by_memid (subj_memid : Value) (return_text : bool)
    : M (list Value) :=
  let return_clause := if return_text then "obj_text" else "obj" in
  r ← _db_read "Triples"
        (λ r, Sql.eq (col "pred_text" r) (VText "has_tag")
              && Sql.eq (col "subj" r) subj_memid);
  mret (distinct (col return_clause <$> r)).

(** [AgentMemory.remove_memid_triple] *)
Definition remove_memid_triple (memid : Value) (role : string) : M unit :=
  (if String.eqb role "subj" || String.eqb role "both"
   then db_delete "Triples" (λ r, Sql.eq (col "subj" r) memid);; mret tt
   else mret tt);;
  (if String.eqb role "obj" || String.eqb role "both"
   then db_delete "Triples" (λ r, Sql.eq (col "obj" r) memid);; mret tt
   else mret tt).

(** [LIMIT n]: a negative bound is no bound. *)
Definition limit {A} (n : Z) (l : list A) : list A :=
  if (n <? 0)%Z then l else take (Z.to_nat n) l.

(** [AgentMemory.get_recent_chats] *)
Definition get_recent_chats (n : Z) : M (list Node) :=
  rows ← _db_read "Chats" (λ _, true);
  let r := limit n (Sql.order_by_desc (col "time") rows) in
  mapM (λ r, construct ChatNode (col "uuid" r)) (reverse r).

(** The row that [LocationNode.create] inserts. *)
Definition location_row (memid : string) (x y z : Value) : Row :=
  make_row "ReferenceObjects" ["uuid"; "x"; "y"; "z"; "ref_type"]
    [VText memid; x; y; z; VText "location"].

(** [LocationNode.create] and [AgentMemory.add_location] *)
Definition LocationNode_create (x y z : Value) : M string :=
  memid ← new LocationNode false;
  db_insert "ReferenceObjects" (location_row memid x y z);;
  mret memid.

Definition add_location (x y z : Value) : M string := LocationNode_create x y z.

(** [AgentMemory.get_location_by_id] *)
Definition get_location_by_id (memid : Value) : M Node :=
  construct LocationNode memid.

(** [AgentMemory.task_stack_update_task] *)
Definition task_stack_update_task (memid : Value) (task : Task) : M unit :=
  db_update "Tasks" (λ r, Sql.eq (col "uuid" r) memid)
    (λ r, <["pickled" := safe_pickle task]> r);;
  mret tt.

(** [AgentMemory.get_task_by_id] *)
Definition get_task_by_id (memid : Value) : M TaskNode_obj := TaskNode_init memid.

(** [pred_text='_has_parent_task' AND subj=?] *)
Definition parent_link (memid : Value) (r : Row) : bool :=
  Sql.eq (col "pred_text" r) (VText "_has_parent_task")
  && Sql.eq (col "subj" r) memid.

(** The loop of [get_last_finished_root_task]: the first identifier that is
    not the subject of a [_has_parent_task] triple. *)
Fixpoint first_root (memids : list Value) : M (option TaskNode_obj) :=
  match memids with
  | [] => mret None
  | memid :: memids' =>
      p ← _db_read_one "Triples" (parent_link memid);
      match p with
      | Some _ => first_root memids'
      | None => n ← TaskNode_init memid; mret (Some n)
      end
  end.

(** [finished_at >= ? {AND action_name=?}] *)
Definition finished_since (since : Z) (action_name : Value) (r : Row) : bool :=
  Sql.ge (col "finished_at" r) (VInt since)
  && (if truthy action_name
      then Sql.eq (col "action_name" r) action_name else true).

(** [AgentMemory.get_last_finished_root_task].  [action_name = None] is the
    default; [recency] is given by the caller (its default goes through
    [Time.round_time], which is not part of the sources). *)
Definition get_last_finished_root_task (action_name : Value) (recency : Z)
    : M (option TaskNode_obj) :=
  t ← get_time;
  rows ← _db_read "Tasks" (finished_since (t - recency) action_name);
  first_root (col "uuid" <$> Sql.order_by_desc (col "created_at") rows).

(** [TaskNode.get_chat] *)
Definition TaskNode_get_chat (self : TaskNode_obj) : M (option Node) :=
  triples ← get_triples VNull (task_node_memid self) VNull
              (VText "chat_effect_") VNull "if_exists";
  match triples with
  | (chat_id, _, _) :: _ => n ← construct ChatNode chat_id; mret (Some n)
  | [] => mret None
  end.

(** [TaskNode.get_parent_task] *)
Definition TaskNode_get_parent_task (self : TaskNode_obj)
    : M (option TaskNode_obj) :=
  triples ← get_triples (task_node_memid self) VNull VNull
              (VText "_has_parent_task") VNull "if_exists";
  match triples with
  | [] => mret None
  | [(_, _, parent_memid)] => n ← TaskNode_init parent_memid; mret (Some n)
  | _ => raise AssertionError
  end.

(** [TaskNode.get_child_tasks] *)
Definition TaskNode_get_child_tasks (self : TaskNode_obj)
    : M (list TaskNode_obj) :=
  r ← get_triples VNull (task_node_memid self) VNull
        (VText "_has_parent_task") VNull "if_exists";
  mapM (λ x : Value * Value * Value, TaskNode_init x.1.1) r.

(** [TaskNode.get_root_task].  The [while] loop follows the parent links; it
    is given the number of links it may follow, and answers [None] when they
    do not suffice. *)
Fixpoint TaskNode_get_root_task (fuel : nat) (mem : TaskNode_obj)
    : M (option TaskNode_obj) :=
  parent ← TaskNode_get_parent_task mem;
  match parent with
  | None => mret (Some mem)
  | Some parent =>
      match fuel with
      | O => mret None
      | S fuel' => TaskNode_get_root_task fuel' parent
      end
  end.

(** ** Players *)

(** What [PlayerNode.create] reads from [player_struct]. *)
Record Player := mkPlayer {
  entityId : Value;
  player_name : Value;
  pos_x : Value;
  pos_y : Value;
  pos_z : Value;
  look_pitch : Value;
  look_yaw : Value
}.

(** The row that [PlayerNode.create] inserts. *)
Definition player_row (memid : string) (p : Player) : Row :=
  make_row "ReferenceObjects"
    ["uuid"; "eid"; "name"; "x"; "y"; "z"; "pitch"; "yaw"; "ref_type"]
    [VText memid; entityId p; player_name p; pos_x p; pos_y p; pos_z p;
     look_pitch p; look_yaw p; VText "player"].

(** [PlayerNode.create] *)
Definition PlayerNode_create (player_struct : Player) : M string :=
  memid ← new PlayerNode false;
  db_insert "ReferenceObjects" (player_row memid player_struct);;
  tag (VText memid) (VText "_player");;
  tag (VText memid) (VText "_physical_object");;
  tag (VText memid) (VText "_animate");;
  tag (VText memid) (VText "_not_location");;
  (if negb (is_None (player_name player_struct))
   then add_triple (VText memid) no_text no_text (VText "has_name")
          (player_name player_struct) default_confidence
   else mret tt);;
  mret memid.

(** The SET clause of [PlayerNode.update]. *)
Definition player_update (p : Player) (r : Row) : Row :=
  <["yaw" := look_yaw p]> (<["pitch" := look_pitch p]>
    (<["z" := pos_z p]> (<["y" := pos_y p]> (<["x" := pos_x p]>
      (<["name" := player_name p]> (<["eid" := entityId p]> r)))))).

(** [PlayerNode.update] *)
Definition PlayerNode_update (p : Player) (memid : Value) : M Value :=
  db_update "ReferenceObjects" (λ r, Sql.eq (col "uuid" r) memid)
    (player_update p);;
  mret memid.

(** [PlayerNode.get_pos]: unpacking the row raises when there is none. *)
Definition PlayerNode_get_pos (self : Node) : M (Value * Value * Value) :=
  r ← _db_read_one "ReferenceObjects"
        (λ r, Sql.eq (col "uuid" r) (node_memid self));
  match r with
  | Some r => mret (col "x" r, col "y" r, col "z" r)
  | None => raise TypeError
  end.

(** [AgentMemory.get_player_by_eid] *)
Definition get_player_by_eid (eid : Value) : M (option Node) :=
  r ← _db_read_one "ReferenceObjects" (λ r, Sql.eq (col "eid" r) eid);
  match r with
  | Some r => n ← construct PlayerNode (col "uuid" r); mret (Some n)
  | None => mret None
  end.

(** [AgentMemory.get_player_by_name] *)
Definition get_player_by_name (name : Value) : M (option Node) :=
  r ← _db_read_one "ReferenceObjects"
        (λ r, Sql.eq (col "ref_type" r) (VText "player")
              && Sql.eq (col "name" r) name);
  match r with
  | Some r => n ← construct PlayerNode (col "uuid" r); mret (Some n)
  | None => mret None
  end.

(** * What the further statements name *)

(** [speaker != ? AND time >= ?], the WHERE clause of
    [get_most_recent_incoming_chat]. *)
Definition incoming (after : Value) (r : Row) : bool :=
  sql_ne (col "speaker" r) (VText self_memid) && Sql.ge (col "time" r) after.

(** A player as [PlayerNode.create] is given one. *)
Definition a_player : Player :=
  mkPlayer (VInt 42) (VText "dashboard") (VReal 0) (VReal 63) (VReal 0)
    (VReal 0) (VReal 0).

(** The action names a type for which the table has no handler. *)
Definition unknown_action (action_handlers : gmap string Handler) (a : LF)
    : Prop :=
  ∃ d k, a = LDict d ∧ d !! "action_type" = Some (LStr k)
    ∧ action_handlers !! k = None.

(** No triple has as subject or object an identifier that is still to be
    drawn. *)
Definition unreferenced (m : AgentMemory) : Prop :=
  ∀ t k, t ∈ table "Triples" m → (uuid_supply m ≤ k)%N →
    col "subj" t ≠ VText (uuid_hex k) ∧ col "obj" t ≠ VText (uuid_hex k).

(** A check that decides [unreferenced] on a concrete store. *)
Definition unreferenced_check (m : AgentMemory) : bool :=
  forallb (λ t, drawn_before (uuid_supply m) (col "subj" t)
                && drawn_before (uuid_supply m) (col "obj" t))
    (table "Triples" m).

(** The WHERE clause that [get_triples] builds from its arguments. *)
Definition where_clause (subj obj subj_text pred_text obj_text : Value)
    (t : Row) : bool :=
  forallb (λ x : string * Value, Sql.eq (col x.1 t) x.2)
    (List.filter (λ x : string * Value, negb (is_None x.2))
       [("subj", subj); ("subj_text", subj_text); ("pred_text", pred_text);
        ("obj", obj); ("obj_text", obj_text)]).

(** The ON clause and the snapshot filter of the join, for one triple. *)
Definition live_subject (t e : Row) : bool :=
  Sql.eq (col "subj" t) (col "uuid" e)
  && Sql.eq (col "is_snapshot" e) (VInt 0).

(** What [get_triples] returns for a triple with [return_obj_text]
    "if_exists". *)
Definition triple_if_exists (t : Row) : Value * Value * Value :=
  (col "subj" t, col "pred_text" t,
   if truthy (col "obj_text" t) then col "obj_text" t else col "obj" t).

(** A chat by a player, then a task pushed as the effect of a chat, then the
    chat of the task looked up. *)
Definition chat_then_task (speaker chat : Value) (task : Task)
    : M (option Node) :=
  add_chat speaker chat;;
  n ← task_stack_push task VNull true;
  TaskNode_get_chat n.

(** A task pushed, then a second one pushed as its child; then the parent of
    the child, the root of the child and the children of the parent looked
    up. *)
Definition parent_then_child (parent child : Task) (fuel : nat)
    : M (option TaskNode_obj * option TaskNode_obj * list TaskNode_obj) :=
  p ← task_stack_push parent VNull false;
  c ← task_stack_push child (task_node_memid p) false;
  q ← TaskNode_get_parent_task c;
  r ← TaskNode_get_root_task fuel c;
  kids ← TaskNode_get_child_tasks p;
  mret (q, r, kids).

(** The class is registered under "Time". *)
Definition registers_time (cls : NodeCls) : bool :=
  match NODE_TYPE cls with
  | VText k => String.eqb k "Time"
  | _ => false
  end.

(** The store right after [AgentMemory(nodelist=[TaskNode, ChatNode])]. *)
Definition chat_last_memory : AgentMemory :=
  final_state (AgentMemory_init [TaskNode; ChatNode] 0).

(** The store after [NamedAbstractionNode.create]: as it was when the name
    has an abstraction, and with a new entity and its row otherwise. *)
Definition created (name : Value) (m : AgentMemory) : AgentMemory :=
  match named name m with
  | Some _ => m
  | None =>
      append_row "NamedAbstractions"
        (abstraction_row (uuid_hex (uuid_supply m)) name)
        (append_row "Memories"
           (memory_row (uuid_hex (uuid_supply m)) NamedAbstractionNode
              (time m) false)
           (drawn m))
  end.

(** The entity of [Memories] and the row of [NamedAbstractions] that are
    made, under the identifier [k], for a name that has no abstraction in
    [m]; nothing is made for a name that has one. *)
Definition new_abstraction_entity (name : string) (k : N) (m : AgentMemory)
    : list Row :=
  match named (VText name) m with
  | Some _ => []
  | None => [memory_row (uuid_hex k) NamedAbstractionNode (time m) false]
  end.

Definition new_abstraction_row (name : string) (k : N) (m : AgentMemory)
    : list Row :=
  match named (VText name) m with
  | Some _ => []
  | None => [abstraction_row (uuid_hex k) (VText name)]
  end.

(** A store with a location, and the identifier of the location. *)
Definition location_memory : AgentMemory :=
  final_state (add_location (VReal 1) (VReal 2) (VReal 3) one_task_memory).

Definition location_memid : Value :=
  VText (uuid_hex (uuid_supply one_task_memory)).

(** * Theorems *)


(** * Examples *)

Example fresh_memory_tables :
  length (table "Memories" fresh_memory) = 4%nat
  ∧ length (table "NamedAbstractions" fresh_memory) = 3%nat
  ∧ length (table "Triples" fresh_memory) = 2%nat
  ∧ table "Tasks" fresh_memory = [].
Proof. vm_compute. done. Qed.

Example one_task_memory_peek :
  returned (task_stack_peek one_task_memory)
  = Some (Some (mkTaskNode (VText "5") (mkTask "Move" (Some "5") "")
                 (VInt 1) (VInt (-1)) (VText "Move"))).
Proof. vm_compute. done. Qed.

Example finished_task_memory_peek :
  returned (task_stack_peek finished_task_memory) = Some None.
Proof. vm_compute. done. Qed.

(** * SQL comparisons and ORDER BY *)

Section SqlFacts.
Lemma compare_antisym v w : Sql.compare w v = CompOpp (Sql.compare v w).
Proof.
  destruct v, w; simpl; auto using Z.compare_antisym, String.compare_antisym.
  all: symmetry; apply Qcompare_antisym.
Qed.

Lemma compare_refl v : Sql.compare v v = Eq.
Proof.
  pose proof (compare_antisym v v) as H.
  destruct (Sql.compare v v); simpl in H; congruence.
Qed.

Lemma compare_lt_int_trans v a c :
  Sql.compare v (VInt a) = Lt → a ≤ c → Sql.compare v (VInt c) = Lt.
Proof.
  destruct v as [|z|q|s|t]; simpl; try done.
  - rewrite !Z.compare_lt_iff. lia.
  - rewrite <- !Qlt_alt. intros H1 H2. eapply Qlt_le_trans; [exact H1|].
    rewrite <- Zle_Qle. done.
Qed.

Section Order.
Context {A : Type} (key : A → Value).

Lemma elem_of_insert_desc x y l :
  y ∈ Sql.insert_desc key x l ↔ y = x ∨ y ∈ l.
Proof.
  induction l as [|z l IH]; simpl.
  - rewrite elem_of_cons, !elem_of_nil. tauto.
  - destruct (Sql.compare (key x) (key z));
      rewrite !elem_of_cons, ?IH; tauto.
Qed.

Lemma elem_of_order_by_desc y l : y ∈ Sql.order_by_desc key l ↔ y ∈ l.
Proof.
  unfold Sql.order_by_desc.
  cut (∀ acc, y ∈ foldl (λ acc x, Sql.insert_desc key x acc) acc l ↔ y ∈ acc ∨ y ∈ l).
  { intros H. rewrite H, elem_of_nil. tauto. }
  induction l as [|x l IH]; intros acc; simpl.
  - rewrite elem_of_nil. tauto.
  - rewrite IH, elem_of_insert_desc, elem_of_cons. tauto.
Qed.

Lemma head_order_by_desc x l :
  x ∈ l →
  (∀ y, y ∈ l → y = x ∨ Sql.compare (key y) (key x) = Lt) →
  head (Sql.order_by_desc key l) = Some x.
Proof.
  intros Hx Hmax. unfold Sql.order_by_desc.
  set (I := λ acc : list A,
    (x ∈ acc → head acc = Some x) ∧
    (∀ y, y ∈ acc → y = x ∨ Sql.compare (key y) (key x) = Lt)).
  assert (Hstep : ∀ acc z, I acc → (z = x ∨ Sql.compare (key z) (key x) = Lt) →
                  I (Sql.insert_desc key z acc)).
  { intros acc z [Hh Hlt] Hz. split.
    - intros Hin. apply elem_of_insert_desc in Hin as [Hin|Hacc].
      + subst z. destruct acc as [|a acc]; [done|]. simpl.
        destruct (Hlt a) as [->|Ha]; [left| |].
        * by rewrite compare_refl.
        * by rewrite compare_antisym, Ha.
      + specialize (Hh Hacc). destruct acc as [|a acc]; [done|].
        simpl in Hh. injection Hh as ->. simpl.
        destruct Hz as [->|Hz]; [by rewrite compare_refl|by rewrite Hz].
    - intros y Hy. apply elem_of_insert_desc in Hy as [->|Hy]; auto. }
  assert (Hfold : ∀ l' acc, I acc →
    (∀ y, y ∈ l' → y = x ∨ Sql.compare (key y) (key x) = Lt) →
    I (foldl (λ acc x, Sql.insert_desc key x acc) acc l')).
  { induction l' as [|z l' IH]; intros acc HI Hl'; simpl; [done|].
    apply IH; [apply Hstep; [done|apply Hl'; left]|].
    intros y Hy. apply Hl'. by right. }
  destruct (Hfold l []) as [Hh _]; [split; [by intros ?%elem_of_nil|by intros ? ?%elem_of_nil]|done|].
  apply Hh. fold (Sql.order_by_desc key l). by apply elem_of_order_by_desc.
Qed.
End Order.

Lemma eq_text v s : Sql.eq v (VText s) = true → v = VText s.
Proof.
  destruct v as [| | |s'|]; simpl; try done.
  destruct (String.compare s' s) eqn:E; try done.
  apply String.compare_eq_iff in E. by subst.
Qed.

Lemma eq_text_refl s : Sql.eq (VText s) (VText s) = true.
Proof.
  simpl. pose proof (compare_refl (VText s)) as H. simpl in H. by rewrite H.
Qed.

Lemma eq_text_ne v s : v ≠ VText s → Sql.eq v (VText s) = false.
Proof.
  intros Hne. destruct (Sql.eq v (VText s)) eqn:E; [|done].
  by apply eq_text in E.
Qed.
End SqlFacts.

(** * Identifiers *)

Section Uuid.
Lemma pretty_N_go_first x s :
  (0 < x)%N → ∃ c rest, pretty_N_go x s = String c rest ∧ c ≠ "0"%char.
Proof.
  revert s. induction (N.lt_wf_0 x) as [x _ IH]; intros s Hx.
  rewrite pretty_N_go_step by done.
  destruct (decide (x `div` 10 = 0)%N) as [Hz|Hnz].
  - rewrite Hz, pretty_N_go_0. eexists _, _. split; [done|].
  apply N.div_small_iff in Hz; [|done].
  rewrite N.mod_small by done.
  unfold pretty_N_char. repeat case_match; (done || lia).
- apply IH; [apply N.div_lt; [done|reflexivity]|].
    destruct (x `div` 10)%N; [done|reflexivity].
Qed.

Lemma uuid_hex_first k :
  uuid_hex k = "0" ∨ ∃ c rest, uuid_hex k = String c rest ∧ c ≠ "0"%char.
Proof.
  unfold uuid_hex, pretty, pretty_N. case_decide; [by left|right].
  apply pretty_N_go_first. lia.
Qed.

Lemma uuid_hex_inj k k' : uuid_hex k = uuid_hex k' → k = k'.
Proof. apply pretty_N_inj. Qed.

Lemma uuid_hex_truthy k : truthy (VText (uuid_hex k)) = true.
Proof.
  simpl. destruct (uuid_hex_first k) as [->|(c & rest & -> & _)]; done.
Qed.

Lemma uuid_hex_ne_self k : uuid_hex k ≠ self_memid.
Proof.
  destruct (uuid_hex_first k) as [->|(c & rest & -> & Hc)]; [done|].
  unfold self_memid. intros [= ->]. done.
Qed.
End Uuid.

(** * The store *)

Section Store.
Implicit Types (m : AgentMemory) (r : Row) (name : string).

Lemma table_insert_eq name rows m :
  table name (set_db (λ d, <[name := rows]> d) m) = rows.
Proof. unfold table, set_db; simpl. apply lookup_total_insert_eq. Qed.

Lemma table_insert_ne name name' rows m :
  name ≠ name' →
  table name' (set_db (λ d, <[name := rows]> d) m) = table name' m.
Proof. intros. unfold table, set_db; simpl. by apply lookup_total_insert_ne. Qed.

Lemma col_insert_eq c v r : col c (<[c := v]> r) = v.
Proof. unfold col. by rewrite lookup_insert_eq. Qed.

Lemma col_insert_ne c c' v r : c ≠ c' → col c' (<[c := v]> r) = col c' r.
Proof. intros. unfold col. by rewrite lookup_insert_ne. Qed.
End Store.

(** Unfolds the monad down to the state-passing functions. *)
Ltac unfold_monad :=
  unfold mbind, St_bind, bind, mret, St_ret, ret, raise, gets, modify in *.

(** * The task ledger *)

Section Ledger.
Implicit Types (m : AgentMemory) (r : Row).

(** [task_stack_peek] looks at the rows on the stack only. *)
Lemma task_stack_peek_empty m :
  List.filter on_stack (table "Tasks" m) = [] →
  task_stack_peek m = Returns None m.
Proof.
  intros H. unfold task_stack_peek, _db_read. unfold_monad.
  by rewrite H.
Qed.

(** C7. With no active task, that is no row of [Tasks] with [finished_at]
    negative and [paused] zero, [task_stack_pop] raises [ValueError] and
    leaves the store as it is, whereas [task_stack_peek] on the same store
    returns [None]. *)
Theorem task_stack_pop_empty_raises m :
  List.filter on_stack (table "Tasks" m) = [] →
  task_stack_pop m
    = Raises (ValueError "Called task_stack_pop with empty stack") m
  ∧ task_stack_peek m = Returns None m.
Proof.
  intros H. split; [|by apply task_stack_peek_empty].
  unfold task_stack_pop. unfold_monad.
  by rewrite (task_stack_peek_empty m H).
Qed.

Lemma task_stack_pop_empty_raises_witness :
  task_stack_pop finished_task_memory
    = Raises (ValueError "Called task_stack_pop with empty stack")
        finished_task_memory
  ∧ task_stack_peek finished_task_memory = Returns None finished_task_memory.
Proof. apply task_stack_pop_empty_raises. vm_compute. reflexivity. Defined.

(** ** What [task_stack_pause] and [task_stack_resume] report *)

Lemma unfinished_set_paused v r :
  unfinished (<["paused" := v]> r) = unfinished r.
Proof. unfold unfinished. by rewrite col_insert_ne. Qed.

Lemma task_stack_pause_run m :
  task_stack_pause m
  = Returns (bool_decide (0 < length (List.filter unfinished (table "Tasks" m)))%nat)
      (set_db (λ d, <["Tasks" :=
         List.map (λ r, if unfinished r then <["paused" := VInt 1]> r else r)
           (table "Tasks" m)]> d) m).
Proof. reflexivity. Qed.

Lemma task_stack_resume_run m :
  task_stack_resume m
  = Returns (bool_decide (0 < length (table "Tasks" m))%nat)
      (set_db (λ d, <["Tasks" :=
         List.map (λ r, <["paused" := VInt 0]> r) (table "Tasks" m)]> d) m).
Proof.
  unfold task_stack_resume, db_update. unfold_monad.
  f_equal.
  - f_equal. f_equal. induction (table "Tasks" m); simpl; congruence.
Qed.

Lemma filter_unfinished_pause l :
  List.filter unfinished
    (List.map (λ r, if unfinished r then <["paused" := VInt 1]> r else r) l)
  = List.map (λ r, <["paused" := VInt 1]> r) (List.filter unfinished l).
Proof.
  induction l as [|r l IH]; simpl; [done|].
  destruct (unfinished r) eqn:E; simpl.
  - by rewrite unfinished_set_paused, E, IH.
  - by rewrite E, IH.
Qed.

(** Whenever some task is unfinished, [task_stack_pause] returns [True], and
    so do a second [task_stack_pause] and the two [task_stack_resume] after
    it: the row count of the UPDATE does not depend on the [paused] column. *)
Lemma task_stack_pause_again m :
  List.filter unfinished (table "Tasks" m) ≠ [] →
  returned ((x1 ← task_stack_pause; x2 ← task_stack_pause;
             x3 ← task_stack_resume; x4 ← task_stack_resume;
             mret (x1, x2, x3, x4)) m)
  = Some (true, true, true, true).
Proof.
  intros Hne. unfold_monad.
  rewrite task_stack_pause_run, task_stack_pause_run, table_insert_eq.
  rewrite task_stack_resume_run, task_stack_resume_run.
  rewrite !table_insert_eq, filter_unfinished_pause, !length_map.
  assert (0 < length (List.filter unfinished (table "Tasks" m)))%nat as Hlen.
  { destruct (List.filter unfinished (table "Tasks" m)); [done|simpl; lia]. }
  assert (0 < length (table "Tasks" m))%nat as Hlen'.
  { eapply Nat.lt_le_trans; [exact Hlen|]. apply List.filter_length_le. }
  simpl. by rewrite !bool_decide_eq_true_2.
Qed.

(** C3, on the store with one active task: the second [task_stack_pause]
    and the second [task_stack_resume] return [True] as well. *)
Theorem task_stack_pause_twice_one_task :
  returned ((x1 ← task_stack_pause; x2 ← task_stack_pause;
             x3 ← task_stack_resume; x4 ← task_stack_resume;
             mret (x1, x2, x3, x4)) one_task_memory)
  = Some (true, true, true, true).
Proof. vm_compute. reflexivity. Qed.

(** ** What [task_stack_find_lowest_instance] returns *)

(** C2, on three stores: the only [Move] task is finished and is returned;
    it is paused and is returned; there is no task and the call raises. *)
Theorem task_stack_find_lowest_instance_not_on_stack :
  returned (task_stack_find_lowest_instance [VText "Move"] finished_task_memory)
  = Some (Some (mkTaskNode (VText "5") (mkTask "Move" (Some "5") "")
                  (VInt 1) (VInt 2) (VText "Move")))
  ∧ returned (task_stack_peek finished_task_memory) = Some None
  ∧ returned (task_stack_find_lowest_instance [VText "Move"] paused_task_memory)
    = Some (Some (mkTaskNode (VText "5") (mkTask "Move" (Some "5") "")
                    (VInt 1) (VInt (-1)) (VText "Move")))
  ∧ returned (task_stack_peek paused_task_memory) = Some None
  ∧ task_stack_find_lowest_instance [VText "Move"] fresh_memory
    = Raises TypeError fresh_memory.
Proof. vm_compute. done. Qed.

(** Whatever the store, a call that matches no row of [Tasks] raises: the
    [return None] of the source is never reached. *)
Lemma task_stack_find_lowest_instance_no_match names m :
  names ≠ [] →
  List.filter (λ r, existsb (λ n, Sql.eq (col "action_name" r) n) names)
    (table "Tasks" m) = [] →
  task_stack_find_lowest_instance names m = Raises TypeError m.
Proof.
  intros Hne Hnone. unfold task_stack_find_lowest_instance, _db_read.
  destruct names as [|n names]; [done|]. unfold_monad. by rewrite Hnone.
Qed.
End Ledger.


(** * Appending rows and drawing identifiers *)

Section Append.
Implicit Types (m : AgentMemory) (r : Row) (name : string).

Lemma table_append_eq name r m :
  table name (append_row name r m) = table name m ++ [r].
Proof. apply table_insert_eq. Qed.

Lemma table_append_ne name name' r m :
  name ≠ name' → table name' (append_row name r m) = table name' m.
Proof. apply table_insert_ne. Qed.

Lemma table_append name name' r m :
  table name' (append_row name r m)
  = if decide (name = name') then table name' m ++ [r] else table name' m.
Proof.
  case_decide as H; [subst; apply table_append_eq|by apply table_append_ne].
Qed.

Lemma table_drawn name m : table name (drawn m) = table name m.
Proof. reflexivity. Qed.

Lemma fresh_drawn m : fresh m → fresh (drawn m).
Proof.
  intros H name r k Hr Hk. apply (H name r k Hr). simpl in Hk. lia.
Qed.

Lemma fresh_append name r m :
  fresh m →
  (∀ k, (uuid_supply m ≤ k)%N → col "uuid" r ≠ VText (uuid_hex k)) →
  fresh (append_row name r m).
Proof.
  intros H Hr name' r' k Hin Hk. rewrite table_append in Hin.
  case_decide; [|by eapply H].
  apply elem_of_app in Hin as [Hin|Hin%list_elem_of_singleton].
  - by eapply H.
  - subst r'. by apply Hr.
Qed.

(** A row carrying the identifier just drawn keeps the supply fresh. *)
Lemma fresh_append_drawn name r m :
  fresh m →
  col "uuid" r = VText (uuid_hex (uuid_supply m)) →
  fresh (append_row name r (drawn m)).
Proof.
  intros H Hr. apply fresh_append; [by apply fresh_drawn|].
  intros k Hk. rewrite Hr. intros [= Heq%uuid_hex_inj]. simpl in Hk. lia.
Qed.

Lemma fresh_add_tick d m : fresh m → fresh (final_state (add_tick d m)).
Proof. intros H. exact H. Qed.

(** No row of a fresh store is selected by an identifier still to be drawn. *)
Lemma fresh_filter_uuid name k m :
  fresh m → (uuid_supply m ≤ k)%N →
  List.filter (λ r, Sql.eq (col "uuid" r) (VText (uuid_hex k))) (table name m)
  = [].
Proof.
  intros H Hk. 
  assert (∀ r, r ∈ table name m →
    Sql.eq (col "uuid" r) (VText (uuid_hex k)) = false) as Hall.
  { intros r Hr. apply eq_text_ne. by eapply H. }
  induction (table name m) as [|r l IH]; simpl; [done|].
  rewrite Hall by left. apply IH. intros r' Hr'. apply Hall. by right.
Qed.
End Append.

(** * Pushing tasks *)

Section Push.
Implicit Types (m : AgentMemory) (r : Row) (task : Task).

Lemma task_row_uuid memid task now :
  col "uuid" (task_row memid task now) = VText memid.
Proof. reflexivity. Qed.

Lemma task_row_on_stack memid task now :
  on_stack (task_row memid task now) = true.
Proof. reflexivity. Qed.

Lemma task_row_created_at memid task now :
  col "created_at" (task_row memid task now) = VInt now.
Proof. reflexivity. Qed.

Lemma memory_row_uuid memid cls now snap :
  col "uuid" (memory_row memid cls now snap) = VText memid.
Proof. reflexivity. Qed.

Lemma filter_uuid_singleton (r : Row) memid :
  col "uuid" r = VText memid →
  List.filter (λ r, Sql.eq (col "uuid" r) (VText memid)) [r] = [r].
Proof. intros H. simpl. by rewrite H, eq_text_refl. Qed.

Lemma TaskNode_init_last memid task now m :
  List.filter (λ r, Sql.eq (col "uuid" r) (VText memid)) (table "Tasks" m) = [] →
  TaskNode_init (VText memid) (append_row "Tasks" (task_row memid task now) m)
  = Returns (mkTaskNode (VText memid) task (VInt now) (VInt (-1))
               (VText (task_class task)))
      (append_row "Tasks" (task_row memid task now) m).
Proof.
  intros Hnone. unfold TaskNode_init, _db_read_one. unfold_monad.
  rewrite table_append_eq, List.filter_app, Hnone.
  rewrite filter_uuid_singleton by apply task_row_uuid.
  reflexivity.
Qed.

Lemma task_stack_push_run task m :
  fresh m →
  task_stack_push task VNull false m
  = Returns (pushed_node task m) (pushed task m).
Proof.
  intros Hfresh. unfold task_stack_push, TaskNode_create, new, uuid4,
    get_time, db_insert. unfold_monad. cbn [truthy].
  unfold pushed_node, pushed.
  change (time (append_row "Memories" _ (drawn m))) with (time m).
  change (time (drawn m)) with (time m).
  apply (TaskNode_init_last (uuid_hex (uuid_supply m))
           (set_task_memid (uuid_hex (uuid_supply m)) task) (time m)).
  rewrite table_append_ne by done. rewrite table_drawn.
  by apply fresh_filter_uuid.
Qed.

Lemma fresh_pushed task m : fresh m → fresh (pushed task m).
Proof.
  intros H. unfold pushed. apply fresh_append.
  - by apply fresh_append_drawn.
  - intros k Hk. rewrite task_row_uuid. intros [= Heq%uuid_hex_inj].
    simpl in Hk. lia.
Qed.

Lemma table_tasks_pushed task m :
  table "Tasks" (pushed task m)
  = table "Tasks" m
    ++ [task_row (uuid_hex (uuid_supply m))
          (set_task_memid (uuid_hex (uuid_supply m)) task) (time m)].
Proof. unfold pushed. by rewrite table_append_eq, table_append_ne. Qed.
End Push.

(** * Peek and pop *)

Section PeekPop.
Implicit Types (m : AgentMemory) (r : Row) (task : Task).

(** [task_stack_peek] returns the active task that was created last. *)
Lemma task_stack_peek_latest m x task :
  x ∈ List.filter on_stack (table "Tasks" m) →
  (∀ y, y ∈ List.filter on_stack (table "Tasks" m) →
     y = x ∨ Sql.compare (col "created_at" y) (col "created_at" x) = Lt) →
  head (List.filter (λ r, Sql.eq (col "uuid" r) (col "uuid" x))
          (table "Tasks" m)) = Some x →
  col "pickled" x = VBlob task →
  task_stack_peek m = Returns (Some (node_of_row x task)) m.
Proof.
  intros Hin Hmax Hrow Hp. unfold task_stack_peek, _db_read. unfold_monad.
  rewrite (head_order_by_desc _ x _ Hin Hmax).
  unfold TaskNode_init, _db_read_one. unfold_monad.
  by rewrite Hrow, Hp.
Qed.

Lemma map_if_false {A} (cond : A → bool) (f : A → A) (l : list A) :
  (∀ x, x ∈ l → cond x = false) →
  List.map (λ x, if cond x then f x else x) l = l.
Proof.
  induction l as [|x l IH]; intros H; simpl; [done|].
  rewrite (H x) by left. f_equal. apply IH. intros y Hy. apply H. by right.
Qed.

Lemma add_tick_run d m : add_tick d m = Returns tt (ticked d m).
Proof. reflexivity. Qed.

Lemma fresh_ticked d m : fresh m → fresh (ticked d m).
Proof. intros H. exact H. Qed.

Lemma elem_of_filter_list {A} (f : A → bool) (l : list A) x :
  x ∈ List.filter f l ↔ x ∈ l ∧ f x = true.
Proof. rewrite !list_elem_of_In. apply List.filter_In. Qed.

Lemma on_stack_finished r t :
  0 ≤ t → on_stack (<["finished_at" := VInt t]> r) = false.
Proof.
  intros Ht. unfold on_stack. rewrite col_insert_eq. simpl.
  destruct (Z.compare_spec t 0); try done. lia.
Qed.
End PeekPop.

Section ReverseCreationOrder.
Implicit Types (m : AgentMemory) (r : Row) (task : Task).

Lemma push_after_tick_run d task m :
  fresh m →
  push_after_tick d task m
  = Returns (pushed_node task (ticked d m)) (pushed task (ticked d m)).
Proof.
  intros H. unfold push_after_tick. unfold_monad. rewrite add_tick_run.
  by apply task_stack_push_run, fresh_ticked.
Qed.

Lemma compare_int_lt a b : a < b → Sql.compare (VInt a) (VInt b) = Lt.
Proof. intros. simpl. by apply Z.compare_lt_iff. Qed.

(** C5. Tasks A, B and C are pushed in that order, the clock advancing
    before each push, on a store whose active tasks were all created before
    A.  Then [task_stack_peek] returns C; [task_stack_pop] returns C and
    sets the [finished_at] of its row to the time of the call; and the next
    [task_stack_peek] returns B. *)
Theorem task_stack_reverse_creation_order A B C dA dB dC d m :
  fresh m → 0 ≤ time m → 0 < dA → 0 < dB → 0 < dC → 0 ≤ d →
  (∀ r, r ∈ table "Tasks" m → on_stack r = true →
     Sql.compare (col "created_at" r) (VInt (time m + dA)) = Lt) →
  ∃ a b c m3 m4,
    (a ← push_after_tick dA A; b ← push_after_tick dB B;
     c ← push_after_tick dC C; mret (a, b, c)) m = Returns (a, b, c) m3
    ∧ (task_class (task a), task_class (task b), task_class (task c))
      = (task_class A, task_class B, task_class C)
    ∧ (created_at a, created_at b, created_at c)
      = (VInt (time m + dA), VInt (time m + dA + dB),
         VInt (time m + dA + dB + dC))
    ∧ task_stack_peek m3 = Returns (Some c) m3
    ∧ (add_tick d;; task_stack_pop) m3 = Returns c m4
    ∧ time m4 = time m3 + d
    ∧ (∃ r, r ∈ table "Tasks" m4 ∧ col "uuid" r = task_node_memid c)
    ∧ (∀ r, r ∈ table "Tasks" m4 → col "uuid" r = task_node_memid c →
         col "finished_at" r = VInt (time m4))
    ∧ task_stack_peek m4 = Returns (Some b) m4.
Proof.
  intros Hfresh Ht HdA HdB HdC Hd Hold.
  set (m1 := pushed A (ticked dA m)).
  set (m2 := pushed B (ticked dB m1)).
  set (m3 := pushed C (ticked dC m2)).
  assert (fresh m1) as Hf1 by by apply fresh_pushed, fresh_ticked.
  assert (fresh m2) as Hf2 by by apply fresh_pushed, fresh_ticked.
  assert (fresh m3) as Hf3 by by apply fresh_pushed, fresh_ticked.
  set (k := uuid_supply m).
  set (tA := time m + dA). set (tB := tA + dB). set (tC := tB + dC).
  set (rA := task_row (uuid_hex k) (set_task_memid (uuid_hex k) A) tA).
  set (rB := task_row (uuid_hex (k + 1))
               (set_task_memid (uuid_hex (k + 1)) B) tB).
  set (rC := task_row (uuid_hex (k + 1 + 1))
               (set_task_memid (uuid_hex (k + 1 + 1)) C) tC).
  assert (col "uuid" rA = VText (uuid_hex k)) as HuA by done.
  assert (col "uuid" rB = VText (uuid_hex (k + 1))) as HuB by done.
  assert (col "uuid" rC = VText (uuid_hex (k + 1 + 1))) as HuC by done.
  assert (table "Tasks" m3 = (table "Tasks" m ++ [rA; rB]) ++ [rC]) as HT3.
  { unfold m3. rewrite table_tasks_pushed. unfold m2 at 1.
    change (table "Tasks" (ticked dC (pushed B (ticked dB m1))))
      with (table "Tasks" (pushed B (ticked dB m1))).
    rewrite table_tasks_pushed. unfold m1 at 1.
    change (table "Tasks" (ticked dB (pushed A (ticked dA m))))
      with (table "Tasks" (pushed A (ticked dA m))).
    rewrite table_tasks_pushed. by rewrite <- !app_assoc. }
  (* identifiers already in the store, and those of A and B, differ from C's *)
  assert (∀ j, (k ≤ j)%N → ∀ r, r ∈ table "Tasks" m →
            Sql.eq (col "uuid" r) (VText (uuid_hex j)) = false) as Hother.
  { intros j Hj r Hr. apply eq_text_ne. by eapply Hfresh. }
  assert (∀ i j, i ≠ j →
            Sql.eq (VText (uuid_hex i)) (VText (uuid_hex j)) = false) as Hne.
  { intros i j Hij. apply eq_text_ne. intros [= ?%uuid_hex_inj]. done. }
  assert (∀ j, (k ≤ j)%N →
    List.filter (λ r, Sql.eq (col "uuid" r) (VText (uuid_hex j)))
      (table "Tasks" m) = []) as Hnone.
  { intros j Hj. by apply fresh_filter_uuid. }
  assert (List.filter on_stack ((table "Tasks" m ++ [rA; rB]) ++ [rC])
          = (List.filter on_stack (table "Tasks" m) ++ [rA; rB]) ++ [rC])
    as Hact3.
  { by rewrite !List.filter_app. }
  assert (∀ y, y ∈ List.filter on_stack (table "Tasks" m) ++ [rA] →
            y = rB ∨ Sql.compare (col "created_at" y) (col "created_at" rB) = Lt)
    as HmaxB.
  { intros y [Hy|Hy%list_elem_of_singleton]%elem_of_app; right.
    - apply elem_of_filter_list in Hy as [Hy Hon].
      apply compare_lt_int_trans with tA; [by apply Hold|]. unfold tB. lia.
    - subst y. apply compare_int_lt. unfold tB. lia. }
  assert (∀ m', table "Tasks" m' = (table "Tasks" m ++ [rA; rB]) ++ [rC] →
            task_stack_peek m'
            = Returns (Some (pushed_node C (ticked dC m2))) m') as HpeekC.
  { intros m' HT.
    change (pushed_node C (ticked dC m2))
      with (node_of_row rC (set_task_memid (uuid_hex (k + 1 + 1)) C)).
    apply task_stack_peek_latest; rewrite ?HT; [| | |done].
    - rewrite Hact3. apply elem_of_app. right. left.
    - rewrite Hact3. intros y [Hy|Hy%list_elem_of_singleton]%elem_of_app;
        [right|by left].
      change (List.filter on_stack (table "Tasks" m) ++ [rA; rB])
        with (List.filter on_stack (table "Tasks" m) ++ [rA] ++ [rB]) in Hy.
      rewrite app_assoc in Hy.
      apply elem_of_app in Hy as [Hy|Hy%list_elem_of_singleton].
      + destruct (HmaxB y Hy) as [->|Hlt].
        * apply compare_int_lt. unfold tC. lia.
        * apply compare_lt_int_trans with tB; [done|]. unfold tC. lia.
      + subst y. apply compare_int_lt. unfold tC. lia.
    - rewrite !List.filter_app, HuC, Hnone by lia. simpl.
      rewrite HuA, HuB, HuC, !Hne by lia. by rewrite eq_text_refl. }
  set (t4 := time m3 + d).
  set (rC' := <["finished_at" := VInt t4]> rC).
  assert (0 ≤ t4) as Ht4.
  { unfold t4, m3. change (time (pushed C (ticked dC m2))) with tC.
    unfold tC, tB, tA. lia. }
  assert (∀ m', table "Tasks" m' = (table "Tasks" m ++ [rA; rB]) ++ [rC'] →
            task_stack_peek m'
            = Returns (Some (pushed_node B (ticked dB m1))) m') as HpeekB.
  { intros m' HT.
    change (pushed_node B (ticked dB m1))
      with (node_of_row rB (set_task_memid (uuid_hex (k + 1)) B)).
    assert (List.filter on_stack ((table "Tasks" m ++ [rA; rB]) ++ [rC'])
            = (List.filter on_stack (table "Tasks" m) ++ [rA]) ++ [rB]) as Hact4.
    { rewrite !List.filter_app. simpl. unfold rC'.
      rewrite on_stack_finished by done.
      by rewrite app_nil_r, <- app_assoc. }
    apply task_stack_peek_latest; rewrite ?HT; [| | |done].
    - rewrite Hact4. apply elem_of_app. right. left.
    - rewrite Hact4. intros y [Hy|Hy%list_elem_of_singleton]%elem_of_app;
        [by apply HmaxB|by left].
    - rewrite !List.filter_app, HuB, Hnone by lia. simpl.
      rewrite HuA, HuB, !Hne by lia. rewrite eq_text_refl.
      unfold rC'. rewrite col_insert_ne by done.
      rewrite HuC, Hne by lia. done. }
  set (m4 := set_db (λ db, <["Tasks" := (table "Tasks" m ++ [rA; rB]) ++ [rC']]> db)
               (ticked d m3)).
  assert (table "Tasks" m4 = (table "Tasks" m ++ [rA; rB]) ++ [rC']) as HT4.
  { apply table_insert_eq. }
  eexists (pushed_node A (ticked dA m)), (pushed_node B (ticked dB m1)),
    (pushed_node C (ticked dC m2)), m3, m4.
  split.
  { unfold_monad. rewrite push_after_tick_run by done. fold m1.
    rewrite push_after_tick_run by done. fold m2.
    rewrite push_after_tick_run by done. done. }
  split; [done|]. split; [done|].
  split; [by apply HpeekC|].
  split.
  { (* pop *)
    unfold_monad. rewrite add_tick_run. unfold task_stack_pop. unfold_monad.
    rewrite (HpeekC (ticked d m3) HT3).
    unfold get_time, db_update. unfold_monad.
    change (table "Tasks" (ticked d m3)) with (table "Tasks" m3).
    rewrite HT3. f_equal. unfold m4, set_db. f_equal. f_equal.
    rewrite !List.map_app. f_equal.
    - f_equal.
      + apply map_if_false. intros r Hr.
        apply (Hother (k + 1 + 1)%N); [lia|done].
      + change (task_node_memid (pushed_node C (ticked dC m2)))
          with (VText (uuid_hex (k + 1 + 1))).
        simpl. rewrite HuA, HuB, !Hne by lia. done.
    - change (task_node_memid (pushed_node C (ticked dC m2)))
        with (VText (uuid_hex (k + 1 + 1))).
      simpl. rewrite HuC, eq_text_refl. done. }
  split; [done|].
  split.
  { exists rC'. split.
    - rewrite HT4. apply elem_of_app. right. left.
    - unfold rC'. by rewrite col_insert_ne. }
  split.
  { intros r Hr Hu. rewrite HT4 in Hr.
    apply elem_of_app in Hr as [Hr|Hr%list_elem_of_singleton].
    - exfalso.
      change (table "Tasks" m ++ [rA; rB])
        with (table "Tasks" m ++ [rA] ++ [rB]) in Hr.
      rewrite app_assoc in Hr.
      apply elem_of_app in Hr as [Hr|Hr%list_elem_of_singleton].
      + apply elem_of_app in Hr as [Hr|Hr%list_elem_of_singleton].
        * eapply (Hfresh "Tasks" r (k + 1 + 1)%N); [done|lia|done].
        * subst r. rewrite HuA in Hu.
          injection Hu as Hu%uuid_hex_inj. lia.
      + subst r. rewrite HuB in Hu.
        injection Hu as Hu%uuid_hex_inj. lia.
    - subst r. unfold rC'. by rewrite col_insert_eq. }
  by apply HpeekB.
Qed.
End ReverseCreationOrder.


Lemma fresh_check_sound m : fresh_check m = true → fresh m.
Proof.
  intros Hc name r k Hr Hk Heq.
  unfold table in Hr. rewrite lookup_total_alt in Hr.
  destruct (db m !! name) as [rows|] eqn:Hrows; simpl in Hr;
    [|by apply elem_of_nil in Hr].
  apply elem_of_map_to_list in Hrows.
  unfold fresh_check in Hc. rewrite forallb_forall in Hc.
  apply list_elem_of_In in Hrows. specialize (Hc _ Hrows). simpl in Hc.
  rewrite forallb_forall in Hc. apply list_elem_of_In in Hr.
  specialize (Hc _ Hr). rewrite Heq in Hc. simpl in Hc.
  apply orb_true_iff in Hc as [Hc|Hc].
  - apply String.eqb_eq in Hc. by apply uuid_hex_ne_self in Hc.
  - apply existsb_exists in Hc as (j & Hj & Hc).
    apply String.eqb_eq, uuid_hex_inj in Hc. apply in_seq in Hj. lia.
Qed.

Lemma fresh_fresh_memory : fresh fresh_memory.
Proof. apply fresh_check_sound. vm_compute. reflexivity. Qed.

Lemma fresh_one_task_memory : fresh one_task_memory.
Proof. apply fresh_check_sound. vm_compute. reflexivity. Qed.

Lemma task_stack_reverse_creation_order_witness :
  ∃ a b c m3 m4,
    (a ← push_after_tick 1 (a_task "A"); b ← push_after_tick 1 (a_task "B");
     c ← push_after_tick 1 (a_task "C"); mret (a, b, c)) one_task_memory
    = Returns (a, b, c) m3
    ∧ (task_class (task a), task_class (task b), task_class (task c))
      = ("A", "B", "C")
    ∧ (created_at a, created_at b, created_at c)
      = (VInt (time one_task_memory + 1), VInt (time one_task_memory + 1 + 1),
         VInt (time one_task_memory + 1 + 1 + 1))
    ∧ task_stack_peek m3 = Returns (Some c) m3
    ∧ (add_tick 0;; task_stack_pop) m3 = Returns c m4
    ∧ time m4 = time m3 + 0
    ∧ (∃ r, r ∈ table "Tasks" m4 ∧ col "uuid" r = task_node_memid c)
    ∧ (∀ r, r ∈ table "Tasks" m4 → col "uuid" r = task_node_memid c →
         col "finished_at" r = VInt (time m4))
    ∧ task_stack_peek m4 = Returns (Some b) m4.
Proof.
  apply (task_stack_reverse_creation_order (a_task "A") (a_task "B")
           (a_task "C") 1 1 1 0 one_task_memory).
  - apply fresh_one_task_memory.
  - by vm_compute.
  - lia.
  - lia.
  - lia.
  - lia.
  - assert (table "Tasks" one_task_memory
            = [task_row "5" (set_task_memid "5" (a_task "Move")) 1]) as ->
      by (vm_compute; reflexivity).
    intros r ->%list_elem_of_singleton _. vm_compute. reflexivity.
Defined.


(** * The interpreter *)

Section Interpreter.
Context (action_handlers : gmap string Handler).
Implicit Types (i : Interpreter) (actions seq : list LF).

Example step_stop_then_other :
  (step base_handlers stop_then_other).2
  = [an_action "OTHERACTION"; an_action "STOP"].
Proof. vm_compute. reflexivity. Qed.

Example step_stop_then_other_response :
  returned (step base_handlers stop_then_other).1
  = Some (VText "Stopping.  What should I do next?", VNull).
Proof. vm_compute. reflexivity. Qed.

Lemma dispatch_prefix actions response i :
  (dispatch action_handlers actions response i).2 `prefix_of` actions.
Proof.
  revert response i. induction actions as [|a actions IH]; intros response i.
  - done.
  - simpl.
    destruct ((action_type ← get_action_type a;
               get_handler action_handlers action_type) i) as [h i'|e i'];
      simpl; [|apply prefix_nil].
    destruct (h (speaker i') a i') as [r i''|e i'']; simpl.
    + specialize (IH r i''). destruct (dispatch _ _ _ _) as [o called].
      simpl in *. by apply prefix_cons.
    + apply prefix_cons, prefix_nil.
Qed.

(** A loop that runs to its end has called the handler of every action. *)
Lemma dispatch_returns actions response i r i' :
  (dispatch action_handlers actions response i).1 = Returns r i' →
  (dispatch action_handlers actions response i).2 = actions.
Proof.
  revert response i. induction actions as [|a actions IH]; intros response i.
  - done.
  - simpl.
    destruct ((action_type ← get_action_type a;
               get_handler action_handlers action_type) i) as [h i0|e i0];
      simpl; [|done].
    destruct (h (speaker i0) a i0) as [r0 i1|e i1]; simpl; [|done].
    specialize (IH r0 i1). destruct (dispatch _ _ _ _) as [o called].
    simpl in *. intros Ho. by rewrite IH.
Qed.

(** The loop over [l1 ++ l2] is the loop over [l1] and, when this one runs
    to its end, the loop over [l2] from there. *)
Lemma dispatch_app l1 l2 response i :
  dispatch action_handlers (l1 ++ l2) response i
  = match dispatch action_handlers l1 response i with
    | (Returns r i', called) =>
        let '(o, called') := dispatch action_handlers l2 r i' in
        (o, called ++ called')
    | (Raises e i', called) => (Raises e i', called)
    end.
Proof.
  revert response i. induction l1 as [|a l1 IH]; intros response i.
  - simpl. by destruct (dispatch _ _ _ _).
  - simpl.
    destruct ((action_type ← get_action_type a;
               get_handler action_handlers action_type) i) as [h i0|e i0];
      simpl; [|done].
    destruct (h (speaker i0) a i0) as [r0 i1|e i1]; simpl; [|done].
    rewrite IH. destruct (dispatch action_handlers l1 r0 i1) as [[r i'|e i'] c];
      [|done].
    by destruct (dispatch action_handlers l2 r i').
Qed.

Lemma collect_actions_sequence i seq :
  action_dict i !! "action" = None →
  action_dict i !! "action_sequence" = Some (LList seq) →
  collect_actions i
  = Returns (reverse seq)
      (set_action_dict
         (<["action_sequence" := LList (reverse seq)]> (action_dict i)) i).
Proof.
  intros Ha Hs. unfold collect_actions. unfold_monad. by rewrite Ha, Hs.
Qed.

Lemma step_called i t :
  action_dict i !! "dialogue_type" = Some t →
  is_human_give_command t = true →
  (step action_handlers i).2 = (step_body action_handlers i).2.
Proof.
  intros Ht Hc. unfold step. rewrite Ht, Hc.
  destruct (step_body action_handlers i) as [[r i'|e i'] called]; [done|].
  by destruct e.
Qed.

Lemma step_returns i t r i' called :
  action_dict i !! "dialogue_type" = Some t →
  is_human_give_command t = true →
  step_body action_handlers i = (Returns r i', called) →
  step action_handlers i = (Returns r i', called).
Proof. intros Ht Hc Hb. unfold step. by rewrite Ht, Hc, Hb. Qed.

(** The calls of [step] for a command with an [action_sequence]. *)
Lemma step_sequence i t seq :
  action_dict i !! "dialogue_type" = Some t →
  is_human_give_command t = true →
  action_dict i !! "action" = None →
  action_dict i !! "action_sequence" = Some (LList seq) →
  (step action_handlers i).2 `prefix_of` reverse seq
  ∧ ∀ response i',
      (step_body action_handlers i).1 = Returns response i' →
      step action_handlers i = (Returns response i', reverse seq).
Proof.
  intros Ht Hc Ha Hs. split.
  - rewrite (step_called i t Ht Hc). unfold step_body.
    rewrite (collect_actions_sequence i seq Ha Hs).
    case_bool_decide; [apply prefix_nil|apply dispatch_prefix].
  - intros response i' Hret.
    apply (step_returns i t _ _ _ Ht Hc).
    revert Hret. unfold step_body.
    rewrite (collect_actions_sequence i seq Ha Hs).
    case_bool_decide; [done|]. intros Hret.
    pose proof (dispatch_returns _ _ _ _ _ Hret) as Hcalled.
    destruct (dispatch _ _ _ _) as [o called]. simpl in *. by subst.
Qed.

(** C1, as the code has it.  For a HUMAN_GIVE_COMMAND without [action] whose
    [action_sequence] is the list [seq], the handler calls of [step] are an
    initial part of the reversed list.  In every run in which the [try] block
    returns, that is, in which each action is given a handler and no call of
    a handler raises, whatever the handlers do on other inputs, the calls are
    the whole reversed list, [step] returns what the block returns, and the
    handler of each action is called after the handler of the action that
    follows it in [seq]. *)
Theorem step_dispatches_in_reverse i t seq :
  action_dict i !! "dialogue_type" = Some t →
  is_human_give_command t = true →
  action_dict i !! "action" = None →
  action_dict i !! "action_sequence" = Some (LList seq) →
  (step action_handlers i).2 `prefix_of` reverse seq
  ∧ ∀ response i',
      (step_body action_handlers i).1 = Returns response i' →
      step action_handlers i = (Returns response i', reverse seq)
      ∧ ∀ n a b, seq !! n = Some a → seq !! S n = Some b →
          invoked_before b a (step action_handlers i).2.
Proof.
  intros Ht Hc Ha Hs.
  destruct (step_sequence i t seq Ht Hc Ha Hs) as [Hpre Hall].
  split; [exact Hpre|]. intros response i' Hret.
  rewrite (Hall response i' Hret). split; [done|].
  intros n a b Hna Hnb. cbn [snd].
  exists (reverse (drop (S (S n)) seq)), [], (reverse (take n seq)).
  rewrite <- (take_drop_middle seq n a Hna) at 1.
  rewrite (drop_S seq b (S n) Hnb).
  rewrite reverse_app, !reverse_cons, <- !app_assoc. done.
Qed.

(** C6. A HUMAN_GIVE_COMMAND with no [action] and with no [action_sequence],
    or an empty one, ends the turn with the interpreter finished, the fixed
    non-empty response, no handler called and the memory, hence the task
    ledger, as it was. *)
Theorem step_empty_command_fails i t :
  action_dict i !! "dialogue_type" = Some t →
  is_human_give_command t = true →
  action_dict i !! "action" = None →
  (action_dict i !! "action_sequence" = None
   ∨ action_dict i !! "action_sequence" = Some (LList [])) →
  ∃ i', step action_handlers i
        = (Returns (VText nothing_to_do, VNull) i', [])
    ∧ finished i' = true
    ∧ memory i' = memory i
    ∧ nothing_to_do ≠ "".
Proof.
  intros Ht Hc Ha Hs. unfold step, step_body. rewrite Ht, Hc.
  destruct Hs as [Hs|Hs].
  - unfold collect_actions. unfold_monad. rewrite Ha, Hs. simpl.
    by eexists.
  - rewrite (collect_actions_sequence i [] Ha Hs). simpl. by eexists.
Qed.
End Interpreter.

Lemma an_action_inj a b : an_action a = an_action b → a = b.
Proof.
  intros H.
  apply (f_equal (λ x, match x with
                       | LDict d => d !! "action_type"
                       | _ => None
                       end)) in H.
  unfold an_action in H. rewrite !lookup_singleton_eq in H. by injection H.
Qed.

(** C1 as stated fails: with the sequence "STOP, OTHERACTION" the handler of
    STOP is not called before the handler of OTHERACTION. *)
Lemma step_not_in_sequence_order :
  ¬ invoked_before (an_action "STOP") (an_action "OTHERACTION")
      (step base_handlers stop_then_other).2.
Proof.
  rewrite step_stop_then_other. intros (l1 & l2 & l3 & H).
  destruct l1 as [|x l1].
  - apply (f_equal head) in H. simpl in H. apply (inj Some) in H.
    by apply an_action_inj in H.
  - apply (f_equal length) in H. simpl in H.
    rewrite !length_app in H. simpl in H. rewrite !length_app in H.
    simpl in H. lia.
Qed.

Lemma step_body_stop_then_other :
  ∃ response i',
    (step_body base_handlers stop_then_other).1 = Returns response i'.
Proof. eexists _, _. vm_compute. reflexivity. Qed.

Lemma step_dispatches_in_reverse_witness :
  (step base_handlers stop_then_other).2
  = reverse [an_action "STOP"; an_action "OTHERACTION"]
  ∧ invoked_before (an_action "OTHERACTION") (an_action "STOP")
      (step base_handlers stop_then_other).2.
Proof.
  destruct step_body_stop_then_other as (r & i' & Hret).
  destruct (step_dispatches_in_reverse base_handlers stop_then_other
              (LStr "HUMAN_GIVE_COMMAND")
              [an_action "STOP"; an_action "OTHERACTION"])
    as [_ H]; [reflexivity..|].
  destruct (H r i' Hret) as [H1 H2].
  split; [rewrite H1; reflexivity|]. by apply (H2 0%nat).
Defined.

Lemma step_empty_command_fails_witness :
  ∃ i', step base_handlers empty_command
        = (Returns (VText nothing_to_do, VNull) i', [])
    ∧ finished i' = true
    ∧ memory i' = memory empty_command
    ∧ nothing_to_do ≠ "".
Proof.
  apply (step_empty_command_fails base_handlers empty_command
           (LStr "HUMAN_GIVE_COMMAND")); [reflexivity..|].
  left. reflexivity.
Defined.


(** * Chats are registered as "Time" *)

Section Chats.
Implicit Types (m : AgentMemory) (r : Row).

Example register_nodes_default :
  register_nodes NODELIST !! "Time" = Some TimeNode
  ∧ register_nodes NODELIST !! "Chat" = None
  ∧ register_nodes [TaskNode; ChatNode] !! "Time" = Some ChatNode.
Proof. vm_compute. done. Qed.

(** The store after [ChatNode.create]. *)
Lemma add_chat_run speaker chat m :
  add_chat speaker chat m
  = Returns (uuid_hex (uuid_supply m))
      (append_row "Chats"
         (make_row "Chats" ["uuid"; "speaker"; "chat"; "time"]
            [VText (uuid_hex (uuid_supply m)); speaker; chat; VInt (time m)])
         (append_row "Memories"
            (memory_row (uuid_hex (uuid_supply m)) ChatNode (time m) false)
            (drawn m))).
Proof. reflexivity. Qed.

(** [get_node_from_memid] on the identifier of the last row of [Memories]. *)
Lemma get_node_from_memid_last memid r m m' :
  table "Memories" m' = table "Memories" m ++ [r] →
  List.filter (λ r, Sql.eq (col "uuid" r) (VText memid)) (table "Memories" m)
  = [] →
  col "uuid" r = VText memid →
  get_node_from_memid (VText memid) m' = Returns (col "node_type" r) m'.
Proof.
  intros HT Hnone Hu. unfold get_node_from_memid, _db_read_one. unfold_monad.
  rewrite HT, List.filter_app, Hnone. simpl. by rewrite Hu, eq_text_refl.
Qed.

(** The registry holds, under "Time", the last class of the node list whose
    [NODE_TYPE] is "Time". *)
Lemma register_nodes_time nodelist :
  register_nodes nodelist !! "Time" = last (List.filter registers_time nodelist).
Proof.
  unfold register_nodes.
  assert (∀ acc : gmap string NodeCls,
            foldl (λ acc node, match NODE_TYPE node with
                               | VText k => <[k := node]> acc
                               | _ => acc
                               end) acc nodelist !! "Time"
            = match last (List.filter registers_time nodelist) with
              | Some cls => Some cls
              | None => acc !! "Time"
              end) as H.
  { induction nodelist as [|cls l IH]; intros acc; [done|].
    cbn [foldl List.filter]. rewrite IH.
    destruct cls; cbn [registers_time NODE_TYPE String.eqb Ascii.eqb Bool.eqb];
      rewrite ?last_cons;
      destruct (last (List.filter registers_time l)); try done;
      by rewrite ?lookup_insert_eq, ?lookup_insert_ne. }
  rewrite H. by destruct (last _).
Qed.

(** C4, as the code has it.  [add_chat] writes the new entity into
    [Memories] with node type "Time"; [get_node_from_memid] then answers
    "Time" for it; and [get_mem_by_id] without a node type runs the
    constructor of the class that the registry of the memory holds under
    "Time", or of [MemoryNode] when it holds none.  This is [TimeNode] when
    the registry holds [TimeNode] there and [ChatNode] when it holds
    [ChatNode]; for a registry built from a node list it is the last class of
    the list whose [NODE_TYPE] is "Time". *)
Theorem add_chat_node_type_is_time speaker chat m :
  fresh m →
  ∃ memid m',
    add_chat speaker chat m = Returns memid m'
    ∧ (∃ r, table "Memories" m' = table "Memories" m ++ [r]
            ∧ col "uuid" r = VText memid
            ∧ col "node_type" r = VText "Time")
    ∧ get_node_from_memid (VText memid) m' = Returns (VText "Time") m'
    ∧ get_mem_by_id (VText memid) VNull m'
      = construct (default MemoryNode (nodes m !! "Time")) (VText memid) m'
    ∧ (nodes m !! "Time" = Some TimeNode →
       get_mem_by_id (VText memid) VNull m'
       = Returns (mkNode TimeNode (VText memid)) m')
    ∧ (nodes m !! "Time" = Some ChatNode →
       get_mem_by_id (VText memid) VNull m'
       = Returns (mkNode ChatNode (VText memid)) m')
    ∧ (∀ nodelist, nodes m = register_nodes nodelist →
       get_mem_by_id (VText memid) VNull m'
       = Returns
           (mkNode (default MemoryNode
                      (last (List.filter registers_time nodelist)))
              (VText memid)) m').
Proof.
  intros Hfresh. rewrite add_chat_run.
  set (memid := uuid_hex (uuid_supply m)).
  set (r := memory_row memid ChatNode (time m) false).
  set (c := make_row "Chats" _ _).
  set (m' := append_row "Chats" _ _).
  assert (table "Memories" m' = table "Memories" m ++ [r]) as HT.
  { unfold m'. rewrite table_append_ne by done. by rewrite table_append_eq. }
  assert (get_node_from_memid (VText memid) m' = Returns (VText "Time") m')
    as Hnode.
  { apply (get_node_from_memid_last memid r m m' HT); [|done].
    by apply fresh_filter_uuid. }
  assert (get_mem_by_id (VText memid) VNull m'
          = construct (default MemoryNode (nodes m !! "Time")) (VText memid) m')
    as Hget.
  { unfold get_mem_by_id. unfold_monad. cbn [is_None].
    rewrite Hnode. reflexivity. }
  assert (construct ChatNode (VText memid) m'
          = Returns (mkNode ChatNode (VText memid)) m') as Hchat.
  { unfold construct, _db_read_one. unfold_monad. cbn [TABLE default].
    unfold m'. rewrite table_append_eq, table_append_ne by done.
    rewrite table_drawn, List.filter_app.
    pose proof (fresh_filter_uuid "Chats" (uuid_supply m) m Hfresh) as Hf.
    fold memid in Hf. rewrite Hf by lia.
    simpl. replace (col "uuid" c) with (VText memid) by done.
    by rewrite eq_text_refl. }
  exists memid, m'. split; [done|]. split; [by exists r|]. split; [done|].
  split; [done|]. rewrite Hget.
  split; [by intros ->|]. split; [by intros ->|].
  intros nodelist ->. rewrite register_nodes_time.
  destruct (last (List.filter registers_time nodelist)) as [cls|] eqn:E;
    [|done].
  apply last_Some_elem_of, elem_of_filter_list in E as [_ E].
  by destruct cls.
Qed.

Lemma add_chat_node_type_is_time_witness :
  ∃ memid m',
    add_chat (VText "speaker") (VText "come here") fresh_memory
    = Returns memid m'
    ∧ (∃ r, table "Memories" m' = table "Memories" fresh_memory ++ [r]
            ∧ col "uuid" r = VText memid
            ∧ col "node_type" r = VText "Time")
    ∧ get_node_from_memid (VText memid) m' = Returns (VText "Time") m'
    ∧ get_mem_by_id (VText memid) VNull m'
      = Returns (mkNode TimeNode (VText memid)) m'.
Proof.
  destruct (add_chat_node_type_is_time (VText "speaker") (VText "come here")
              fresh_memory fresh_fresh_memory)
    as (memid & m' & H1 & H2 & H3 & _ & H4 & _).
  exists memid, m'. split; [exact H1|]. split; [exact H2|].
  split; [exact H3|]. apply H4. vm_compute. reflexivity.
Defined.

(** C4 as stated fails: which constructor runs is a matter of the node list
    of the memory.  In a memory built with the node list
    [[TaskNode, ChatNode]] a chat is still recorded as "Time", and
    [get_mem_by_id] on its identifier runs the constructor of [ChatNode]. *)
Lemma add_chat_not_always_time_node :
  ∃ memid m',
    add_chat (VText "speaker") (VText "come here") chat_last_memory
    = Returns memid m'
    ∧ get_node_from_memid (VText memid) m' = Returns (VText "Time") m'
    ∧ get_mem_by_id (VText memid) VNull m'
      = Returns (mkNode ChatNode (VText memid)) m'
    ∧ get_mem_by_id (VText memid) VNull m'
      ≠ Returns (mkNode TimeNode (VText memid)) m'.
Proof.
  eexists _, _. split; [vm_compute; reflexivity|].
  split; [vm_compute; reflexivity|]. split; [vm_compute; reflexivity|].
  vm_compute. discriminate.
Qed.
End Chats.


(** * Queries see live entities only *)

Section LiveQueries.
Implicit Types (m : AgentMemory) (r t e : Row) (s : Value).

Example get_triples_archived_task :
  returned (get_triples VNull VNull VNull (VText "_archive_of") VNull
              "if_exists" archived_task_memory) = Some []
  ∧ returned (get_triples VNull VNull VNull (VText "_has_archive") VNull
                "if_exists" archived_task_memory)
    = Some [(VText "5", VText "_has_archive", VText "6")]
  ∧ List.map (λ r, (col "subj" r, col "pred_text" r, col "obj" r))
      (table "Triples" archived_task_memory)
    = [(VText self_memid, VText "has_tag", VText "2");
       (VText self_memid, VText "has_tag", VText "4");
       (VText "6", VText "_archive_of", VText "5");
       (VText "5", VText "_has_archive", VText "6")].
Proof. vm_compute. done. Qed.

Lemma elem_of_join_live cond m t e :
  (t, e) ∈ join_live cond m →
  t ∈ table "Triples" m ∧ cond t = true
  ∧ e ∈ table "Memories" m
  ∧ Sql.eq (col "subj" t) (col "uuid" e) = true
  ∧ Sql.eq (col "is_snapshot" e) (VInt 0) = true.
Proof.
  unfold join_live. intros H.
  apply list_elem_of_bind in H as (t' & H & Ht).
  apply list_elem_of_bind in H as (e' & H & He).
  apply list_elem_of_singleton in H. injection H as -> ->.
  apply elem_of_filter_list in Ht as [Ht Hc].
  apply elem_of_filter_list in He as [He Hj].
  apply andb_true_iff in Hj as [Hj Hs]. done.
Qed.

Lemma join_live_subject cond m t e :
  (t, e) ∈ join_live cond m → live_entity m (col "subj" t).
Proof.
  intros (_ & _ & He & Hj & Hs)%elem_of_join_live. by exists e.
Qed.

Lemma eq_right_refl v w : Sql.eq v w = true → Sql.eq w w = true.
Proof.
  intros H. destruct w as [|z|q|u|b]; [by destruct v|..]; unfold Sql.eq.
  - by rewrite compare_refl.
  - by rewrite compare_refl.
  - by rewrite compare_refl.
  - by apply bool_decide_eq_true_2.
Qed.

Lemma join_live_memid cond m t e :
  (t, e) ∈ join_live cond m → live_entity m (col "uuid" e).
Proof.
  intros (_ & _ & He & Hj & Hs)%elem_of_join_live. exists e.
  split; [done|]. split; [|done]. by eapply eq_right_refl.
Qed.

(** A value that SQL finds equal to 0 is false for Python. *)
Lemma eq_zero_falsy v : Sql.eq v (VInt 0) = true → truthy v = false.
Proof.
  destruct v as [|z|q| |]; simpl; try done.
  - destruct (Z.compare_spec z 0); try done. subst. done.
  - destruct (q ?= inject_Z 0)%Q eqn:E; try done. intros _.
    apply Qeq_alt in E. apply Qeq_bool_iff in E.
    change (inject_Z 0) with (0%Q) in E. by rewrite E.
Qed.

(** With [uuid] a key of [Memories], a live entity is not a snapshot. *)
Lemma live_not_snapshot m s :
  unique_memids m → live_entity m s → ¬ snapshot_entity m s.
Proof.
  intros Hu (e & He & Hse & Hlive) (e' & He' & Hse' & Hsnap).
  rewrite <- (Hu s e e' He He' Hse Hse') in Hsnap.
  apply eq_zero_falsy in Hlive. congruence.
Qed.

Lemma assert_true {S} (b : bool) (s : S) : b = true → assert b s = Returns tt s.
Proof. by intros ->. Qed.

(** C9. Whatever filters [get_triples] accepts, it returns, leaves the store
    as it is, and the subject of every triple it returns identifies a row of
    [Memories] with [is_snapshot = 0]; so does every identifier that
    [get_memids_by_tag] returns.  With [uuid] a key of [Memories], none of
    them identifies a snapshot. *)
Theorem queries_exclude_snapshots
    subj obj subj_text pred_text obj_text return_obj_text tag m :
  accepted subj obj subj_text pred_text obj_text = true →
  (∃ l, get_triples subj obj subj_text pred_text obj_text return_obj_text m
        = Returns l m
        ∧ ∀ s p o, (s, p, o) ∈ l →
            live_entity m s ∧ (unique_memids m → ¬ snapshot_entity m s))
  ∧ (∃ l, get_memids_by_tag tag m = Returns l m
          ∧ ∀ s, s ∈ l →
              live_entity m s ∧ (unique_memids m → ¬ snapshot_entity m s)).
Proof.
  intros Hacc. unfold accepted in Hacc.
  apply andb_true_iff in Hacc as [[H1 H2]%andb_true_iff H3].
  split.
  - unfold get_triples. unfold_monad.
    rewrite (assert_true _ m H1), (assert_true _ m H2), (assert_true _ m H3).
    eexists. split; [reflexivity|].
    intros s p o Hin.
    apply list_elem_of_fmap in Hin as ([[[s' pt] o'] ot] & Heq & Hin).
    apply list_elem_of_fmap in Hin as ([t e] & Hrow & Hin).
    simpl in Hrow. injection Hrow as -> -> -> ->.
    assert (s = col "subj" t) as ->.
    { destruct (String.eqb return_obj_text "if_exists");
        [destruct (truthy (col "obj_text" t))|
         destruct (String.eqb return_obj_text "always")];
        by injection Heq. }
    assert (live_entity m (col "subj" t)) as Hlive
      by by eapply join_live_subject.
    split; [done|]. intros Hu. by apply live_not_snapshot.
  - unfold get_memids_by_tag. unfold_monad.
    eexists. split; [reflexivity|].
    intros s Hin.
    assert (∀ l : list Value, s ∈ distinct l → s ∈ l) as Hdistinct.
    { induction l as [|v l IH]; simpl; [done|].
      intros [->|Hs]%elem_of_cons; [left|right].
      apply elem_of_filter_list in Hs as [Hs _]. by apply IH. }
    apply Hdistinct in Hin.
    apply list_elem_of_fmap in Hin as ([t e] & -> & Hin). simpl.
    assert (live_entity m (col "uuid" e)) as Hlive
      by by eapply join_live_memid.
    split; [done|]. intros Hu. by apply live_not_snapshot.
Qed.

Lemma NoDup_fmap_eq {A B} (f : A → B) (l : list A) x y :
  NoDup (f <$> l) → x ∈ l → y ∈ l → f x = f y → x = y.
Proof.
  induction l as [|a l IH]; intros Hnd Hx Hy Hf; [by apply elem_of_nil in Hx|].
  rewrite fmap_cons in Hnd. apply NoDup_cons in Hnd as [Ha Hnd].
  apply elem_of_cons in Hx as [->|Hx]; apply elem_of_cons in Hy as [->|Hy].
  - done.
  - exfalso. apply Ha. rewrite Hf. by apply list_elem_of_fmap_2.
  - exfalso. apply Ha. rewrite <- Hf. by apply list_elem_of_fmap_2.
  - by apply IH.
Qed.

Lemma unique_check_sound m : unique_check m = true → unique_memids m.
Proof.
  unfold unique_check. intros [Htext Hnd]%andb_true_iff.
  apply bool_decide_eq_true in Hnd. rewrite forallb_forall in Htext.
  intros s r1 r2 H1 H2 E1 E2.
  apply (NoDup_fmap_eq (col "uuid") _ r1 r2 Hnd H1 H2).
  pose proof (Htext r1 (proj1 (list_elem_of_In _ _) H1)) as T1.
  pose proof (Htext r2 (proj1 (list_elem_of_In _ _) H2)) as T2.
  destruct (col "uuid" r1) as [| | |u1|]; try done.
  destruct (col "uuid" r2) as [| | |u2|]; try done.
  apply eq_text in E1, E2. congruence.
Qed.

Lemma unique_archived_task_memory : unique_memids archived_task_memory.
Proof. apply unique_check_sound. vm_compute. reflexivity. Qed.

Lemma queries_exclude_snapshots_witness :
  (∃ l, get_triples VNull VNull VNull (VText "_has_archive") VNull "if_exists"
          archived_task_memory = Returns l archived_task_memory
        ∧ ∀ s p o, (s, p, o) ∈ l →
            live_entity archived_task_memory s
            ∧ ¬ snapshot_entity archived_task_memory s)
  ∧ (∃ l, get_memids_by_tag (VText "_agent") archived_task_memory
          = Returns l archived_task_memory
          ∧ ∀ s, s ∈ l →
              live_entity archived_task_memory s
              ∧ ¬ snapshot_entity archived_task_memory s).
Proof.
  destruct (queries_exclude_snapshots VNull VNull VNull (VText "_has_archive")
              VNull "if_exists" (VText "_agent") archived_task_memory)
    as [(l1 & E1 & H1) (l2 & E2 & H2)]; [reflexivity|].
  split.
  - exists l1. split; [exact E1|]. intros s p o Hin.
    destruct (H1 s p o Hin) as [Hl Hs]. split; [exact Hl|].
    apply Hs, unique_archived_task_memory.
  - exists l2. split; [exact E2|]. intros s Hin.
    destruct (H2 s Hin) as [Hl Hs]. split; [exact Hl|].
    apply Hs, unique_archived_task_memory.
Defined.
End LiveQueries.


(** * Named abstractions *)

Section Abstractions.
Implicit Types (m : AgentMemory) (r : Row) (x : string).

Lemma abstraction_row_cols memid name :
  col "uuid" (abstraction_row memid name) = VText memid
  ∧ col "name" (abstraction_row memid name) = name.
Proof. split; reflexivity. Qed.

Lemma abstracted_refl m : abstracted m m.
Proof.
  split; try done; exists []; by rewrite app_nil_r.
Qed.

Lemma abstracted_drawn m : abstracted m (drawn m).
Proof.
  split; try done; [simpl; lia|..]; exists []; by rewrite app_nil_r.
Qed.

Lemma abstracted_trans m1 m2 m3 :
  abstracted m1 m2 → abstracted m2 m3 → abstracted m1 m3.
Proof.
  intros [Ht1 Hn1 Hs1 Ho1 (e1 & Hm1 & Hf1) (a1 & Ha1 & Hg1)]
         [Ht2 Hn2 Hs2 Ho2 (e2 & Hm2 & Hf2) (a2 & Ha2 & Hg2)].
  split.
  - congruence.
  - congruence.
  - lia.
  - intros name H1 H2. rewrite Ho2, Ho1; done.
  - exists (e1 ++ e2). split; [by rewrite Hm2, Hm1, app_assoc|].
    apply Forall_app. split.
    + eapply Forall_impl; [exact Hf1|]. intros r (k & Hk & ->).
      exists k. split; [lia|done].
    + eapply Forall_impl; [exact Hf2|]. intros r (k & Hk & ->).
      exists k. split; [lia|]. by rewrite Ht1.
  - exists (a1 ++ a2). split; [by rewrite Ha2, Ha1, app_assoc|].
    apply Forall_app. split.
    + eapply Forall_impl; [exact Hg1|]. intros r (k & name & Hk & -> & Hin).
      exists k, name. split; [lia|]. split; [done|].
      rewrite Hm2. apply elem_of_app. by left.
    + eapply Forall_impl; [exact Hg2|]. intros r (k & name & Hk & -> & Hin).
      exists k, name. split; [lia|]. split; [done|]. by rewrite <- Ht1.
Qed.

Lemma fresh_abstracted m m' : fresh m → abstracted m m' → fresh m'.
Proof.
  intros Hfresh [Ht Hn Hs Ho (e & Hm & Hf) (a & Ha & Hg)] name r k Hr Hk.
  destruct (decide (name = "Memories")) as [->|H1];
    [|destruct (decide (name = "NamedAbstractions")) as [->|H2]].
  - rewrite Hm in Hr. apply elem_of_app in Hr as [Hr|Hr].
    + apply (Hfresh _ _ k Hr). lia.
    + rewrite Forall_forall in Hf. destruct (Hf r Hr) as (k' & Hk' & ->).
      rewrite memory_row_uuid. intros [= ?%uuid_hex_inj]. lia.
  - rewrite Ha in Hr. apply elem_of_app in Hr as [Hr|Hr].
    + apply (Hfresh _ _ k Hr). lia.
    + rewrite Forall_forall in Hg.
      destruct (Hg r Hr) as (k' & name & Hk' & -> & _).
      rewrite (proj1 (abstraction_row_cols _ _)).
      intros [= ?%uuid_hex_inj]. lia.
  - rewrite Ho in Hr by done. apply (Hfresh _ _ k Hr). lia.
Qed.

(** A name that has an abstraction keeps it. *)
Lemma named_abstracted name r m m' :
  abstracted m m' → named name m = Some r → named name m' = Some r.
Proof.
  intros [_ _ _ _ _ (a & Ha & _)]. unfold named. rewrite Ha, List.filter_app.
  destruct (List.filter _ (table "NamedAbstractions" m)); [done|].
  by simpl.
Qed.

Lemma named_append_other name tbl r m :
  tbl ≠ "NamedAbstractions" →
  named name (append_row tbl r m) = named name m.
Proof. intros H. unfold named. by rewrite table_append_ne. Qed.

Lemma create_existing name r m :
  named name m = Some r →
  NamedAbstractionNode_create name false m = Returns (col "uuid" r) m.
Proof.
  unfold named. intros H.
  unfold NamedAbstractionNode_create, _db_read_one. unfold_monad.
  by rewrite H.
Qed.

(** The store after [NamedAbstractionNode.create] has made a new entity. *)
Lemma create_new name m :
  named name m = None →
  NamedAbstractionNode_create name false m
  = Returns (VText (uuid_hex (uuid_supply m)))
      (append_row "NamedAbstractions"
         (abstraction_row (uuid_hex (uuid_supply m)) name)
         (append_row "Memories"
            (memory_row (uuid_hex (uuid_supply m)) NamedAbstractionNode
               (time m) false)
            (drawn m))).
Proof.
  unfold named. intros H.
  unfold NamedAbstractionNode_create, _db_read_one. unfold_monad.
  by rewrite H.
Qed.

Lemma abstracted_create_new name m :
  abstracted m
    (append_row "NamedAbstractions"
       (abstraction_row (uuid_hex (uuid_supply m)) name)
       (append_row "Memories"
          (memory_row (uuid_hex (uuid_supply m)) NamedAbstractionNode
             (time m) false)
          (drawn m))).
Proof.
  split; try done.
  - simpl. lia.
  - intros tbl H1 H2. by rewrite !table_append_ne.
  - eexists [_]. split.
    + rewrite table_append_ne by done. by rewrite table_append_eq.
    + constructor; [|done]. exists (uuid_supply m). split; [simpl; lia|done].
  - eexists [_]. split.
    + by rewrite table_append_eq, table_append_ne.
    + constructor; [|done]. exists (uuid_supply m), name.
      split; [simpl; lia|]. split; [done|].
      rewrite table_append_ne by done. rewrite table_append_eq.
      apply elem_of_app. right. left.
Qed.

(** An abstraction that a name has now and had not before is a new entity. *)
Lemma named_new name r m m' :
  abstracted m m' → named name m = None → named name m' = Some r →
  ∃ k, (uuid_supply m ≤ k < uuid_supply m')%N
       ∧ col "uuid" r = VText (uuid_hex k)
       ∧ memory_row (uuid_hex k) NamedAbstractionNode (time m) false
         ∈ table "Memories" m'.
Proof.
  intros [_ _ _ _ _ (a & Ha & Hg)]. unfold named.
  rewrite Ha, List.filter_app.
  destruct (List.filter _ (table "NamedAbstractions" m)); [|done].
  intros _ Hr. simpl in Hr. apply head_Some_elem_of in Hr.
  apply elem_of_filter_list in Hr as [Hr _].
  rewrite Forall_forall in Hg. destruct (Hg r Hr) as (k & nm & Hk & -> & Hin).
  exists k. split; [done|]. split; [|done].
  apply (proj1 (abstraction_row_cols _ _)).
Qed.

(** [NamedAbstractionNode.create] on a text: it returns, the text names the
    identifier returned, and when the text had no abstraction the identifier
    is a new entity of [Memories]. *)
Lemma create_spec x m :
  ∃ id m',
    NamedAbstractionNode_create (VText x) false m = Returns id m'
    ∧ abstracted m m'
    ∧ abstraction_id (VText x) m' = Some id
    ∧ (is_Some (named (VText x) m) → m' = m)
    ∧ (named (VText x) m = None →
       ∃ k, (uuid_supply m ≤ k < uuid_supply m')%N ∧ id = VText (uuid_hex k)
            ∧ memory_row (uuid_hex k) NamedAbstractionNode (time m) false
              ∈ table "Memories" m').
Proof.
  destruct (named (VText x) m) as [r|] eqn:E.
  - exists (col "uuid" r), m. rewrite (create_existing _ r m E).
    split; [done|]. split; [apply abstracted_refl|].
    split; [by unfold abstraction_id; rewrite E|]. split; [done|]. done.
  - eexists _, _. rewrite (create_new _ m E). split; [done|].
    split; [apply abstracted_create_new|].
    split.
    + unfold abstraction_id, named. rewrite table_append_eq.
      rewrite table_append_ne by done. rewrite table_drawn, List.filter_app.
      unfold named in E.
      destruct (List.filter _ (table "NamedAbstractions" m)); [|done].
      simpl. rewrite (proj2 (abstraction_row_cols _ _)), eq_text_refl.
      simpl. by rewrite (proj1 (abstraction_row_cols _ _)).
    + split; [by intros [? ?]|]. intros _. exists (uuid_supply m).
      split; [simpl; lia|]. split; [done|].
      rewrite table_append_ne by done. rewrite table_append_eq.
      apply elem_of_app. right. left.
Qed.

Lemma triple_row_cols memid subj subj_text pred pred_text obj obj_text c :
  let t := triple_row memid subj subj_text pred pred_text obj obj_text c in
  col "uuid" t = VText memid ∧ col "subj" t = subj
  ∧ col "subj_text" t = subj_text ∧ col "pred" t = pred
  ∧ col "pred_text" t = pred_text ∧ col "obj" t = obj
  ∧ col "obj_text" t = obj_text ∧ col "confidence" t = c.
Proof. repeat split; reflexivity. Qed.

Lemma abstraction_id_abstracted name id m m' :
  abstracted m m' → abstraction_id name m = Some id →
  abstraction_id name m' = Some id.
Proof.
  unfold abstraction_id. intros Habs H.
  destruct (named name m) as [r|] eqn:E; [|done].
  by rewrite (named_abstracted name r m m' Habs E).
Qed.

Lemma resolved_abstracted v x id m m' :
  abstracted m m' → resolved v x id m → resolved v x id m'.
Proof.
  unfold resolved. destruct (truthy v); [done|].
  apply abstraction_id_abstracted.
Qed.

(** What [add_triple] does once its assertions hold: it draws the identifier
    of the triple, resolves the predicate, then the object and the subject,
    and appends one row to [Triples]. *)
Lemma add_triple_run subj obj st pt ot confidence m :
  add_triple_accepts subj obj (VText st) (VText ot) = true →
  ∃ pred obj' subj' m3,
    add_triple subj obj (VText st) (VText pt) (VText ot) confidence m
    = Returns tt
        (append_row "Triples"
           (triple_row (uuid_hex (uuid_supply m)) subj' (text_or_None (VText st))
              pred (VText pt) obj' (text_or_None (VText ot)) confidence) m3)
    ∧ abstracted m m3
    ∧ abstraction_id (VText pt) m3 = Some pred
    ∧ resolved obj ot obj' m3
    ∧ resolved subj st subj' m3
    ∧ (is_Some (named (VText pt) m) →
       (truthy obj = false → is_Some (named (VText ot) m)) →
       (truthy subj = false → is_Some (named (VText st) m)) →
       m3 = drawn m).
Proof.
  unfold add_triple_accepts. intros Hacc.
  apply andb_true_iff in Hacc as [[[A1 A2]%andb_true_iff A3]%andb_true_iff A4].
  unfold add_triple. unfold_monad.
  rewrite (assert_true _ m A1), (assert_true _ m A2), (assert_true _ m A3),
    (assert_true _ m A4).
  unfold uuid4, db_insert.
  destruct (create_spec pt (drawn m)) as (pred & m1 & -> & Hab1 & Hid1 & Hs1 & _).
  pose proof (abstracted_trans _ _ _ (abstracted_drawn m) Hab1) as Hm1.
  unfold resolved.
  destruct (truthy obj) eqn:Eobj; destruct (truthy subj) eqn:Esubj.
  - exists pred, obj, subj, m1. split; [done|]. split; [done|].
    split; [done|]. split; [done|]. split; [done|].
    intros Hp _ _. by apply Hs1.
  - destruct (create_spec st m1) as (subj' & m2 & -> & Hab2 & Hid2 & Hs2 & _).
    exists pred, obj, subj', m2. split; [done|].
    split; [by eapply abstracted_trans|].
    split; [by eapply abstraction_id_abstracted|]. split; [done|].
    split; [done|]. intros Hp _ Hsub.
    assert (m1 = drawn m) as E1 by by apply Hs1.
    rewrite <- E1. apply Hs2. rewrite E1. by apply Hsub.
  - destruct (create_spec ot m1) as (obj' & m2 & -> & Hab2 & Hid2 & Hs2 & _).
    exists pred, obj', subj, m2. split; [done|].
    split; [by eapply abstracted_trans|].
    split; [by eapply abstraction_id_abstracted|]. split; [done|].
    split; [done|]. intros Hp Hob _.
    assert (m1 = drawn m) as E1 by by apply Hs1.
    rewrite <- E1. apply Hs2. rewrite E1. by apply Hob.
  - destruct (create_spec ot m1) as (obj' & m2 & -> & Hab2 & Hid2 & Hs2 & _).
    destruct (create_spec st m2) as (subj' & m3 & -> & Hab3 & Hid3 & Hs3 & _).
    exists pred, obj', subj', m3. split; [done|].
    split; [eapply abstracted_trans; [|exact Hab3]; by eapply abstracted_trans|].
    split; [eapply abstraction_id_abstracted; [exact Hab3|];
            by eapply abstraction_id_abstracted|].
    split; [by eapply abstraction_id_abstracted|]. split; [done|].
    intros Hp Hob Hsub.
    assert (m1 = drawn m) as E1 by by apply Hs1.
    assert (m2 = m1) as E2 by (apply Hs2; rewrite E1; by apply Hob).
    rewrite Hs3; [congruence|]. rewrite E2, E1. by apply Hsub.
Qed.

Lemma abstraction_id_append_other name tbl r m :
  tbl ≠ "NamedAbstractions" →
  abstraction_id name (append_row tbl r m) = abstraction_id name m.
Proof. intros H. unfold abstraction_id. by rewrite named_append_other. Qed.

Lemma abstraction_id_named name id m :
  abstraction_id name m = Some id → is_Some (named name m).
Proof. unfold abstraction_id. by destruct (named name m). Qed.

Example add_triple_has_colour :
  let m1 := final_state
    (add_triple (VText "5") no_text no_text (VText "has_colour") (VText "blue")
       default_confidence one_task_memory) in
  let m2 := final_state
    (add_triple (VText "5") no_text no_text (VText "has_colour") (VText "blue")
       default_confidence m1) in
  abstraction_id (VText "blue") one_task_memory = None
  ∧ abstraction_id (VText "blue") m1 = Some (VText "8")
  ∧ abstraction_id (VText "blue") m2 = Some (VText "8")
  ∧ length (table "NamedAbstractions" m1) = 5%nat
  ∧ length (table "NamedAbstractions" m2) = 5%nat
  ∧ List.map (λ r, (col "pred" r, col "obj" r, col "obj_text" r))
      (drop 2 (table "Triples" m2))
    = [(VText "7", VText "8", VText "blue");
       (VText "7", VText "8", VText "blue")].
Proof. vm_compute. done. Qed.

(** C10. A call of [add_triple] that passes its assertions returns and
    appends one triple.  Afterwards the predicate text, and the subject or
    object text where one is given, names an abstraction, whose identifier is
    the one the triple holds; an abstraction that existed before is the one
    kept, and one that did not is a new entity of [Memories] of type
    NamedAbstraction.  A second call with the same arguments appends a triple
    with the same three identifiers and adds no row to [NamedAbstractions] or
    to [Memories]. *)
Theorem add_triple_named_abstractions subj obj st pt ot confidence m :
  add_triple_accepts subj obj (VText st) (VText ot) = true →
  ∃ m1 t1,
    add_triple subj obj (VText st) (VText pt) (VText ot) confidence m
    = Returns tt m1
    ∧ table "Triples" m1 = table "Triples" m ++ [t1]
    ∧ abstraction_id (VText pt) m1 = Some (col "pred" t1)
    ∧ (truthy (VText st) = true →
       abstraction_id (VText st) m1 = Some (col "subj" t1))
    ∧ (truthy (VText ot) = true →
       abstraction_id (VText ot) m1 = Some (col "obj" t1))
    ∧ (∀ name r, named name m = Some r → named name m1 = Some r)
    ∧ (∀ name r, named name m = None → named name m1 = Some r →
         ∃ k, (uuid_supply m ≤ k)%N ∧ col "uuid" r = VText (uuid_hex k)
              ∧ memory_row (uuid_hex k) NamedAbstractionNode (time m) false
                ∈ table "Memories" m1)
    ∧ ∃ m2 t2,
        add_triple subj obj (VText st) (VText pt) (VText ot) confidence m1
        = Returns tt m2
        ∧ table "Triples" m2 = table "Triples" m1 ++ [t2]
        ∧ table "NamedAbstractions" m2 = table "NamedAbstractions" m1
        ∧ table "Memories" m2 = table "Memories" m1
        ∧ (col "pred" t2, col "subj" t2, col "obj" t2)
          = (col "pred" t1, col "subj" t1, col "obj" t1).
Proof.
  intros Hacc.
  destruct (add_triple_run subj obj st pt ot confidence m Hacc)
    as (pred & obj' & subj' & m3 & Hrun & Hab & Hp & Ho & Hs & _).
  set (t1 := triple_row (uuid_hex (uuid_supply m)) subj' _ pred _ obj' _ _)
    in Hrun.
  set (m1 := append_row "Triples" t1 m3) in Hrun.
  assert (truthy subj = negb (truthy (VText st))
          ∧ truthy obj = negb (truthy (VText ot))) as [Esubj Eobj].
  { unfold add_triple_accepts in Hacc.
    destruct (truthy subj), (truthy obj), (truthy (VText st)),
      (truthy (VText ot)); done. }
  exists m1, t1. split; [done|].
  split. { unfold m1. rewrite table_append_eq. by rewrite (abs_other _ _ Hab). }
  split. { unfold m1. by rewrite abstraction_id_append_other. }
  split.
  { intros Hst. unfold resolved in Hs. rewrite Esubj, Hst in Hs.
    unfold m1. by rewrite abstraction_id_append_other. }
  split.
  { intros Hot. unfold resolved in Ho. rewrite Eobj, Hot in Ho.
    unfold m1. by rewrite abstraction_id_append_other. }
  split.
  { intros name r Hr. unfold m1. rewrite named_append_other by done.
    by eapply named_abstracted. }
  split.
  { intros name r Hnone Hr. unfold m1 in Hr |- *.
    rewrite named_append_other in Hr by done.
    destruct (named_new name r m m3 Hab Hnone Hr) as (k & Hk & Hu & Hin).
    exists k. split; [lia|]. split; [done|]. by rewrite table_append_ne. }
  (* the second call *)
  destruct (add_triple_run subj obj st pt ot confidence m1 Hacc)
    as (pred2 & obj2 & subj2 & m4 & Hrun2 & Hab2 & Hp2 & Ho2 & Hs2 & Hsame).
  assert (abstraction_id (VText pt) m1 = Some pred) as Hp1
    by (unfold m1; by rewrite abstraction_id_append_other).
  assert (resolved obj ot obj' m1) as Ho1.
  { unfold resolved in *. destruct (truthy obj); [done|].
    unfold m1. by rewrite abstraction_id_append_other. }
  assert (resolved subj st subj' m1) as Hs1.
  { unfold resolved in *. destruct (truthy subj); [done|].
    unfold m1. by rewrite abstraction_id_append_other. }
  assert (m4 = drawn m1) as ->.
  { apply Hsame.
    - by eapply abstraction_id_named.
    - intros E. unfold resolved in Ho1. rewrite E in Ho1.
      by eapply abstraction_id_named.
    - intros E. unfold resolved in Hs1. rewrite E in Hs1.
      by eapply abstraction_id_named. }
  eexists _, _. split; [exact Hrun2|].
  split; [by rewrite table_append_eq|].
  split; [by rewrite table_append_ne|].
  split; [by rewrite table_append_ne|].
  assert (pred2 = pred) as -> by (change (abstraction_id (VText pt) (drawn m1))
    with (abstraction_id (VText pt) m1) in Hp2; congruence).
  assert (obj2 = obj') as ->.
  { unfold resolved in *. destruct (truthy obj); [congruence|].
    change (abstraction_id (VText ot) (drawn m1))
      with (abstraction_id (VText ot) m1) in Ho2. congruence. }
  assert (subj2 = subj') as ->.
  { unfold resolved in *. destruct (truthy subj); [congruence|].
    change (abstraction_id (VText st) (drawn m1))
      with (abstraction_id (VText st) m1) in Hs2. congruence. }
  reflexivity.
Qed.

Lemma add_triple_named_abstractions_witness :
  ∃ m1 t1,
    add_triple (VText "5") no_text no_text (VText "has_colour") (VText "blue")
      default_confidence one_task_memory
    = Returns tt m1
    ∧ table "Triples" m1 = table "Triples" one_task_memory ++ [t1]
    ∧ abstraction_id (VText "has_colour") m1 = Some (col "pred" t1)
    ∧ (truthy (VText "") = true →
       abstraction_id (VText "") m1 = Some (col "subj" t1))
    ∧ (truthy (VText "blue") = true →
       abstraction_id (VText "blue") m1 = Some (col "obj" t1))
    ∧ (∀ name r, named name one_task_memory = Some r → named name m1 = Some r)
    ∧ (∀ name r, named name one_task_memory = None → named name m1 = Some r →
         ∃ k, (uuid_supply one_task_memory ≤ k)%N
              ∧ col "uuid" r = VText (uuid_hex k)
              ∧ memory_row (uuid_hex k) NamedAbstractionNode
                  (time one_task_memory) false
                ∈ table "Memories" m1)
    ∧ ∃ m2 t2,
        add_triple (VText "5") no_text no_text (VText "has_colour")
          (VText "blue") default_confidence m1
        = Returns tt m2
        ∧ table "Triples" m2 = table "Triples" m1 ++ [t2]
        ∧ table "NamedAbstractions" m2 = table "NamedAbstractions" m1
        ∧ table "Memories" m2 = table "Memories" m1
        ∧ (col "pred" t2, col "subj" t2, col "obj" t2)
          = (col "pred" t1, col "subj" t1, col "obj" t1).
Proof.
  apply (add_triple_named_abstractions (VText "5") no_text "" "has_colour"
           "blue" default_confidence one_task_memory).
  reflexivity.
Defined.
End Abstractions.


(** * Snapshots *)

Section Snapshots.
Implicit Types (m : AgentMemory) (r e : Row) (cls : NodeCls).

(** Tables only grow. *)
Lemma prefix_append_row tbl name r m :
  table name m `prefix_of` table name (append_row tbl r m).
Proof.
  rewrite table_append. case_decide; [by apply prefix_app_r|done].
Qed.

Lemma prefix_abstracted name m m' :
  abstracted m m' → table name m `prefix_of` table name m'.
Proof.
  intros [_ _ _ Ho (e1 & Hm & _) (a & Ha & _)].
  destruct (decide (name = "Memories")) as [->|H1];
    [rewrite Hm; by apply prefix_app_r|].
  destruct (decide (name = "NamedAbstractions")) as [->|H2];
    [rewrite Ha; by apply prefix_app_r|].
  by rewrite Ho.
Qed.

Lemma head_filter_prefix {A} (f : A → bool) (l l' : list A) x :
  l `prefix_of` l' → head (List.filter f l) = Some x →
  head (List.filter f l') = Some x.
Proof.
  intros [k ->] H. rewrite List.filter_app.
  destruct (List.filter f l); [done|]. done.
Qed.

(** [add_triple] between two entities given by their identifiers. *)
Lemma add_triple_link subj obj pt m :
  truthy subj = true → truthy obj = true →
  ∃ pred m3,
    add_triple subj obj no_text (VText pt) no_text default_confidence m
    = Returns tt
        (append_row "Triples"
           (triple_row (uuid_hex (uuid_supply m)) subj VNull pred (VText pt)
              obj VNull default_confidence) m3)
    ∧ abstracted m m3.
Proof.
  intros Hs Ho.
  destruct (add_triple_run subj obj "" pt "" default_confidence m)
    as (pred & obj' & subj' & m3 & Hrun & Hab & _ & Hro & Hrs & _).
  { unfold add_triple_accepts. by rewrite Hs, Ho. }
  unfold resolved in Hro, Hrs. rewrite Ho in Hro. rewrite Hs in Hrs.
  subst obj' subj'. by exists pred, m3.
Qed.

Lemma archive_row_cols cls tbl s e :
  TABLE cls = Some tbl →
  col "uuid" (archive_row cls tbl s e) = VText s
  ∧ ∀ c, c ∈ TABLE_COLUMNS cls → c ≠ "uuid" →
      col c (archive_row cls tbl s e) = col c e.
Proof.
  intros Ht. split.
  - destruct cls; try done; injection Ht as <-; reflexivity.
  - intros c Hc Hne. apply list_elem_of_In in Hc.
    destruct cls; try done; injection Ht as <-; simpl in Hc;
      repeat (destruct Hc as [<-|Hc]; [try done; reflexivity|]); done.
Qed.

Lemma archive_table_name cls tbl :
  TABLE cls = Some tbl →
  default tbl (ARCHIVE_TABLE cls) ≠ "Memories"
  ∧ default tbl (ARCHIVE_TABLE cls) ≠ "Triples".
Proof. intros Ht. destruct cls; try done; injection Ht as <-; done. Qed.

(** The store that [MemoryNode.snapshot] returns: the snapshot entity, the
    archive row and the two triples are appended in this order, each triple
    after the abstraction its predicate may need. *)
Lemma MemoryNode_snapshot_run cls tbl id e m :
  TABLE cls = Some tbl →
  truthy id = true →
  head (List.filter (λ r, Sql.eq (col "uuid" r) id) (table tbl m)) = Some e →
  let s := uuid_hex (uuid_supply m) in
  let mb := append_row (default tbl (ARCHIVE_TABLE cls)) (archive_row cls tbl s e)
              (append_row "Memories" (memory_row s cls (time m) true) (drawn m)) in
  ∃ pred1 pred2 m3 m5,
    let t1 := triple_row (uuid_hex (uuid_supply mb)) (VText s) VNull pred1
                (VText "_archive_of") id VNull default_confidence in
    let mc := append_row "Triples" t1 m3 in
    let t2 := triple_row (uuid_hex (uuid_supply mc)) id VNull pred2
                (VText "_has_archive") (VText s) VNull default_confidence in
    MemoryNode_snapshot (mkNode cls id) m
    = Returns tt (append_row "Triples" t2 m5)
    ∧ abstracted mb m3 ∧ abstracted mc m5.
Proof.
  intros Ht Hid He s mb.
  destruct (add_triple_link (VText s) id "_archive_of" mb
              (uuid_hex_truthy _) Hid) as (pred1 & m3 & Hrun1 & Hab1).
  destruct (add_triple_link id (VText s) "_has_archive"
              (append_row "Triples"
                 (triple_row (uuid_hex (uuid_supply mb)) (VText s) VNull pred1
                    (VText "_archive_of") id VNull default_confidence) m3)
              Hid (uuid_hex_truthy _)) as (pred2 & m5 & Hrun2 & Hab2).
  exists pred1, pred2, m3, m5. split; [|done].
  unfold MemoryNode_snapshot. cbn [node_cls node_memid]. rewrite Ht.
  unfold _db_read_one at 1. unfold_monad. rewrite He.
  unfold new, uuid4, get_time, db_insert, link_archive_to_mem. unfold_monad.
  fold s. change (time (drawn m)) with (time m).
  change (append_row (default tbl (ARCHIVE_TABLE cls)) _ _) with mb.
  by rewrite Hrun1, Hrun2.
Qed.

Lemma construct_memid cls memid n m m' :
  construct cls memid m = Returns n m' → node_memid n = memid.
Proof.
  unfold construct, TaskNode_init, _db_read_one. unfold_monad.
  intros H. repeat case_match; by simplify_eq.
Qed.

Lemma get_mem_by_id_memid memid node_type n m m' :
  get_mem_by_id memid node_type m = Returns n m' → node_memid n = memid.
Proof.
  unfold get_mem_by_id, get_node_from_memid, _db_read_one. unfold_monad.
  intros H. repeat case_match; simplify_eq;
    by eapply construct_memid.
Qed.

Lemma mapM_memids (f : Value → M Node) l l' m m' :
  (∀ x n m1 m2, f x m1 = Returns n m2 → node_memid n = x) →
  mapM f l m = Returns l' m' → node_memid <$> l' = l.
Proof.
  intros Hf. revert l' m. induction l as [|x l IH]; intros l' m; simpl.
  - unfold_monad. intros H. by simplify_eq.
  - unfold_monad. destruct (f x m) as [n m1|] eqn:E; [|done].
    destruct (mapM f l m1) as [k m2|] eqn:E'; [|done].
    intros H. simplify_eq. rewrite fmap_cons.
    f_equal; [by eapply Hf|by eapply IH].
Qed.

(** An identifier returned by the recency query is the identifier of a row
    of [Memories] with [is_snapshot = 0]. *)
Lemma recent_memids_live memtype window m :
  ∃ l, recent_memids memtype window m = Returns l m
       ∧ ∀ v, v ∈ l → ∃ r, r ∈ table "Memories" m ∧ col "uuid" r = v
                           ∧ Sql.eq (col "is_snapshot" r) (VInt 0) = true.
Proof.
  eexists. split; [reflexivity|]. intros v Hv.
  apply list_elem_of_fmap in Hv as (r & -> & Hr).
  apply elem_of_order_by_desc, elem_of_filter_list in Hr as [Hr Hc].
  exists r. split; [done|]. split; [done|].
  by apply andb_true_iff in Hc as [_ Hc].
Qed.

Lemma create_run x m :
  ∃ id,
    NamedAbstractionNode_create (VText x) false m
    = Returns id (created (VText x) m)
    ∧ abstraction_id (VText x) (created (VText x) m) = Some id.
Proof.
  destruct (create_spec x m) as (id & m' & Hrun & _ & Hid & _).
  exists id. unfold created.
  destruct (named (VText x) m) as [r|] eqn:E.
  - rewrite (create_existing _ r m E) in Hrun |- *. by simplify_eq.
  - rewrite (create_new _ m E) in Hrun |- *. by simplify_eq.
Qed.

Lemma abstracted_created name m : abstracted m (created name m).
Proof.
  unfold created. destruct (named name m);
    [apply abstracted_refl|apply abstracted_create_new].
Qed.

Lemma table_created name x k m :
  k = uuid_supply m →
  table name (created (VText x) m)
  = table name m
    ++ (if decide (name = "Memories") then new_abstraction_entity x k m
        else if decide (name = "NamedAbstractions")
             then new_abstraction_row x k m else []).
Proof.
  intros ->. unfold created, new_abstraction_entity, new_abstraction_row.
  destruct (named (VText x) m).
  - repeat case_decide; by rewrite app_nil_r.
  - rewrite !table_append. repeat case_decide; subst; try done.
    + by rewrite app_nil_r.
Qed.

Lemma add_triple_link_run subj obj pt m :
  truthy subj = true → truthy obj = true →
  ∃ pred,
    add_triple subj obj no_text (VText pt) no_text default_confidence m
    = Returns tt
        (append_row "Triples"
           (triple_row (uuid_hex (uuid_supply m)) subj VNull pred (VText pt)
              obj VNull default_confidence)
           (created (VText pt) (drawn m)))
    ∧ abstraction_id (VText pt) (created (VText pt) (drawn m)) = Some pred.
Proof.
  intros Hs Ho.
  destruct (create_run pt (drawn m)) as (pred & Hrun & Hid).
  exists pred. split; [|done].
  unfold add_triple. unfold_monad.
  rewrite !(assert_true _ m) by (by rewrite ?Hs, ?Ho).
  unfold uuid4, db_insert. rewrite Hrun, Ho, Hs. reflexivity.
Qed.

Lemma MemoryNode_snapshot_exact cls tbl id e m :
  TABLE cls = Some tbl →
  truthy id = true →
  head (List.filter (λ r, Sql.eq (col "uuid" r) id) (table tbl m)) = Some e →
  let s := uuid_hex (uuid_supply m) in
  let mb := append_row (default tbl (ARCHIVE_TABLE cls)) (archive_row cls tbl s e)
              (append_row "Memories" (memory_row s cls (time m) true) (drawn m)) in
  ∃ pred1 pred2,
    let m3 := created (VText "_archive_of") (drawn mb) in
    let t1 := triple_row (uuid_hex (uuid_supply mb)) (VText s) VNull pred1
                (VText "_archive_of") id VNull default_confidence in
    let mc := append_row "Triples" t1 m3 in
    let m5 := created (VText "_has_archive") (drawn mc) in
    let t2 := triple_row (uuid_hex (uuid_supply mc)) id VNull pred2
                (VText "_has_archive") (VText s) VNull default_confidence in
    MemoryNode_snapshot (mkNode cls id) m
    = Returns tt (append_row "Triples" t2 m5)
    ∧ abstraction_id (VText "_archive_of") m3 = Some pred1
    ∧ abstraction_id (VText "_has_archive") m5 = Some pred2.
Proof.
  intros Ht Hid He s mb.
  destruct (add_triple_link_run (VText s) id "_archive_of" mb
              (uuid_hex_truthy _) Hid) as (pred1 & Hrun1 & Hid1).
  destruct (add_triple_link_run id (VText s) "_has_archive"
              (append_row "Triples"
                 (triple_row (uuid_hex (uuid_supply mb)) (VText s) VNull pred1
                    (VText "_archive_of") id VNull default_confidence)
                 (created (VText "_archive_of") (drawn mb)))
              Hid (uuid_hex_truthy _)) as (pred2 & Hrun2 & Hid2).
  exists pred1, pred2. split; [|done].
  unfold MemoryNode_snapshot. cbn [node_cls node_memid]. rewrite Ht.
  unfold _db_read_one at 1. unfold_monad. rewrite He.
  unfold new, uuid4, get_time, db_insert, link_archive_to_mem. unfold_monad.
  fold s. change (time (drawn m)) with (time m).
  change (append_row (default tbl (ARCHIVE_TABLE cls)) _ _) with mb.
  by rewrite Hrun1, Hrun2.
Qed.

(** Rows appended to [NamedAbstractions] do not change which row a name
    finds, unless one of them carries a name that had no abstraction. *)
Lemma named_extended name m m' rows :
  table "NamedAbstractions" m' = table "NamedAbstractions" m ++ rows →
  (∀ a, a ∈ rows → Sql.eq (col "name" a) name = true →
        is_Some (named name m)) →
  named name m' = named name m.
Proof.
  unfold named. intros -> H. rewrite List.filter_app.
  destruct (List.filter _ (table "NamedAbstractions" m)) as [|x l] eqn:E;
    [|done].
  simpl. induction rows as [|a rows IH]; [done|]. simpl.
  destruct (Sql.eq (col "name" a) name) eqn:Ea.
  - destruct (H a) as [? [=]]; [left|done].
  - apply IH. intros b Hb. apply H. by right.
Qed.

Lemma archive_named cls tbl s e :
  TABLE cls = Some tbl →
  default tbl (ARCHIVE_TABLE cls) = "NamedAbstractions" →
  tbl = "NamedAbstractions"
  ∧ col "name" (archive_row cls tbl s e) = col "name" e.
Proof. intros Ht. destruct cls; try done; injection Ht as <-; done. Qed.

Lemma new_abstraction_entity_eq x k m1 m :
  named (VText x) m1 = named (VText x) m → time m1 = time m →
  new_abstraction_entity x k m1 = new_abstraction_entity x k m.
Proof. unfold new_abstraction_entity. by intros -> ->. Qed.

Lemma new_abstraction_row_eq x k m1 m :
  named (VText x) m1 = named (VText x) m →
  new_abstraction_row x k m1 = new_abstraction_row x k m.
Proof. unfold new_abstraction_row. by intros ->. Qed.

Lemma supply_created name m :
  (uuid_supply m ≤ uuid_supply (created name m) ≤ uuid_supply m + 1)%N.
Proof. unfold created. destruct (named name m); simpl; lia. Qed.

Lemma time_created name m : time (created name m) = time m.
Proof. unfold created. by destruct (named name m). Qed.

Lemma new_abstraction_row_name x k m a :
  a ∈ new_abstraction_row x k m → col "name" a = VText x.
Proof.
  unfold new_abstraction_row. destruct (named (VText x) m); [by intros ?%elem_of_nil|].
  by intros ->%list_elem_of_singleton.
Qed.

Lemma new_abstraction_entity_cols x k m a :
  a ∈ new_abstraction_entity x k m →
  col "uuid" a = VText (uuid_hex k) ∧ col "is_snapshot" a = VInt 0.
Proof.
  unfold new_abstraction_entity.
  destruct (named (VText x) m); [by intros ?%elem_of_nil|].
  by intros ->%list_elem_of_singleton.
Qed.

(** C8, as the code has it.  For a node object of a class that takes
    [MemoryNode.snapshot] and whose row [e] is in the table of the class,
    [snapshot] returns.  [Memories] keeps its rows and gains the snapshot
    entity, under a new identifier [s], with [is_snapshot = 1] and the
    [NODE_TYPE] of the class of the node object, which is the node type
    recorded for the entity exactly when that one is the [NODE_TYPE] of the
    class; after it come the entity of the abstraction named "_archive_of"
    and the entity of the abstraction named "_has_archive", each one made
    exactly when the name has no abstraction in the store before, and
    nothing else.  [Triples] gains [s _archive_of e] and [e _has_archive s],
    whose predicates are these abstractions.  Every other table is as it
    was, but for the archive table, which gains one row under [s] with the
    columns of the class copied from [e], and [NamedAbstractions], which
    gains the rows of the abstractions made.  [e] is still the row read for
    the entity, and no recency lookup returns [s]. *)
Theorem snapshot_archives cls tbl id e m :
  TABLE cls = Some tbl → cls ≠ SetNode → truthy id = true → fresh m →
  head (List.filter (λ r, Sql.eq (col "uuid" r) id) (table tbl m)) = Some e →
  let s := uuid_hex (uuid_supply m) in
  let archive := default tbl (ARCHIVE_TABLE cls) in
  let snap := memory_row s cls (time m) true in
  ∃ m' k1 k2 t1 t2,
    snapshot (mkNode cls id) m = Returns tt m'
    ∧ (uuid_supply m < k1 < k2)%N
    ∧ table "Memories" m'
      = table "Memories" m
        ++ snap :: new_abstraction_entity "_archive_of" k1 m
        ++ new_abstraction_entity "_has_archive" k2 m
    ∧ table "Triples" m' = table "Triples" m ++ [t1; t2]
    ∧ (∀ name, name ≠ "Memories" → name ≠ "Triples" →
         table name m'
         = table name m
           ++ (if decide (name = archive) then [archive_row cls tbl s e]
               else [])
           ++ (if decide (name = "NamedAbstractions")
               then new_abstraction_row "_archive_of" k1 m
                    ++ new_abstraction_row "_has_archive" k2 m
               else []))
    ∧ ((col "subj" t1, col "pred_text" t1, col "obj" t1)
       = (VText s, VText "_archive_of", id)
       ∧ abstraction_id (VText "_archive_of") m' = Some (col "pred" t1))
    ∧ ((col "subj" t2, col "pred_text" t2, col "obj" t2)
       = (id, VText "_has_archive", VText s)
       ∧ abstraction_id (VText "_has_archive") m' = Some (col "pred" t2))
    ∧ (∀ name, table name m `prefix_of` table name m')
    ∧ head (List.filter (λ r, Sql.eq (col "uuid" r) id) (table tbl m'))
      = Some e
    ∧ (∀ r, r ∈ table "Memories" m → col "uuid" r ≠ VText s)
    ∧ (col "uuid" snap = VText s
       ∧ col "node_type" snap = NODE_TYPE cls
       ∧ col "is_snapshot" snap = VInt 1)
    ∧ (∀ r, r ∈ table "Memories" m → Sql.eq (col "uuid" r) id = true →
         col "node_type" snap = col "node_type" r
         ↔ col "node_type" r = NODE_TYPE cls)
    ∧ (col "uuid" (archive_row cls tbl s e) = VText s
       ∧ ∀ c, c ∈ TABLE_COLUMNS cls → c ≠ "uuid" →
           col c (archive_row cls tbl s e) = col c e)
    ∧ (∀ memtype window,
         ∃ l, recent_memids memtype window m' = Returns l m' ∧ VText s ∉ l)
    ∧ (∀ memtype window l m'',
         get_recent_entities memtype window m' = Returns l m'' →
         ∀ n, n ∈ l → node_memid n ≠ VText s).
Proof.
  intros Ht Hset Hid Hfresh He s archive snap.
  destruct (MemoryNode_snapshot_exact cls tbl id e m Ht Hid He)
    as (pred1 & pred2 & Hrun & Hid1 & Hid2).
  fold s archive snap in Hrun, Hid1, Hid2.
  set (arow := archive_row cls tbl s e) in *.
  set (ma := append_row "Memories" snap (drawn m)) in *.
  set (mb := append_row archive arow ma) in *.
  set (m3 := created (VText "_archive_of") (drawn mb)) in *.
  set (t1 := triple_row (uuid_hex (uuid_supply mb)) (VText s) VNull pred1
               (VText "_archive_of") id VNull default_confidence) in *.
  set (mc := append_row "Triples" t1 m3) in *.
  set (m5 := created (VText "_has_archive") (drawn mc)) in *.
  set (t2 := triple_row (uuid_hex (uuid_supply mc)) id VNull pred2
               (VText "_has_archive") (VText s) VNull default_confidence) in *.
  set (m' := append_row "Triples" t2 m5) in *.
  set (k1 := uuid_supply (drawn mb)).
  set (k2 := uuid_supply (drawn mc)).
  destruct (archive_table_name cls tbl Ht) as [HaM HaT]. fold archive in HaM, HaT.
  assert (e ∈ table tbl m) as Hin.
  { apply head_Some_elem_of in He. by apply elem_of_filter_list in He as [? _]. }
  assert (uuid_supply m < k1 < k2)%N as Hk.
  { unfold k1, k2. pose proof (supply_created (VText "_archive_of") (drawn mb)).
    fold m3 in H. simpl in *. lia. }
  (* the tables of the store before the first abstraction *)
  assert (∀ name, table name (drawn mb)
                  = table name m
                    ++ (if decide (name = "Memories") then [snap] else [])
                    ++ (if decide (name = archive) then [arow] else []))
    as Hb.
  { intros name. rewrite table_drawn. unfold mb, ma.
    rewrite !table_append, table_drawn.
    repeat case_decide; subst; try done; by rewrite ?app_nil_r, <- ?app_assoc. }
  (* a name finds in the stores in between what it finds in [m] *)
  assert (∀ name, named name (drawn mb) = named name m) as Hn1.
  { intros name. apply (named_extended name m (drawn mb)
                          (if decide ("NamedAbstractions" = archive)
                           then [arow] else [])).
    - rewrite Hb. by rewrite decide_False, app_nil_l by done.
    - case_decide as Ha; [|by intros a ?%elem_of_nil].
      intros a ->%list_elem_of_singleton Hname.
      destruct (archive_named cls tbl s e Ht (eq_sym Ha)) as [-> Hcol].
      fold arow in Hcol. rewrite Hcol in Hname. unfold named.
      destruct (List.filter (λ r, Sql.eq (col "name" r) name)
                  (table "NamedAbstractions" m)) as [|x l] eqn:E;
        [|by eexists].
      assert (e ∈ List.filter (λ r, Sql.eq (col "name" r) name)
                    (table "NamedAbstractions" m)) as He'
        by by apply elem_of_filter_list.
      rewrite E in He'. by apply elem_of_nil in He'. }
  assert (∀ name, table name mc
                  = table name (drawn mb)
                    ++ (if decide (name = "Memories")
                        then new_abstraction_entity "_archive_of" k1 m
                        else if decide (name = "NamedAbstractions")
                             then new_abstraction_row "_archive_of" k1 m
                             else [])
                    ++ (if decide (name = "Triples") then [t1] else []))
    as Hc.
  { intros name. unfold mc, m3. rewrite table_append.
    rewrite (table_created name "_archive_of" k1 (drawn mb)) by done.
    rewrite (new_abstraction_entity_eq _ _ (drawn mb) m) by done.
    rewrite (new_abstraction_row_eq _ _ (drawn mb) m) by done.
    repeat case_decide; subst; try done; by rewrite ?app_nil_r. }
  assert (named (VText "_has_archive") (drawn mc)
          = named (VText "_has_archive") m) as Hn2.
  { rewrite <- Hn1.
    apply (named_extended _ (drawn mb) (drawn mc)
             (new_abstraction_row "_archive_of" k1 m)).
    - rewrite !table_drawn, Hc, <- (table_drawn _ mb). simpl.
      by rewrite app_nil_r.
    - intros a Ha. by rewrite (new_abstraction_row_name _ _ _ _ Ha). }
  assert (∀ name, table name m'
                  = table name mc
                    ++ (if decide (name = "Memories")
                        then new_abstraction_entity "_has_archive" k2 m
                        else if decide (name = "NamedAbstractions")
                             then new_abstraction_row "_has_archive" k2 m
                             else [])
                    ++ (if decide (name = "Triples") then [t2] else []))
    as Hd.
  { intros name. unfold m', m5. rewrite table_append.
    rewrite (table_created name "_has_archive" k2 (drawn mc)) by done.
    rewrite (new_abstraction_entity_eq _ _ (drawn mc) m)
      by (done || apply (time_created _ (drawn mb))).
    rewrite (new_abstraction_row_eq _ _ (drawn mc) m) by done.
    rewrite table_drawn.
    repeat case_decide; subst; try done; by rewrite ?app_nil_r. }
  assert (table "Memories" m'
          = table "Memories" m
            ++ snap :: new_abstraction_entity "_archive_of" k1 m
            ++ new_abstraction_entity "_has_archive" k2 m) as HM.
  { rewrite Hd, Hc, Hb. rewrite (decide_False (P := "Memories" = archive)) by done.
    simpl. by rewrite !app_nil_r, <- !app_assoc. }
  assert (∀ name, name ≠ "Memories" → name ≠ "Triples" →
            table name m'
            = table name m
              ++ (if decide (name = archive) then [arow] else [])
              ++ (if decide (name = "NamedAbstractions")
                  then new_abstraction_row "_archive_of" k1 m
                       ++ new_abstraction_row "_has_archive" k2 m
                  else [])) as HO.
  { intros name H1 H2. rewrite Hd, Hc, Hb.
    rewrite !(decide_False (P := name = "Memories")) by done.
    rewrite !(decide_False (P := name = "Triples")) by done.
    rewrite <- !app_assoc. cbn [app].
    destruct (decide (name = archive)), (decide (name = "NamedAbstractions"));
      by rewrite ?app_nil_r. }
  assert (table "Triples" m' = table "Triples" m ++ [t1; t2]) as HT.
  { rewrite Hd, Hc, Hb. rewrite (decide_False (P := "Triples" = archive)) by done.
    simpl. by rewrite !app_nil_r, <- !app_assoc. }
  assert (∀ name, table name m `prefix_of` table name m') as Hgrow.
  { intros name. rewrite Hd, Hc, Hb. rewrite <- !app_assoc. by apply prefix_app_r. }
  assert (∀ r, r ∈ table "Memories" m → col "uuid" r ≠ VText s) as Hnew.
  { intros r Hr. by apply (Hfresh "Memories" r (uuid_supply m)). }
  assert (∀ r, r ∈ table "Memories" m' → col "uuid" r = VText s →
            Sql.eq (col "is_snapshot" r) (VInt 0) = false) as Hsnap.
  { intros r Hr Hu. rewrite HM in Hr.
    apply elem_of_app in Hr as [Hr|Hr]; [by destruct (Hnew r Hr)|].
    apply elem_of_cons in Hr as [->|Hr]; [done|].
    apply elem_of_app in Hr as [Hr|Hr];
      apply new_abstraction_entity_cols in Hr as [Hr _];
      rewrite Hr in Hu; injection Hu as Hu%uuid_hex_inj; lia. }
  exists m', k1, k2, t1, t2. split.
  { unfold snapshot. cbn [node_cls]. by destruct cls. }
  split; [done|]. split; [done|]. split; [done|]. split; [done|].
  split.
  { split; [done|]. unfold m'. rewrite abstraction_id_append_other by done.
    apply (abstraction_id_abstracted _ _ mc);
      [eapply abstracted_trans; [apply abstracted_drawn|apply abstracted_created]|].
    unfold mc. by rewrite abstraction_id_append_other. }
  split.
  { split; [done|]. unfold m'. by rewrite abstraction_id_append_other. }
  split; [done|].
  split; [exact (head_filter_prefix _ _ _ _ (Hgrow tbl) He)|].
  split; [done|]. split; [done|].
  split.
  { intros r _ _. change (col "node_type" snap) with (NODE_TYPE cls).
    split; by intros ->. }
  split; [by apply archive_row_cols|].
  split.
  { intros memtype window.
    destruct (recent_memids_live memtype window m') as (l & Hl & Hlive).
    exists l. split; [done|]. intros Hin'.
    destruct (Hlive _ Hin') as (r & Hr & Hu & Hs).
    by rewrite (Hsnap r Hr Hu) in Hs. }
  intros memtype window l m'' Hget n Hn Hs.
  unfold get_recent_entities in Hget. unfold_monad.
  destruct (recent_memids_live memtype window m') as (ids & Hids & Hlive).
  rewrite Hids in Hget.
  apply mapM_memids in Hget;
    [|intros x n' m1 m2; apply get_mem_by_id_memid].
  assert (VText s ∈ ids) as Hin'.
  { rewrite <- Hget, <- Hs. by apply list_elem_of_fmap_2. }
  destruct (Hlive _ Hin') as (r & Hr & Hu & Hz).
  by rewrite (Hsnap r Hr Hu) in Hz.
Qed.

Example snapshot_of_task :
  List.map (λ r, (col "uuid" r, col "node_type" r, col "is_snapshot" r))
    (drop 5 (table "Memories" archived_task_memory))
  = [(VText "6", VText "Task", VInt 1);
     (VText "8", VText "NamedAbstraction", VInt 0);
     (VText "10", VText "NamedAbstraction", VInt 0)]
  ∧ returned (recent_memids (VText "Task") 12000 archived_task_memory)
    = Some [VText "5"].
Proof. vm_compute. done. Qed.

(** The snapshot takes the node type of the class of the node object, which
    need not be the one recorded for the entity: a location read as a
    [PlayerNode], as [get_mem_by_id] reads it when it is given the node type
    "Player", is archived as a "Player". *)
Example snapshot_kind_of_class :
  get_node_from_memid location_memid location_memory
  = Returns (VText "Location") location_memory
  ∧ get_mem_by_id location_memid (VText "Player") location_memory
    = Returns (mkNode PlayerNode location_memid) location_memory
  ∧ (λ r, (col "node_type" r, col "is_snapshot" r))
      <$> table "Memories"
            (final_state
               (snapshot (mkNode PlayerNode location_memid) location_memory))
          !! length (table "Memories" location_memory)
    = Some (VText "Player", VInt 1).
Proof. vm_compute. done. Qed.

(** C8 as stated fails.  An entity of kind Set exists in [Memories]; its
    [snapshot], which [SetNode] overrides, raises and links nothing.  And the
    first snapshot taken in a store creates three entities, not one: the
    snapshot and the abstractions of the two predicates. *)
Lemma snapshot_not_for_every_entity :
  get_node_from_memid (VText "6") set_entity_memory
  = Returns (VText "Set") set_entity_memory
  ∧ raised (snapshot (mkNode SetNode (VText "6")) set_entity_memory)
    = Some ProgrammingError
  ∧ List.filter
      (λ t, Sql.eq (col "pred_text" t) (VText "_archive_of")
            || Sql.eq (col "pred_text" t) (VText "_has_archive"))
      (table "Triples" archived_set_memory) = []
  ∧ length (table "Memories" archived_task_memory)
    = (length (table "Memories" one_task_memory) + 3)%nat.
Proof. vm_compute. done. Qed.

Lemma snapshot_archives_witness :
  ∃ m',
    snapshot (mkNode TaskNode (VText "5")) one_task_memory = Returns tt m'
    ∧ length (table "Memories" m')
      = (length (table "Memories" one_task_memory) + 3)%nat
    ∧ (∃ t1 t2,
         table "Triples" m' = table "Triples" one_task_memory ++ [t1; t2]
         ∧ (col "subj" t1, col "pred_text" t1, col "obj" t1)
           = (VText (uuid_hex (uuid_supply one_task_memory)),
              VText "_archive_of", VText "5")
         ∧ (col "subj" t2, col "pred_text" t2, col "obj" t2)
           = (VText "5", VText "_has_archive",
              VText (uuid_hex (uuid_supply one_task_memory))))
    ∧ (∀ memtype window,
         ∃ l, recent_memids memtype window m' = Returns l m'
              ∧ VText (uuid_hex (uuid_supply one_task_memory)) ∉ l).
Proof.
  destruct (snapshot_archives TaskNode "Tasks" (VText "5")
              (task_row "5" (set_task_memid "5" (a_task "Move")) 1)
              one_task_memory)
    as (m' & k1 & k2 & t1 & t2 & Hrun & _ & HM & HT & _ & [Ht1 _] & [Ht2 _]
        & _ & _ & _ & _ & _ & _ & Hrecent & _).
  - reflexivity.
  - discriminate.
  - reflexivity.
  - apply fresh_one_task_memory.
  - vm_compute. reflexivity.
  - exists m'. split; [exact Hrun|]. split.
    + assert (named (VText "_archive_of") one_task_memory = None) as N1
        by (vm_compute; reflexivity).
      assert (named (VText "_has_archive") one_task_memory = None) as N2
        by (vm_compute; reflexivity).
      rewrite HM. unfold new_abstraction_entity. rewrite N1, N2.
      rewrite length_app. cbn [length app]. lia.
    + split; [|exact Hrecent]. exists t1, t2.
      split; [exact HT|]. split; [exact Ht1|exact Ht2].
Defined.
End Snapshots.


(** * The task ledger, continued *)

Section LedgerMore.
Implicit Types (m : AgentMemory) (r : Row) (task : Task).

Lemma eq_refl_not_null v : v ≠ VNull → Sql.eq v v = true.
Proof.
  intros H. destruct v; try done; unfold Sql.eq.
  - by rewrite (compare_refl (VInt z)).
  - by rewrite (compare_refl (VReal q)).
  - by rewrite (compare_refl (VText s)).
  - by apply bool_decide_eq_true_2.
Qed.

Lemma on_stack_paused r : on_stack (<["paused" := VInt 1]> r) = false.
Proof. unfold on_stack. rewrite col_insert_eq. apply andb_false_r. Qed.

Lemma on_stack_unfinished r : on_stack r = true → unfinished r = true.
Proof. unfold on_stack, unfinished. by intros [H _]%andb_true_iff. Qed.

Lemma filter_on_stack_paused (l : list Row) :
  List.filter on_stack
    (List.map (λ r, if unfinished r then <["paused" := VInt 1]> r else r) l)
  = [].
Proof.
  induction l as [|r l IH]; simpl; [done|].
  destruct (unfinished r) eqn:E.
  - by rewrite on_stack_paused.
  - destruct (on_stack r) eqn:E'; [|done].
    apply on_stack_unfinished in E'. congruence.
Qed.

(** X1. After [task_stack_pause], whatever the store was, no task is on the
    stack: [task_stack_peek] returns [None] and [task_stack_get_all] returns
    the empty list. *)
Theorem task_stack_pause_hides_all m :
  let m' := final_state (task_stack_pause m) in
  task_stack_peek m' = Returns None m'
  ∧ task_stack_get_all m' = Returns [] m'.
Proof.
  intros m'. subst m'. rewrite task_stack_pause_run. cbn [final_state].
  assert (List.filter on_stack
            (table "Tasks"
               (set_db (λ d, <["Tasks" :=
                  List.map (λ r, if unfinished r then <["paused" := VInt 1]> r
                                 else r) (table "Tasks" m)]> d) m)) = [])
    as Hnone.
  { rewrite table_insert_eq. apply filter_on_stack_paused. }
  split; [by apply task_stack_peek_empty|].
  unfold task_stack_get_all, _db_read. unfold_monad. by rewrite Hnone.
Qed.

Lemma pause_resume_row r :
  r !! "paused" = Some (VInt 0) →
  <["paused" := VInt 0]> (if unfinished r then <["paused" := VInt 1]> r else r)
  = r.
Proof.
  intros H. destruct (unfinished r).
  - rewrite insert_insert_eq. by apply insert_id.
  - by apply insert_id.
Qed.

(** X2. When no task is paused, [task_stack_pause] followed by
    [task_stack_resume] gives back every table as it was; the clock and the
    identifier supply are not touched. *)
Theorem task_stack_pause_resume_restores m :
  (∀ r, r ∈ table "Tasks" m → r !! "paused" = Some (VInt 0)) →
  let m' := final_state ((task_stack_pause;; task_stack_resume) m) in
  (∀ name, table name m' = table name m)
  ∧ time m' = time m ∧ uuid_supply m' = uuid_supply m.
Proof.
  intros H m'. subst m'. unfold_monad. rewrite task_stack_pause_run.
  rewrite task_stack_resume_run. cbn [final_state]. rewrite table_insert_eq.
  split; [|done]. intros name.
  destruct (decide (name = "Tasks")) as [->|Hne].
  - rewrite table_insert_eq, List.map_map.
    induction (table "Tasks" m) as [|r l IH]; simpl; [done|].
    rewrite pause_resume_row by (apply H; left).
    f_equal. apply IH. intros r' Hr'. apply H. by right.
  - rewrite table_insert_ne by done. by rewrite table_insert_ne by done.
Qed.

Lemma task_stack_pause_resume_restores_witness :
  let m' := final_state ((task_stack_pause;; task_stack_resume) one_task_memory) in
  (∀ name, table name m' = table name one_task_memory)
  ∧ time m' = time one_task_memory
  ∧ uuid_supply m' = uuid_supply one_task_memory.
Proof.
  apply task_stack_pause_resume_restores.
  intros r Hr. vm_compute in Hr.
  apply list_elem_of_singleton in Hr. subst r. reflexivity.
Defined.

(** X3. [task_stack_clear] deletes the unfinished tasks from [Tasks], keeps
    the finished ones, and touches no other table: the entities and the
    triples of the deleted tasks stay.  Afterwards the stack is empty. *)
Theorem task_stack_clear_keeps_finished m :
  ∃ m', task_stack_clear m = Returns tt m'
    ∧ (∀ r, r ∈ table "Tasks" m' ↔ r ∈ table "Tasks" m ∧ unfinished r = false)
    ∧ (∀ name, name ≠ "Tasks" → table name m' = table name m)
    ∧ task_stack_peek m' = Returns None m'.
Proof.
  eexists. split; [reflexivity|].
  assert (∀ r, r ∈ List.filter (λ r, negb (unfinished r)) (table "Tasks" m)
               ↔ r ∈ table "Tasks" m ∧ unfinished r = false) as Hin.
  { intros r. rewrite elem_of_filter_list. by rewrite negb_true_iff. }
  split; [|split].
  - intros r. rewrite table_insert_eq. apply Hin.
  - intros name Hne. by rewrite table_insert_ne.
  - apply task_stack_peek_empty. rewrite table_insert_eq.
    destruct (List.filter on_stack _) as [|x l] eqn:E; [done|].
    assert (x ∈ List.filter on_stack
                  (List.filter (λ r, negb (unfinished r)) (table "Tasks" m)))
      as Hx by (rewrite E; left).
    apply elem_of_filter_list in Hx as [[_ Hx]%Hin Hs%on_stack_unfinished].
    congruence.
Qed.

Lemma task_stack_clear_keeps_finished_witness :
  ∃ m', task_stack_clear one_task_memory = Returns tt m'
    ∧ table "Memories" m' = table "Memories" one_task_memory
    ∧ task_stack_peek m' = Returns None m'.
Proof.
  destruct (task_stack_clear_keeps_finished one_task_memory)
    as (m' & Hrun & _ & Hother & Hpeek).
  exists m'. split; [exact Hrun|]. split; [|exact Hpeek].
  apply Hother. discriminate.
Defined.
End LedgerMore.

Section PopMore.
Implicit Types (m : AgentMemory) (r : Row) (task : Task).

Lemma TaskNode_init_inv memid n m m' :
  TaskNode_init memid m = Returns n m' →
  m' = m ∧ task_node_memid n = memid
  ∧ ∃ r, head (List.filter (λ r, Sql.eq (col "uuid" r) memid)
                 (table "Tasks" m)) = Some r
         ∧ col "pickled" r = VBlob (task n)
         ∧ created_at n = col "created_at" r
         ∧ finished_at n = col "finished_at" r
         ∧ action_name n = col "action_name" r.
Proof.
  unfold TaskNode_init, _db_read_one. unfold_monad.
  destruct (head _) as [r|] eqn:E; [|done].
  destruct (col "pickled" r) eqn:Ep; try done.
  intros [= <- <-]. split; [done|]. split; [done|]. exists r.
  by rewrite Ep.
Qed.

(** What a successful [task_stack_peek] has read. *)
Lemma task_stack_peek_inv n m m' :
  task_stack_peek m = Returns (Some n) m' →
  m' = m
  ∧ ∃ x, x ∈ List.filter on_stack (table "Tasks" m)
         ∧ task_node_memid n = col "uuid" x
         ∧ Sql.eq (col "uuid" x) (col "uuid" x) = true.
Proof.
  unfold task_stack_peek, _db_read. unfold_monad.
  destruct (head _) as [x|] eqn:E; [|done].
  destruct (TaskNode_init (col "uuid" x) m) as [n' m1|] eqn:En; [|done].
  intros [= <- <-].
  apply TaskNode_init_inv in En as (-> & Hid & r & Hr & _).
  split; [done|]. exists x.
  split; [by apply head_Some_elem_of, elem_of_order_by_desc in E|].
  split; [done|].
  apply head_Some_elem_of, elem_of_filter_list in Hr as [_ Hr].
  by apply eq_right_refl in Hr.
Qed.

(** X4. At a time that is not negative, when [task_stack_peek] returns a
    task then [task_stack_pop] returns the same task; afterwards every row
    of [Tasks] under its identifier is finished at the time of the call and
    off the stack, the other tables are as before, and no later
    [task_stack_peek] returns a task under that identifier. *)
Theorem task_stack_pop_finishes m mem :
  0 ≤ time m →
  task_stack_peek m = Returns (Some mem) m →
  ∃ m', task_stack_pop m = Returns mem m'
    ∧ (∀ r, r ∈ table "Tasks" m' →
         Sql.eq (col "uuid" r) (task_node_memid mem) = true →
         col "finished_at" r = VInt (time m) ∧ on_stack r = false)
    ∧ (∀ name, name ≠ "Tasks" → table name m' = table name m)
    ∧ (∀ mem' m'', task_stack_peek m' = Returns (Some mem') m'' →
         task_node_memid mem' ≠ task_node_memid mem).
Proof.
  intros Ht Hpeek. eexists. split.
  { unfold task_stack_pop. unfold_monad. rewrite Hpeek.
    unfold get_time, db_update. unfold_monad. reflexivity. }
  assert (∀ r, r ∈ table "Tasks"
             (set_db (λ d, <["Tasks" :=
                List.map (λ r, if Sql.eq (col "uuid" r) (task_node_memid mem)
                               then <["finished_at" := VInt (time m)]> r
                               else r) (table "Tasks" m)]> d) m) →
         Sql.eq (col "uuid" r) (task_node_memid mem) = true →
         col "finished_at" r = VInt (time m) ∧ on_stack r = false) as Hrows.
  { intros r Hr Heq. rewrite table_insert_eq in Hr.
    apply list_elem_of_In, List.in_map_iff in Hr as (r0 & <- & _).
    destruct (Sql.eq (col "uuid" r0) (task_node_memid mem)) eqn:E;
      [|congruence].
    split; [apply col_insert_eq|by apply on_stack_finished]. }
  split; [exact Hrows|]. split.
  { intros name Hne. by rewrite table_insert_ne. }
  intros mem' m'' Hpeek' Heq.
  apply task_stack_peek_inv in Hpeek' as (_ & x & Hx & Hid & Hrefl).
  apply elem_of_filter_list in Hx as [Hx Hon].
  destruct (Hrows x Hx) as [_ Hoff]; [|congruence].
  by rewrite <- Heq, Hid.
Qed.

Lemma task_stack_pop_finishes_witness :
  ∃ mem m', task_stack_pop one_task_memory = Returns mem m'
    ∧ (∀ mem' m'', task_stack_peek m' = Returns (Some mem') m'' →
         task_node_memid mem' ≠ task_node_memid mem).
Proof.
  eexists.
  destruct (task_stack_pop_finishes one_task_memory
              (mkTaskNode (VText "5") (mkTask "Move" (Some "5") "")
                 (VInt 1) (VInt (-1)) (VText "Move")))
    as (m' & Hpop & _ & _ & Hpeek).
  - vm_compute. discriminate.
  - vm_compute. reflexivity.
  - exists m'. split; [exact Hpop|exact Hpeek].
Defined.

Lemma filter_map_if {A} (c : A → bool) (f : A → A) (l : list A) :
  (∀ x, c (f x) = c x) →
  List.filter c (List.map (λ x, if c x then f x else x) l)
  = List.map f (List.filter c l).
Proof.
  intros Hc. induction l as [|x l IH]; simpl; [done|].
  destruct (c x) eqn:E; simpl.
  - by rewrite Hc, E, IH.
  - by rewrite E, IH.
Qed.

(** X5. [task_stack_update_task] followed by [get_task_by_id]: when [Tasks]
    has a row under the identifier, the node read back carries the task
    just stored, and the creation time, finishing time and action name of
    that row, which the update leaves alone. *)
Theorem task_stack_update_task_read_back memid task r m :
  head (List.filter (λ r, Sql.eq (col "uuid" r) memid) (table "Tasks" m))
  = Some r →
  ∃ m', task_stack_update_task memid task m = Returns tt m'
    ∧ get_task_by_id memid m'
      = Returns (mkTaskNode memid task (col "created_at" r)
                   (col "finished_at" r) (col "action_name" r)) m'
    ∧ ∀ name, name ≠ "Tasks" → table name m' = table name m.
Proof.
  intros Hr. eexists. split; [reflexivity|]. split.
  - unfold get_task_by_id, TaskNode_init, _db_read_one. unfold_monad.
    rewrite table_insert_eq.
    rewrite (filter_map_if (λ r, Sql.eq (col "uuid" r) memid)
               (λ r, <["pickled" := safe_pickle task]> r))
      by (intros x; by rewrite col_insert_ne).
    destruct (List.filter _ (table "Tasks" m)) as [|r' l]; [done|].
    injection Hr as ->. cbn [List.map head].
    rewrite col_insert_eq. unfold safe_pickle.
    by rewrite !col_insert_ne.
  - intros name Hne. by rewrite table_insert_ne.
Qed.

Lemma task_stack_update_task_read_back_witness :
  ∃ m', task_stack_update_task (VText "5") (a_task "Build") one_task_memory
        = Returns tt m'
    ∧ get_task_by_id (VText "5") m'
      = Returns (mkTaskNode (VText "5") (a_task "Build") (VInt 1) (VInt (-1))
                   (VText "Move")) m'.
Proof.
  destruct (task_stack_update_task_read_back (VText "5") (a_task "Build")
              (task_row "5" (mkTask "Move" (Some "5") "") 1) one_task_memory)
    as (m' & Hrun & Hget & _).
  - vm_compute. reflexivity.
  - exists m'. split; [exact Hrun|exact Hget].
Defined.

(** X6. [task_stack_push] with [chat_effect=True] when no chat of another
    speaker is stored: the call raises [AssertionError], yet the entity and
    the row of the task are already written, so the task is in [Tasks].
    The same holds for [Interpreter.append_new_task], after its tick. *)
Theorem task_stack_push_without_chat task parent m :
  truthy parent = false →
  List.filter (incoming (VInt (-1))) (table "Chats" m) = [] →
  task_stack_push task parent true m = Raises AssertionError (pushed task m)
  ∧ task_row (uuid_hex (uuid_supply m))
      (set_task_memid (uuid_hex (uuid_supply m)) task) (time m)
    ∈ table "Tasks" (pushed task m)
  ∧ ∀ i, memory i = m →
      append_new_task task i
      = Raises AssertionError (set_memory (pushed task (ticked 1 m)) i).
Proof.
  intros Hp Hnone.
  assert (∀ m0, List.filter (incoming (VInt (-1))) (table "Chats" m0) = [] →
            task_stack_push task parent true m0
            = Raises AssertionError (pushed task m0)) as Hpush.
  { intros m0 H0. unfold task_stack_push, TaskNode_create, new, uuid4,
      get_time, db_insert. unfold_monad. rewrite Hp.
    unfold get_most_recent_incoming_chat, _db_read. unfold_monad.
    change (time (append_row "Memories" _ (drawn m0))) with (time m0).
    change (time (drawn m0)) with (time m0). fold (pushed task m0).
    assert (table "Chats" (pushed task m0) = table "Chats" m0) as ->.
    { unfold pushed. by rewrite !table_append_ne. }
    unfold incoming in H0. by rewrite H0. }
  split; [by apply Hpush|]. split.
  { rewrite table_tasks_pushed. apply elem_of_app. right. left. }
  intros i Hi. unfold append_new_task, with_memory. unfold_monad.
  rewrite add_tick_run. cbn [memory set_memory]. rewrite Hi.
  assert (task_stack_push task VNull true (ticked 1 m)
          = Raises AssertionError (pushed task (ticked 1 m))) as ->; [|done].
  specialize (Hpush (ticked 1 m) Hnone).
  unfold task_stack_push in *. rewrite Hp in Hpush. exact Hpush.
Qed.

Lemma task_stack_push_without_chat_witness :
  task_stack_push (a_task "Move") VNull true fresh_memory
  = Raises AssertionError (pushed (a_task "Move") fresh_memory).
Proof.
  apply (task_stack_push_without_chat (a_task "Move") VNull fresh_memory).
  - reflexivity.
  - vm_compute. reflexivity.
Defined.
End PopMore.


(** * Tags and triples, continued *)

Section TagsMore.
Implicit Types (m : AgentMemory) (r t e : Row).

Lemma truthy_text s : s ≠ "" → truthy (VText s) = true.
Proof. intros H. simpl. by apply negb_true_iff, String.eqb_neq. Qed.

Lemma same_value_text v x : same_value v (VText x) = true → v = VText x.
Proof.
  destruct v as [| | |s|]; simpl; try done.
  destruct (String.compare s x) eqn:E; try done.
  apply String.compare_eq_iff in E. by subst.
Qed.

Lemma eq_text_l s w : Sql.eq (VText s) w = true → w = VText s.
Proof.
  destruct w as [| | |x|]; simpl; try done.
  destruct (String.compare s x) eqn:E; try done.
  apply String.compare_eq_iff in E. by subst.
Qed.

Lemma elem_of_distinct v l : v ∈ distinct l → v ∈ l.
Proof.
  revert v. induction l as [|w l IH]; intros v; simpl; [done|].
  intros [->|H]%elem_of_cons; [left|right].
  apply elem_of_filter_list in H as [H _]. by apply IH.
Qed.

Lemma elem_of_distinct_text x l : VText x ∈ l → VText x ∈ distinct l.
Proof.
  induction l as [|w l IH]; simpl; [done|].
  intros [<-|H]%elem_of_cons; [left|].
  destruct (decide (w = VText x)) as [->|Hne]; [left|right].
  apply elem_of_filter_list. split; [by apply IH|].
  apply negb_true_iff. destruct (same_value w (VText x)) eqn:E; [|done].
  by apply same_value_text in E.
Qed.

Lemma elem_of_join_live_2 (cond : Row → bool) m t e :
  t ∈ table "Triples" m → cond t = true → e ∈ table "Memories" m →
  Sql.eq (col "subj" t) (col "uuid" e) = true →
  Sql.eq (col "is_snapshot" e) (VInt 0) = true →
  (t, e) ∈ join_live cond m.
Proof.
  intros Ht Hc He Hj Hs. unfold join_live.
  apply list_elem_of_bind. exists t. split; [|by apply elem_of_filter_list].
  apply list_elem_of_bind. exists e. split; [by left|].
  apply elem_of_filter_list. split; [done|]. by rewrite Hj, Hs.
Qed.

(** [tag] of an entity given by its identifier: the row appended to
    [Triples], over a store that differs by named abstractions only. *)
Lemma tag_run s x m :
  s ≠ "" → x ≠ "" →
  ∃ pred obj m3,
    tag (VText s) (VText x) m
    = Returns tt
        (append_row "Triples"
           (triple_row (uuid_hex (uuid_supply m)) (VText s) VNull pred
              (VText "has_tag") obj (VText x) default_confidence) m3)
    ∧ abstracted m m3.
Proof.
  intros Hs Hx.
  destruct (add_triple_run (VText s) no_text "" "has_tag" x
              default_confidence m)
    as (pred & obj' & subj' & m3 & Hrun & Hab & _ & _ & Hrs & _).
  { unfold add_triple_accepts. rewrite (truthy_text s Hs), (truthy_text x Hx).
    reflexivity. }
  unfold resolved in Hrs. rewrite (truthy_text s Hs) in Hrs. subst subj'.
  exists pred, obj', m3. split; [|done].
  unfold tag. fold no_text in Hrun. rewrite Hrun.
  unfold text_or_None. rewrite (truthy_text x Hx). reflexivity.
Qed.

(** X7. Tagging and reading back.  After [tag] of an entity under a
    non-empty identifier with a non-empty text, [get_tags_by_memid] of that
    identifier lists the text; and when the identifier is that of a live
    entity, [get_memids_by_tag] of the text lists the identifier. *)
Theorem tag_then_lookup s x m :
  s ≠ "" → x ≠ "" →
  ∃ m', tag (VText s) (VText x) m = Returns tt m'
    ∧ (∃ l, get_tags_by_memid (VText s) true m' = Returns l m'
            ∧ VText x ∈ l)
    ∧ (live_entity m (VText s) →
       ∃ l, get_memids_by_tag (VText x) m' = Returns l m' ∧ VText s ∈ l).
Proof.
  intros Hs Hx.
  destruct (tag_run s x m Hs Hx) as (pred & obj & m3 & Hrun & Hab).
  eexists. split; [exact Hrun|].
  set (t := triple_row (uuid_hex (uuid_supply m)) (VText s) VNull pred
              (VText "has_tag") obj (VText x) default_confidence).
  assert (t ∈ table "Triples" (append_row "Triples" t m3)) as Ht.
  { rewrite table_append_eq. apply elem_of_app. right. left. }
  split.
  - eexists. split; [reflexivity|]. cbn beta iota.
    apply elem_of_distinct_text.
    apply (list_elem_of_fmap_2 (col "obj_text") _ t).
    apply elem_of_filter_list. split; [exact Ht|].
    change (col "pred_text" t) with (VText "has_tag").
    change (col "subj" t) with (VText s). by rewrite !eq_text_refl.
  - intros (e & He & Hse & Hlive).
    eexists. split; [reflexivity|].
    apply elem_of_distinct_text.
    assert (col "uuid" e = VText s) as Hu by by apply eq_text_l.
    rewrite <- Hu.
    apply (list_elem_of_fmap_2 (λ te : Row * Row, col "uuid" te.2) _ (t, e)).
    apply elem_of_join_live_2; [exact Ht| | |done|done].
    + change (col "pred_text" t) with (VText "has_tag").
      change (col "obj_text" t) with (VText x). by rewrite !eq_text_refl.
    + rewrite table_append_ne by done.
      destruct (prefix_abstracted "Memories" m m3 Hab) as [k ->].
      apply elem_of_app. by left.
Qed.

Lemma tag_then_lookup_witness :
  ∃ m', tag (VText "5") (VText "shiny") one_task_memory = Returns tt m'
    ∧ (∃ l, get_tags_by_memid (VText "5") true m' = Returns l m'
            ∧ VText "shiny" ∈ l).
Proof.
  destruct (tag_then_lookup "5" "shiny" one_task_memory)
    as (m' & Hrun & Hget & _).
  - discriminate.
  - discriminate.
  - exists m'. split; [exact Hrun|exact Hget].
Defined.

(** X8. [untag] deletes from [Triples] and from nothing else.  Afterwards
    [get_tags_by_memid] of the subject does not list the text any more,
    and still lists every other text it listed before. *)
Theorem untag_removes_tag subj x m :
  ∃ m', untag subj (VText x) m = Returns tt m'
    ∧ (∀ name, name ≠ "Triples" → table name m' = table name m)
    ∧ (∃ l, get_tags_by_memid subj true m' = Returns l m' ∧ VText x ∉ l)
    ∧ (∀ y l l', y ≠ x →
         get_tags_by_memid subj true m = Returns l m →
         get_tags_by_memid subj true m' = Returns l' m' →
         VText y ∈ l → VText y ∈ l').
Proof.
  eexists. split; [reflexivity|]. split; [|split].
  - intros name Hne. by rewrite table_insert_ne.
  - eexists. split; [reflexivity|]. cbn beta iota.
    intros Hin%elem_of_distinct.
    apply list_elem_of_fmap in Hin as (r & Hr & Hin).
    apply elem_of_filter_list in Hin as [Hin Hc].
    rewrite table_insert_eq in Hin.
    apply elem_of_filter_list in Hin as [_ Hn].
    apply andb_true_iff in Hc as [Hp Hsub].
    apply negb_true_iff in Hn. unfold is_tag in Hn.
    by rewrite Hsub, Hp, <- Hr, eq_text_refl in Hn.
  - intros y l l' Hne [= <-] [= <-] Hy.
    apply elem_of_distinct_text. apply elem_of_distinct in Hy.
    apply list_elem_of_fmap in Hy as (r & Hr & Hin).
    apply elem_of_filter_list in Hin as [Hin Hc].
    rewrite Hr. apply list_elem_of_fmap_2.
    apply elem_of_filter_list. split; [|done].
    rewrite table_insert_eq. apply elem_of_filter_list. split; [done|].
    apply negb_true_iff. unfold is_tag. rewrite <- Hr.
    rewrite (eq_text_ne (VText y) x) by congruence.
    apply andb_false_r.
Qed.

Lemma untag_removes_tag_witness :
  ∃ m' l, untag (VText self_memid) (VText "_agent") fresh_memory
          = Returns tt m'
    ∧ get_tags_by_memid (VText self_memid) true m' = Returns l m'
    ∧ VText "_agent" ∉ l ∧ VText "_self" ∈ l.
Proof.
  destruct (untag_removes_tag (VText self_memid) "_agent" fresh_memory)
    as (m' & Hrun & _ & (l & Hl & Hnot) & Hkeep).
  exists m', l. split; [exact Hrun|]. split; [exact Hl|].
  split; [exact Hnot|].
  apply (Hkeep "_self" [VText "_agent"; VText "_self"] l).
  - discriminate.
  - vm_compute. reflexivity.
  - exact Hl.
  - right. left.
Defined.

Lemma add_triple_refused subj obj st pt ot confidence m :
  add_triple_accepts subj obj st ot = false →
  add_triple subj obj st pt ot confidence m = Raises AssertionError m.
Proof.
  unfold add_triple_accepts, add_triple. unfold_monad. intros H.
  destruct (truthy subj || truthy st) eqn:E1; [|done]. simpl.
  destruct (truthy obj || truthy ot) eqn:E2; [|done]. simpl.
  destruct (negb (truthy subj && truthy st)) eqn:E3; [|done]. simpl.
  destruct (negb (truthy obj && truthy ot)) eqn:E4; [|done].
  done.
Qed.

(** X9. [add_triple] checks its arguments before it writes: when the
    subject or the object is given both by identifier and by text, or by
    neither, the call raises [AssertionError] and the store is as before: no
    identifier is drawn and no abstraction is created.  So [tag] with an
    empty text, or of no subject, stores nothing. *)
Theorem add_triple_rejects subj obj st pt ot confidence m :
  add_triple_accepts subj obj st ot = false →
  add_triple subj obj st pt ot confidence m = Raises AssertionError m
  ∧ tag subj (VText "") m = Raises AssertionError m
  ∧ tag VNull ot m = Raises AssertionError m.
Proof.
  intros H. split; [by apply add_triple_refused|].
  split; apply add_triple_refused; unfold add_triple_accepts; simpl.
  - by rewrite orb_false_r, andb_false_r.
  - done.
Qed.

Lemma add_triple_rejects_witness :
  add_triple (VText "5") (VText "4") no_text (VText "likes") (VText "blue")
    default_confidence one_task_memory
  = Raises AssertionError one_task_memory.
Proof.
  apply (add_triple_rejects (VText "5") (VText "4") no_text (VText "likes")
           (VText "blue") default_confidence one_task_memory).
  reflexivity.
Defined.

Lemma filter_none {A} (f : A → bool) (l : list A) :
  (∀ x, x ∈ l → f x = false) → List.filter f l = [].
Proof.
  induction l as [|x l IH]; intros H; simpl; [done|].
  rewrite (H x) by left. apply IH. intros y Hy. apply H. by right.
Qed.

Lemma join_live_none (cond : Row → bool) m :
  List.filter cond (table "Triples" m) = [] → join_live cond m = [].
Proof. unfold join_live. by intros ->. Qed.

(** X10. [remove_memid_triple] with role "both" deletes exactly the
    triples that have the identifier as subject or as object, from
    [Triples] only; [get_triples] of that subject then finds nothing.  A
    role other than "subj", "obj" and "both" deletes nothing. *)
Theorem remove_memid_triple_both memid m :
  ∃ m', remove_memid_triple memid "both" m = Returns tt m'
    ∧ (∀ r, r ∈ table "Triples" m' ↔
            r ∈ table "Triples" m ∧ Sql.eq (col "subj" r) memid = false
            ∧ Sql.eq (col "obj" r) memid = false)
    ∧ (∀ name, name ≠ "Triples" → table name m' = table name m)
    ∧ (truthy memid = true →
       get_triples memid VNull VNull VNull VNull "if_exists" m'
       = Returns [] m')
    ∧ (∀ role, role ≠ "subj" → role ≠ "obj" → role ≠ "both" →
         remove_memid_triple memid role m = Returns tt m).
Proof.
  eexists. split; [reflexivity|].
  assert (∀ r, r ∈ table "Triples"
            (set_db (λ d, <["Triples" :=
               List.filter (λ r, negb (Sql.eq (col "obj" r) memid))
                 (table "Triples"
                    (set_db (λ d, <["Triples" :=
                       List.filter (λ r, negb (Sql.eq (col "subj" r) memid))
                         (table "Triples" m)]> d) m))]> d)
               (set_db (λ d, <["Triples" :=
                  List.filter (λ r, negb (Sql.eq (col "subj" r) memid))
                    (table "Triples" m)]> d) m))
          ↔ r ∈ table "Triples" m ∧ Sql.eq (col "subj" r) memid = false
            ∧ Sql.eq (col "obj" r) memid = false) as Hrows.
  { intros r. rewrite !table_insert_eq, !elem_of_filter_list.
    rewrite !negb_true_iff. tauto. }
  split; [exact Hrows|]. split; [|split].
  - intros name Hne. rewrite table_insert_ne by done.
    by rewrite table_insert_ne.
  - intros Ht. unfold get_triples. unfold_monad.
    rewrite assert_true by (by rewrite Ht).
    rewrite assert_true by (simpl; by rewrite andb_false_r).
    rewrite assert_true by done.
    cbn [List.filter is_None negb snd]. rewrite join_live_none; [done|].
    apply filter_none. intros r [_ [Hs _]]%Hrows.
    assert (is_None memid = false) as -> by by destruct memid.
    cbn [forallb fst snd negb]. by rewrite Hs.
  - intros role H1 H2 H3. unfold remove_memid_triple.
    apply String.eqb_neq in H1, H2, H3. by rewrite H1, H2, H3.
Qed.

Lemma remove_memid_triple_both_witness :
  ∃ m', remove_memid_triple (VText "5") "both" archived_task_memory
        = Returns tt m'
    ∧ get_triples (VText "5") VNull VNull VNull VNull "if_exists" m'
      = Returns [] m'
    ∧ remove_memid_triple (VText "5") "subject" archived_task_memory
      = Returns tt archived_task_memory.
Proof.
  destruct (remove_memid_triple_both (VText "5") archived_task_memory)
    as (m' & Hrun & _ & _ & Hget & Hrole).
  exists m'. split; [exact Hrun|]. split.
  - apply Hget. reflexivity.
  - apply Hrole; discriminate.
Defined.
End TagsMore.


(** * Nodes, continued *)

Section NodesMore.
Implicit Types (m : AgentMemory) (r t e : Row) (cls : NodeCls).

(** X11. Looking up an identifier that [Memories] does not have:
    [get_node_from_memid] and [get_mem_by_id] raise [TypeError] (they do not
    return [None]), while [check_memid_exists] answers [False].  Given a
    node type whose constructor does not unpack a row, [get_mem_by_id]
    returns a node for that identifier all the same. *)
Theorem get_mem_by_id_unknown memid m :
  List.filter (λ r, Sql.eq (col "uuid" r) memid) (table "Memories" m) = [] →
  get_node_from_memid memid m = Raises TypeError m
  ∧ get_mem_by_id memid VNull m = Raises TypeError m
  ∧ check_memid_exists memid "Memories" m = Returns false m
  ∧ ∀ k cls, nodes m !! k = Some cls →
      cls ∈ [SetNode; NamedAbstractionNode; TimeNode] →
      get_mem_by_id memid (VText k) m = Returns (mkNode cls memid) m.
Proof.
  intros H.
  assert (get_node_from_memid memid m = Raises TypeError m) as Hnode.
  { unfold get_node_from_memid, _db_read_one. unfold_monad. by rewrite H. }
  split; [done|]. split; [|split].
  - unfold get_mem_by_id. unfold mbind, St_bind, bind. cbn [is_None].
    by rewrite Hnode.
  - unfold check_memid_exists, _db_read_one. unfold_monad. rewrite H.
    reflexivity.
  - intros k cls Hk Hcls. unfold get_mem_by_id. unfold_monad.
    cbn [is_None]. rewrite Hk. cbn [default].
    apply list_elem_of_In in Hcls. simpl in Hcls.
    by destruct Hcls as [<-|[<-|[<-|[]]]].
Qed.

Lemma get_mem_by_id_unknown_witness :
  get_mem_by_id (VText "no such memid") VNull one_task_memory
  = Raises TypeError one_task_memory
  ∧ get_mem_by_id (VText "no such memid") (VText "Set") one_task_memory
    = Returns (mkNode SetNode (VText "no such memid")) one_task_memory.
Proof.
  destruct (get_mem_by_id_unknown (VText "no such memid") one_task_memory)
    as (_ & Hget & _ & Hcls).
  - vm_compute. reflexivity.
  - split; [exact Hget|]. apply Hcls.
    + vm_compute. reflexivity.
    + left.
Defined.

Lemma player_update_uuid p r : col "uuid" (player_update p r) = col "uuid" r.
Proof. unfold player_update. by rewrite !col_insert_ne. Qed.

(** X12. [PlayerNode.update] followed by [PlayerNode.get_pos].  The update
    returns the identifier whether or not [ReferenceObjects] has a row for
    it.  When it has one, [get_pos] then returns the position of the
    update; when it has none, nothing was written and [get_pos] raises
    [TypeError]. *)
Theorem PlayerNode_update_get_pos p memid m :
  ∃ m', PlayerNode_update p memid m = Returns memid m'
    ∧ (∀ name, name ≠ "ReferenceObjects" → table name m' = table name m)
    ∧ PlayerNode_get_pos (mkNode PlayerNode memid) m'
      = match head (List.filter (λ r, Sql.eq (col "uuid" r) memid)
                      (table "ReferenceObjects" m)) with
        | Some _ => Returns (pos_x p, pos_y p, pos_z p) m'
        | None => Raises TypeError m'
        end.
Proof.
  eexists. split; [reflexivity|]. split.
  - intros name Hne. by rewrite table_insert_ne.
  - unfold PlayerNode_get_pos, _db_read_one. unfold_monad.
    cbn [node_memid]. rewrite table_insert_eq.
    rewrite (filter_map_if (λ r, Sql.eq (col "uuid" r) memid)
               (player_update p))
      by (intros x; by rewrite player_update_uuid).
    destruct (List.filter _ (table "ReferenceObjects" m)) as [|r l];
      [done|].
    cbn [List.map head]. unfold player_update.
    rewrite (col_insert_ne "yaw" "x"), (col_insert_ne "pitch" "x"),
      (col_insert_ne "z" "x"), (col_insert_ne "y" "x"), col_insert_eq by done.
    rewrite (col_insert_ne "yaw" "y"), (col_insert_ne "pitch" "y"),
      (col_insert_ne "z" "y"), col_insert_eq by done.
    rewrite (col_insert_ne "yaw" "z"), (col_insert_ne "pitch" "z"),
      col_insert_eq by done.
    reflexivity.
Qed.

Lemma PlayerNode_update_get_pos_witness :
  ∃ m', PlayerNode_update a_player (VText "no such memid") one_task_memory
        = Returns (VText "no such memid") m'
    ∧ table "Tasks" m' = table "Tasks" one_task_memory
    ∧ PlayerNode_get_pos (mkNode PlayerNode (VText "no such memid")) m'
      = Raises TypeError m'.
Proof.
  destruct (PlayerNode_update_get_pos a_player (VText "no such memid")
              one_task_memory) as (m' & Hrun & Hother & Hpos).
  exists m'. split; [exact Hrun|]. split; [apply Hother; discriminate|].
  exact Hpos.
Defined.

(** [add_triple] of a text to an entity given by its identifier: every
    table keeps its rows, only [Memories], [NamedAbstractions] and [Triples]
    can grow, and [Triples] has the new row. *)
Lemma add_text_triple_frame s pt x m :
  s ≠ "" → x ≠ "" →
  ∃ m', add_triple (VText s) no_text no_text (VText pt) (VText x)
          default_confidence m = Returns tt m'
    ∧ time m' = time m
    ∧ (∀ name, table name m `prefix_of` table name m')
    ∧ (∀ name, name ≠ "Memories" → name ≠ "NamedAbstractions" →
         name ≠ "Triples" → table name m' = table name m)
    ∧ ∃ t, t ∈ table "Triples" m' ∧ col "subj" t = VText s
           ∧ col "pred_text" t = VText pt ∧ col "obj_text" t = VText x.
Proof.
  intros Hs Hx.
  destruct (add_triple_run (VText s) no_text "" pt x default_confidence m)
    as (pred & obj' & subj' & m3 & Hrun & Hab & _ & _ & Hrs & _).
  { unfold add_triple_accepts. rewrite (truthy_text s Hs), (truthy_text x Hx).
    reflexivity. }
  unfold resolved in Hrs. rewrite (truthy_text s Hs) in Hrs. subst subj'.
  fold no_text in Hrun. rewrite Hrun.
  unfold text_or_None. rewrite (truthy_text x Hx). cbn [truthy String.eqb negb].
  eexists. split; [reflexivity|]. split; [|split; [|split]].
  - by destruct Hab.
  - intros name. etrans; [by apply prefix_abstracted|].
    apply prefix_append_row.
  - intros name H1 H2 H3. rewrite table_append_ne by done.
    by destruct Hab as [_ _ _ Ho _ _]; apply Ho.
  - eexists. split; [rewrite table_append_eq; apply elem_of_app; right; left|].
    done.
Qed.

Lemma uuid_hex_nonempty k : uuid_hex k ≠ "".
Proof.
  intros H. pose proof (uuid_hex_truthy k) as Ht. by rewrite H in Ht.
Qed.

Lemma elem_of_prefix_of {A} (l1 l2 : list A) x :
  l1 `prefix_of` l2 → x ∈ l1 → x ∈ l2.
Proof. intros [k ->] H. apply elem_of_app. by left. Qed.

Lemma has_tag_listed s x t m :
  t ∈ table "Triples" m → col "subj" t = VText s →
  col "pred_text" t = VText "has_tag" → col "obj_text" t = VText x →
  ∃ l, get_tags_by_memid (VText s) true m = Returns l m ∧ VText x ∈ l.
Proof.
  intros Ht Hs Hp Ho. eexists. split; [reflexivity|]. cbn beta iota.
  apply elem_of_distinct_text. rewrite <- Ho.
  apply list_elem_of_fmap_2. apply elem_of_filter_list. split; [done|].
  by rewrite Hp, Hs, !eq_text_refl.
Qed.

Lemma bind_run {A B} (c : M A) (k : A → M B) a m m' :
  c m = Returns a m' → (c ≫= k) m = k a m'.
Proof. intros H. unfold_monad. by rewrite H. Qed.

Lemma bind_raise {A B} (c : M A) (k : A → M B) err m m' :
  c m = Raises err m' → (c ≫= k) m = Raises err m'.
Proof. intros H. unfold_monad. by rewrite H. Qed.

(** The four tags that [PlayerNode.create] gives a player, and what follows
    them. *)
Lemma player_tags_run id m0 :
  id ≠ "" →
  ∃ m4,
    (∀ A (k : M A),
       (tag (VText id) (VText "_player");;
        tag (VText id) (VText "_physical_object");;
        tag (VText id) (VText "_animate");;
        tag (VText id) (VText "_not_location");; k) m0 = k m4)
    ∧ (∀ name, table name m0 `prefix_of` table name m4)
    ∧ (∀ name, name ≠ "Memories" → name ≠ "NamedAbstractions" →
         name ≠ "Triples" → table name m4 = table name m0)
    ∧ ∀ x, x ∈ ["_player"; "_physical_object"; "_animate"; "_not_location"] →
        ∃ l, get_tags_by_memid (VText id) true m4 = Returns l m4
             ∧ VText x ∈ l.
Proof.
  intros Hid. unfold tag.
  destruct (add_text_triple_frame id "has_tag" "_player" m0 Hid)
    as (m1 & H1 & _ & Hp1 & Hk1 & t1 & Ht1 & Hs1 & Hq1 & Ho1); [done|].
  destruct (add_text_triple_frame id "has_tag" "_physical_object" m1 Hid)
    as (m2 & H2 & _ & Hp2 & Hk2 & t2 & Ht2 & Hs2 & Hq2 & Ho2); [done|].
  destruct (add_text_triple_frame id "has_tag" "_animate" m2 Hid)
    as (m3 & H3 & _ & Hp3 & Hk3 & t3 & Ht3 & Hs3 & Hq3 & Ho3); [done|].
  destruct (add_text_triple_frame id "has_tag" "_not_location" m3 Hid)
    as (m4 & H4 & _ & Hp4 & Hk4 & t4 & Ht4 & Hs4 & Hq4 & Ho4); [done|].
  exists m4. split; [|split; [|split]].
  - intros A k.
    by rewrite (bind_run _ _ tt _ m1 H1), (bind_run _ _ tt _ m2 H2),
      (bind_run _ _ tt _ m3 H3), (bind_run _ _ tt _ m4 H4).
  - intros name. etrans; [apply Hp1|]. etrans; [apply Hp2|].
    etrans; [apply Hp3|]. apply Hp4.
  - intros name N1 N2 N3. by rewrite Hk4, Hk3, Hk2, Hk1.
  - assert (∀ t, t ∈ table "Triples" m3 → t ∈ table "Triples" m4) as H34
      by (intros t; apply elem_of_prefix_of, Hp4).
    assert (∀ t, t ∈ table "Triples" m2 → t ∈ table "Triples" m4) as H24
      by (intros t Ht; apply H34; revert Ht; apply elem_of_prefix_of, Hp3).
    assert (∀ t, t ∈ table "Triples" m1 → t ∈ table "Triples" m4) as H14
      by (intros t Ht; apply H24; revert Ht; apply elem_of_prefix_of, Hp2).
    intros x Hx. apply list_elem_of_In in Hx. simpl in Hx.
    destruct Hx as [<-|[<-|[<-|[<-|[]]]]].
    + by apply (has_tag_listed id "_player" t1 m4 (H14 _ Ht1)).
    + by apply (has_tag_listed id "_physical_object" t2 m4 (H24 _ Ht2)).
    + by apply (has_tag_listed id "_animate" t3 m4 (H34 _ Ht3)).
    + by apply (has_tag_listed id "_not_location" t4 m4).
Qed.

(** [PlayerNode.create] of a player with a non-empty name. *)
Lemma PlayerNode_create_run p n m :
  player_name p = VText n → n ≠ "" →
  ∃ m', PlayerNode_create p m = Returns (uuid_hex (uuid_supply m)) m'
    ∧ table "ReferenceObjects" m'
      = table "ReferenceObjects" m ++ [player_row (uuid_hex (uuid_supply m)) p]
    ∧ ∀ x, x ∈ ["_player"; "_physical_object"; "_animate"; "_not_location"] →
        ∃ l, get_tags_by_memid (VText (uuid_hex (uuid_supply m))) true m'
             = Returns l m'
             ∧ VText x ∈ l.
Proof.
  intros Hname Hn.
  set (id := uuid_hex (uuid_supply m)).
  pose proof (uuid_hex_nonempty (uuid_supply m)) as Hid. fold id in Hid.
  set (m0 := append_row "ReferenceObjects" (player_row id p)
               (append_row "Memories" (memory_row id PlayerNode (time m) false)
                  (drawn m))).
  destruct (player_tags_run id m0 Hid) as (m4 & Hrun & Hp & Hk & Htags).
  destruct (add_text_triple_frame id "has_name" n m4 Hid Hn)
    as (m5 & H5 & _ & Hp5 & Hk5 & _).
  exists m5. split; [|split].
  - unfold PlayerNode_create.
    rewrite (bind_run (new PlayerNode false) _ id m
               (append_row "Memories" (memory_row id PlayerNode (time m) false)
                  (drawn m))) by reflexivity.
    rewrite (bind_run (db_insert "ReferenceObjects" (player_row id p)) _
               1%nat _ m0) by reflexivity.
    rewrite Hrun, Hname. cbn [is_None negb].
    by rewrite (bind_run _ _ tt _ m5 H5).
  - rewrite Hk5, Hk by done. unfold m0.
    rewrite table_append_eq. by rewrite table_append_ne.
  - intros x Hx. destruct (Htags x Hx) as (l & Hl & Hin).
    eexists. split; [reflexivity|]. cbn beta iota.
    revert Hl. unfold get_tags_by_memid, _db_read. unfold_monad.
    intros [= <-]. apply elem_of_distinct_text.
    apply elem_of_distinct, list_elem_of_fmap in Hin as (t & Ht & Hin).
    rewrite Ht. apply list_elem_of_fmap_2.
    apply elem_of_filter_list in Hin as [Hin Hc].
    apply elem_of_filter_list. split; [|done].
    revert Hin. apply elem_of_prefix_of, Hp5.
Qed.

(** X13. [PlayerNode.create] followed by the lookups.  On a store where no
    player has the name yet, creating a player with a non-empty name returns
    a new identifier; [get_player_by_name] then returns the player under
    that identifier, [get_pos] returns its position, and its tags include
    "_player", "_physical_object", "_animate" and "_not_location". *)
Theorem PlayerNode_create_then_lookup p n m :
  fresh m → player_name p = VText n → n ≠ "" →
  List.filter (λ r, Sql.eq (col "ref_type" r) (VText "player")
                    && Sql.eq (col "name" r) (VText n))
    (table "ReferenceObjects" m) = [] →
  ∃ m', PlayerNode_create p m = Returns (uuid_hex (uuid_supply m)) m'
    ∧ get_player_by_name (VText n) m'
      = Returns (Some (mkNode PlayerNode (VText (uuid_hex (uuid_supply m))))) m'
    ∧ PlayerNode_get_pos (mkNode PlayerNode (VText (uuid_hex (uuid_supply m)))) m'
      = Returns (pos_x p, pos_y p, pos_z p) m'
    ∧ ∃ l, get_tags_by_memid (VText (uuid_hex (uuid_supply m))) true m'
           = Returns l m'
        ∧ VText "_player" ∈ l ∧ VText "_physical_object" ∈ l
        ∧ VText "_animate" ∈ l ∧ VText "_not_location" ∈ l.
Proof.
  intros Hfresh Hname Hn Hnone.
  destruct (PlayerNode_create_run p n m Hname Hn) as (m' & Hrun & Hro & Htags).
  set (id := uuid_hex (uuid_supply m)) in *.
  exists m'. split; [exact Hrun|].
  assert (head (List.filter (λ r, Sql.eq (col "uuid" r) (VText id))
                  (table "ReferenceObjects" m')) = Some (player_row id p))
    as Hrow.
  { rewrite Hro, List.filter_app.
    pose proof (fresh_filter_uuid "ReferenceObjects" (uuid_supply m) m Hfresh
                  (N.le_refl _)) as Hf.
    fold id in Hf. rewrite Hf.
    simpl. change (col "uuid" (player_row id p)) with (VText id).
    by rewrite eq_text_refl. }
  split; [|split].
  - unfold get_player_by_name, _db_read_one. unfold_monad.
    rewrite Hro, List.filter_app, Hnone. simpl.
    change (col "ref_type" (player_row id p)) with (VText "player").
    change (col "name" (player_row id p)) with (player_name p).
    rewrite Hname, !eq_text_refl. cbn [andb head].
    unfold construct, _db_read_one. unfold_monad. cbn [TABLE default].
    change (col "uuid" (player_row id p)) with (VText id).
    by rewrite Hrow.
  - unfold PlayerNode_get_pos, _db_read_one. unfold_monad. cbn [node_memid].
    by rewrite Hrow.
  - destruct (Htags "_player") as (l & Hl & Hin1); [left|].
    destruct (Htags "_physical_object") as (l2 & Hl2 & Hin2); [right; left|].
    destruct (Htags "_animate") as (l3 & Hl3 & Hin3); [do 2 right; left|].
    destruct (Htags "_not_location") as (l4 & Hl4 & Hin4); [do 3 right; left|].
    exists l. split; [done|].
    assert (l2 = l) as <- by congruence.
    assert (l3 = l2) as <- by congruence.
    assert (l4 = l3) as <- by congruence.
    done.
Qed.

Lemma PlayerNode_create_then_lookup_witness :
  ∃ m', PlayerNode_create a_player fresh_memory
        = Returns (uuid_hex (uuid_supply fresh_memory)) m'
    ∧ get_player_by_name (VText "dashboard") m'
      = Returns (Some (mkNode PlayerNode
                         (VText (uuid_hex (uuid_supply fresh_memory))))) m'.
Proof.
  destruct (PlayerNode_create_then_lookup a_player "dashboard" fresh_memory)
    as (m' & Hrun & Hget & _).
  - exact fresh_fresh_memory.
  - reflexivity.
  - discriminate.
  - vm_compute. reflexivity.
  - exists m'. split; [exact Hrun|exact Hget].
Defined.

Lemma eq_null_r v : Sql.eq v VNull = false.
Proof. by destruct v. Qed.

(** X29. [PlayerNode.create] followed by [get_player_by_eid].  On a store
    where no row of [ReferenceObjects] has the entity id yet, the player
    created with that id and a non-empty name is the one
    [get_player_by_eid] returns.  A lookup by [None] finds nothing,
    whatever the store holds: a comparison with NULL selects no row. *)
Theorem PlayerNode_create_then_by_eid p n m :
  fresh m → player_name p = VText n → n ≠ "" → entityId p ≠ VNull →
  List.filter (λ r, Sql.eq (col "eid" r) (entityId p))
    (table "ReferenceObjects" m) = [] →
  ∃ m', PlayerNode_create p m = Returns (uuid_hex (uuid_supply m)) m'
    ∧ get_player_by_eid (entityId p) m'
      = Returns (Some (mkNode PlayerNode (VText (uuid_hex (uuid_supply m))))) m'
    ∧ get_player_by_eid VNull m' = Returns None m'.
Proof.
  intros Hfresh Hname Hn Heid Hnone.
  destruct (PlayerNode_create_run p n m Hname Hn) as (m' & Hrun & Hro & _).
  set (id := uuid_hex (uuid_supply m)) in *.
  exists m'. split; [exact Hrun|]. split.
  - unfold get_player_by_eid, _db_read_one. unfold_monad.
    rewrite Hro, List.filter_app, Hnone. simpl.
    change (col "eid" (player_row id p)) with (entityId p).
    rewrite (eq_refl_not_null _ Heid). cbn [head].
    unfold construct, _db_read_one. unfold_monad. cbn [TABLE default].
    change (col "uuid" (player_row id p)) with (VText id).
    rewrite Hro, List.filter_app.
    pose proof (fresh_filter_uuid "ReferenceObjects" (uuid_supply m) m Hfresh
                  (N.le_refl _)) as Hf.
    fold id in Hf. rewrite Hf. simpl.
    change (col "uuid" (player_row id p)) with (VText id).
    by rewrite eq_text_refl.
  - unfold get_player_by_eid, _db_read_one. unfold_monad.
    rewrite (filter_none _ (table "ReferenceObjects" m')); [done|].
    intros r _. apply eq_null_r.
Qed.

Lemma PlayerNode_create_then_by_eid_witness :
  ∃ m', PlayerNode_create a_player fresh_memory
        = Returns (uuid_hex (uuid_supply fresh_memory)) m'
    ∧ get_player_by_eid (VInt 42) m'
      = Returns (Some (mkNode PlayerNode
                         (VText (uuid_hex (uuid_supply fresh_memory))))) m'.
Proof.
  destruct (PlayerNode_create_then_by_eid a_player "dashboard" fresh_memory)
    as (m' & Hrun & Hget & _).
  - exact fresh_fresh_memory.
  - reflexivity.
  - discriminate.
  - discriminate.
  - vm_compute. reflexivity.
  - exists m'. split; [exact Hrun|exact Hget].
Defined.

(** X30. [PlayerNode.create] of a player whose name is the empty string.
    The name is not [None], so the name triple is attempted, and
    [add_triple] refuses its empty text: the call raises [AssertionError]
    after the row of the player and its four tags have been written, and
    the player stays in [ReferenceObjects]. *)
Theorem PlayerNode_create_empty_name p m :
  player_name p = VText "" →
  ∃ m', PlayerNode_create p m = Raises AssertionError m'
    ∧ table "ReferenceObjects" m'
      = table "ReferenceObjects" m ++ [player_row (uuid_hex (uuid_supply m)) p]
    ∧ ∃ l, get_tags_by_memid (VText (uuid_hex (uuid_supply m))) true m'
           = Returns l m'
           ∧ VText "_player" ∈ l.
Proof.
  intros Hname.
  set (id := uuid_hex (uuid_supply m)).
  pose proof (uuid_hex_nonempty (uuid_supply m)) as Hid. fold id in Hid.
  set (m0 := append_row "ReferenceObjects" (player_row id p)
               (append_row "Memories" (memory_row id PlayerNode (time m) false)
                  (drawn m))).
  destruct (player_tags_run id m0 Hid) as (m4 & Hrun & Hp & Hk & Htags).
  exists m4. split; [|split].
  - unfold PlayerNode_create.
    rewrite (bind_run (new PlayerNode false) _ id m
               (append_row "Memories" (memory_row id PlayerNode (time m) false)
                  (drawn m))) by reflexivity.
    rewrite (bind_run (db_insert "ReferenceObjects" (player_row id p)) _
               1%nat _ m0) by reflexivity.
    rewrite Hrun, Hname. cbn [is_None negb].
    apply bind_raise, add_triple_refused.
    unfold add_triple_accepts. cbn [truthy String.eqb negb orb andb].
    by rewrite andb_false_r.
  - rewrite Hk by done. unfold m0.
    rewrite table_append_eq. by rewrite table_append_ne.
  - apply Htags. left.
Qed.

Lemma PlayerNode_create_empty_name_witness :
  ∃ m', PlayerNode_create
          (mkPlayer (VInt 42) (VText "") (VReal 0) (VReal 63) (VReal 0)
             (VReal 0) (VReal 0)) fresh_memory
        = Raises AssertionError m'
    ∧ ∃ l, get_tags_by_memid (VText (uuid_hex (uuid_supply fresh_memory)))
             true m' = Returns l m'
           ∧ VText "_player" ∈ l.
Proof.
  destruct (PlayerNode_create_empty_name
              (mkPlayer (VInt 42) (VText "") (VReal 0) (VReal 63) (VReal 0)
                 (VReal 0) (VReal 0)) fresh_memory)
    as (m' & Hrun & _ & Htag).
  - reflexivity.
  - exists m'. split; [exact Hrun|exact Htag].
Defined.

Lemma time_append_row name r m : time (append_row name r m) = time m.
Proof. reflexivity. Qed.

Lemma table_ne_memories cls tbl : TABLE cls = Some tbl → tbl ≠ "Memories".
Proof. intros H. destruct cls; try done; injection H as <-; done. Qed.

(** X14. [update_recently_attended] of an entity of a class that takes
    [MemoryNode.snapshot], with a row in the table of its class: the call
    returns, the row of the entity in [Memories] now has the time of the
    call as [attended_time], and, if the entity is live, the query of
    [get_recent_entities] for its node type and any window that is not
    negative lists it. *)
Theorem update_recently_attended_recent cls tbl id e r w m :
  TABLE cls = Some tbl → cls ≠ SetNode → truthy id = true →
  head (List.filter (λ r, Sql.eq (col "uuid" r) id) (table tbl m)) = Some e →
  head (List.filter (λ r, Sql.eq (col "uuid" r) id) (table "Memories" m))
  = Some r →
  Sql.eq (col "is_snapshot" r) (VInt 0) = true →
  col "node_type" r ≠ VNull → 0 ≤ w →
  ∃ m', update_recently_attended (mkNode cls id) m = Returns tt m'
    ∧ <["attended_time" := VInt (time m)]> r ∈ table "Memories" m'
    ∧ ∃ l, recent_memids (col "node_type" r) w m' = Returns l m'
           ∧ col "uuid" r ∈ l.
Proof.
  intros Ht Hcls Hid He Hr Hlive Hty Hw.
  apply head_Some_elem_of, elem_of_filter_list in Hr as [Hr Hu].
  unfold update_recently_attended, set_memory_attended_time, get_time,
    db_update. unfold_monad. cbn [node_memid].
  set (m1 := set_db _ m).
  assert (table tbl m1 = table tbl m) as Htbl.
  { unfold m1. rewrite table_insert_ne; [done|].
    intros <-. by eapply table_ne_memories. }
  destruct (MemoryNode_snapshot_run cls tbl id e m1 Ht Hid)
    as (pred1 & pred2 & m3 & m5 & Hrun & Hab1 & Hab2); [by rewrite Htbl|].
  assert (snapshot (mkNode cls id) m1 = MemoryNode_snapshot (mkNode cls id) m1)
    as -> by (unfold snapshot; cbn [node_cls]; by destruct cls).
  rewrite Hrun. eexists. split; [reflexivity|].
  set (r' := <["attended_time" := VInt (time m)]> r).
  assert (r' ∈ table "Memories" m1) as Hr1.
  { unfold m1. rewrite table_insert_eq.
    apply list_elem_of_In, List.in_map_iff. exists r.
    split; [by rewrite Hu|by apply list_elem_of_In]. }
  match goal with
  | |- r' ∈ table "Memories" ?mf ∧ _ =>
      assert (r' ∈ table "Memories" mf) as Hrf
  end.
  { rewrite table_append_ne by done.
    eapply elem_of_prefix_of; [by apply prefix_abstracted|].
    rewrite table_append_ne by done.
    eapply elem_of_prefix_of; [by apply prefix_abstracted|].
    rewrite table_append_ne by (by apply archive_table_name).
    rewrite table_append_eq. apply elem_of_app. by left. }
  split; [exact Hrf|].
  eexists. split; [reflexivity|].
  assert (col "uuid" r = col "uuid" r') as -> by (unfold r'; by rewrite col_insert_ne).
  apply (list_elem_of_fmap_2 (col "uuid")).
  apply elem_of_order_by_desc, elem_of_filter_list. split; [exact Hrf|].
  unfold r'.
  rewrite (col_insert_ne "attended_time" "node_type"),
    (col_insert_ne "attended_time" "is_snapshot"), col_insert_eq by done.
  rewrite (eq_refl_not_null _ Hty), Hlive.
  destruct Hab1 as [Ht1 _ _ _ _ _]. destruct Hab2 as [Ht2 _ _ _ _ _].
  rewrite time_append_row, Ht2, time_append_row, Ht1, !time_append_row.
  change (time (drawn m1)) with (time m).
  cbn [Sql.ge Sql.compare andb].
  destruct (Z.compare_spec (time m) (time m - w)); try done. lia.
Qed.

Lemma update_recently_attended_recent_witness :
  ∃ m', update_recently_attended (mkNode TaskNode (VText "5")) one_task_memory
        = Returns tt m'
    ∧ ∃ l, recent_memids (VText "Task") 0 m' = Returns l m' ∧ VText "5" ∈ l.
Proof.
  destruct (update_recently_attended_recent TaskNode "Tasks" (VText "5")
              (task_row "5" (mkTask "Move" (Some "5") "") 1)
              (memory_row "5" TaskNode 1 false) 0 one_task_memory)
    as (m' & Hrun & _ & Hrec).
  - reflexivity.
  - discriminate.
  - reflexivity.
  - vm_compute. reflexivity.
  - vm_compute. reflexivity.
  - reflexivity.
  - discriminate.
  - lia.
  - exists m'. split; [exact Hrun|exact Hrec].
Defined.
End NodesMore.


(** * The interpreter, continued *)

Section InterpreterMore.
Context (action_handlers : gmap string Handler).
Implicit Types (i : Interpreter) (actions seq : list LF).

(** X15. A command with an [action] entry: [step] takes this action alone,
    whether or not there is an [action_sequence], which it neither reads
    nor reverses.  The only handler call is the one for this action, and
    when this call returns, [step] returns what it returns. *)
Theorem step_action_alone i t a :
  action_dict i !! "dialogue_type" = Some t →
  is_human_give_command t = true →
  action_dict i !! "action" = Some a →
  collect_actions i = Returns [a] i
  ∧ (step action_handlers i).2 `prefix_of` [a]
  ∧ ∀ d k (h : Handler) response i',
      a = LDict d → d !! "action_type" = Some (LStr k) →
      action_handlers !! k = Some h →
      h (speaker i) a i = Returns response i' →
      step action_handlers i = (Returns response i', [a]).
Proof.
  intros Ht Hc Ha.
  assert (collect_actions i = Returns [a] i) as Hcol.
  { unfold collect_actions. unfold_monad. by rewrite Ha. }
  split; [done|]. split.
  - rewrite (step_called action_handlers i t Ht Hc).
    unfold step_body. rewrite Hcol. cbn [length bool_decide].
    rewrite bool_decide_eq_false_2 by done. apply dispatch_prefix.
  - intros d k h response i' -> Hd Hk Hret.
    apply (step_returns action_handlers i t _ _ _ Ht Hc).
    unfold step_body. rewrite Hcol. rewrite bool_decide_eq_false_2 by done.
    cbn [dispatch get_action_type]. unfold_monad. rewrite Hd. cbn [get_handler].
    rewrite Hk. unfold_monad. by rewrite Hret.
Qed.

(** X16. [step] reverses the list that the command holds, not a copy of
    it: after the reversal the command holds the reversed list, and taking
    the actions once more gives back the order of [action_sequence].  So in
    a run in which the [try] block returns and the handler calls have left
    the command as the reversal made it, the calls are the reversed list,
    and a second [step] of the same interpreter makes its calls in the
    order of [action_sequence]: all of them when its [try] block returns
    too, and an initial part of them otherwise. *)
Theorem step_twice_alternates i t seq :
  action_dict i !! "dialogue_type" = Some t →
  is_human_give_command t = true →
  action_dict i !! "action" = None →
  action_dict i !! "action_sequence" = Some (LList seq) →
  let reversed := <["action_sequence" := LList (reverse seq)]> (action_dict i) in
  collect_actions i = Returns (reverse seq) (set_action_dict reversed i)
  ∧ (∃ i0, collect_actions (set_action_dict reversed i) = Returns seq i0
           ∧ action_dict i0 = action_dict i)
  ∧ ∀ response1 i1,
      (step_body action_handlers i).1 = Returns response1 i1 →
      action_dict i1 = reversed →
      step action_handlers i = (Returns response1 i1, reverse seq)
      ∧ (step action_handlers i1).2 `prefix_of` seq
      ∧ ∀ response2 i2,
          (step_body action_handlers i1).1 = Returns response2 i2 →
          step action_handlers i1 = (Returns response2 i2, seq).
Proof.
  intros Ht Hc Ha Hs reversed.
  assert (reversed !! "dialogue_type" = Some t) as Ht'
    by (unfold reversed; by rewrite lookup_insert_ne).
  assert (reversed !! "action" = None) as Ha'
    by (unfold reversed; by rewrite lookup_insert_ne).
  assert (reversed !! "action_sequence" = Some (LList (reverse seq))) as Hs'
    by (unfold reversed; by rewrite lookup_insert_eq).
  split; [by apply collect_actions_sequence|]. split.
  - rewrite (collect_actions_sequence (set_action_dict reversed i)
               (reverse seq) Ha' Hs').
    eexists. split; [by rewrite reverse_involutive|].
    cbn [action_dict set_action_dict]. unfold reversed.
    rewrite ?reverse_involutive, insert_insert_eq. by apply insert_id.
  - intros r1 i1 Hret1 Hdict.
    destruct (step_sequence action_handlers i t seq Ht Hc Ha Hs) as [_ H1].
    split; [exact (H1 r1 i1 Hret1)|].
    rewrite <- Hdict in Ht', Ha', Hs'.
    destruct (step_sequence action_handlers i1 t (reverse seq) Ht' Hc Ha' Hs')
      as [H2 H3].
    rewrite reverse_involutive in H2, H3. split; [exact H2|].
    exact H3.
Qed.

(** X17. An action whose type has no handler.  The [try] block of [step]
    never returns, and no handler is called for this action or for an
    action before it in [action_sequence]: the calls are an initial part of
    the reversed list of the actions that follow it.  When the loop over
    those actions, which [step] runs first, returns, its calls are followed
    by a [KeyError], which [step] does not turn into a response. *)
Theorem step_unknown_action_type i t before a after :
  action_dict i !! "dialogue_type" = Some t →
  is_human_give_command t = true →
  action_dict i !! "action" = None →
  action_dict i !! "action_sequence" = Some (LList (before ++ a :: after)) →
  unknown_action action_handlers a →
  (step action_handlers i).2 `prefix_of` reverse after
  ∧ (∀ response i', (step_body action_handlers i).1 ≠ Returns response i')
  ∧ ∀ response i',
      (dispatch action_handlers (reverse after) (VNull, VNull)
         (final_state (collect_actions i))).1 = Returns response i' →
      step action_handlers i = (Raises KeyError i', reverse after).
Proof.
  intros Ht Hc Ha Hs (d & k & -> & Hd & Hk).
  rewrite (step_called action_handlers i t Ht Hc).
  unfold step, step_body.
  rewrite Ht, Hc, (collect_actions_sequence i _ Ha Hs). cbn [final_state].
  rewrite bool_decide_eq_false_2
    by (rewrite length_reverse, length_app; simpl; lia).
  rewrite reverse_app, reverse_cons, <- app_assoc. cbn [app].
  set (i0 := set_action_dict _ i).
  rewrite dispatch_app.
  pose proof (dispatch_prefix action_handlers (reverse after) (VNull, VNull) i0)
    as Hpre.
  pose proof (dispatch_returns action_handlers (reverse after) (VNull, VNull) i0)
    as Hall.
  destruct (dispatch action_handlers (reverse after) (VNull, VNull) i0)
    as [[r i'|e i'] called]; cbn [fst snd] in *.
  - rewrite (Hall r i' eq_refl). cbn [dispatch get_action_type]. unfold_monad.
    rewrite Hd. simpl. rewrite Hk. simpl. rewrite app_nil_r.
    split; [done|]. split; [done|]. by intros ? ? [= <- <-].
  - split; [done|]. split; [done|]. done.
Qed.
End InterpreterMore.

Section Handlers.
Implicit Types (i : Interpreter).

Lemma step_action_alone_witness :
  ∃ i',
    step base_handlers
      (an_interpreter [("action", an_action "OTHERACTION");
                       ("action_sequence", LList [an_action "STOP"])]
         one_task_memory)
    = (Returns (VText "I don't know how to do that yet", VNull) i',
       [an_action "OTHERACTION"]).
Proof.
  destruct (step_action_alone base_handlers
              (an_interpreter [("action", an_action "OTHERACTION");
                               ("action_sequence", LList [an_action "STOP"])]
                 one_task_memory)
              (LStr "HUMAN_GIVE_COMMAND") (an_action "OTHERACTION"))
    as (_ & _ & H); [reflexivity..|].
  eexists.
  apply (H {[ "action_type" := LStr "OTHERACTION" ]} "OTHERACTION"
           handle_otheraction); reflexivity.
Defined.

Lemma step_body_stop_then_other_twice :
  ∃ r1 i1 r2 i2,
    (step_body base_handlers stop_then_other).1 = Returns r1 i1
    ∧ action_dict i1
      = <["action_sequence" :=
            LList (reverse [an_action "STOP"; an_action "OTHERACTION"])]>
          (action_dict stop_then_other)
    ∧ (step_body base_handlers i1).1 = Returns r2 i2.
Proof.
  eexists _, _, _, _. split; [vm_compute; reflexivity|].
  split; vm_compute; reflexivity.
Qed.

Lemma step_twice_alternates_witness :
  ∃ response i1,
    step base_handlers stop_then_other
    = (Returns response i1, reverse [an_action "STOP"; an_action "OTHERACTION"])
    ∧ (step base_handlers i1).2 = [an_action "STOP"; an_action "OTHERACTION"].
Proof.
  destruct step_body_stop_then_other_twice as (r1 & i1 & r2 & i2 & H1 & Hd & H2).
  destruct (step_twice_alternates base_handlers stop_then_other
              (LStr "HUMAN_GIVE_COMMAND")
              [an_action "STOP"; an_action "OTHERACTION"])
    as (_ & _ & H); [reflexivity..|].
  destruct (H r1 i1 H1 Hd) as (Hs1 & _ & Hs2).
  exists r1, i1. split; [exact Hs1|]. rewrite (Hs2 r2 i2 H2). reflexivity.
Defined.

Lemma dispatch_otheraction_alone :
  ∃ response i',
    (dispatch base_handlers (reverse [an_action "OTHERACTION"]) (VNull, VNull)
       (final_state
          (collect_actions
             (an_interpreter
                [("action_sequence",
                  LList [an_action "STOP"; an_action "DANCE";
                         an_action "OTHERACTION"])]
                one_task_memory)))).1
    = Returns response i'.
Proof. eexists _, _. vm_compute. reflexivity. Qed.

Lemma step_unknown_action_type_witness :
  ∃ i',
    step base_handlers
      (an_interpreter
         [("action_sequence",
           LList [an_action "STOP"; an_action "DANCE"; an_action "OTHERACTION"])]
         one_task_memory)
    = (Raises KeyError i', reverse [an_action "OTHERACTION"]).
Proof.
  destruct dispatch_otheraction_alone as (r & i' & Hret).
  destruct (step_unknown_action_type base_handlers
              (an_interpreter
                 [("action_sequence",
                   LList [an_action "STOP"; an_action "DANCE";
                          an_action "OTHERACTION"])]
                 one_task_memory)
              (LStr "HUMAN_GIVE_COMMAND")
              [an_action "STOP"] (an_action "DANCE") [an_action "OTHERACTION"])
    as (_ & _ & H); [reflexivity..| |].
  - exists {[ "action_type" := LStr "DANCE" ]}, "DANCE".
    split; [reflexivity|]. split; reflexivity.
  - exists i'. exact (H r i' Hret).
Defined.

Lemma bool_decide_length {A} (l : list A) :
  bool_decide (0 < length l)%nat = bool_decide (l ≠ []).
Proof.
  destruct l; [done|]. rewrite !bool_decide_eq_true_2; [done..|simpl; lia].
Qed.

Lemma handle_stop_run who d i :
  handle_stop who d i
  = Returns
      (VText (if bool_decide
                   (List.filter unfinished (table "Tasks" (memory i)) ≠ [])
              then "Stopping.  What should I do next?"
              else "I am not doing anything"), VNull)
      (mkInterpreter (speaker i) (action_dict i) true None
         (match loop_data i with
          | Some l => Some l
          | None => archived_loop_data i
          end)
         (final_state (task_stack_pause (memory i)))).
Proof.
  unfold handle_stop, with_memory. unfold_monad.
  destruct i as [sp ad fin [l|] al m]; cbn -[task_stack_pause];
    rewrite task_stack_pause_run, bool_decide_length; cbn [final_state];
    by case_bool_decide.
Qed.

Lemma handle_resume_run who d i :
  handle_resume who d i
  = Returns
      (VText (if bool_decide (table "Tasks" (memory i) ≠ [])
              then "resuming" else "nothing to resume"), VNull)
      (mkInterpreter (speaker i) (action_dict i) true
         (if bool_decide (table "Tasks" (memory i) ≠ [])
          then match archived_loop_data i with
               | Some a => Some a
               | None => loop_data i
               end
          else loop_data i)
         (if bool_decide (table "Tasks" (memory i) ≠ [])
          then None else archived_loop_data i)
         (final_state (task_stack_resume (memory i)))).
Proof.
  unfold handle_resume, with_memory. unfold_monad.
  destruct i as [sp ad fin l [a|] m]; cbn -[task_stack_resume];
    rewrite task_stack_resume_run, bool_decide_length; cbn [final_state];
    by case_bool_decide.
Qed.

(** X18. [handle_stop] always returns and marks the interpreter finished.
    It answers "Stopping.  What should I do next?" exactly when [Tasks] has
    an unfinished task, paused or not, and "I am not doing anything"
    otherwise.  Afterwards no task is on the stack, and the data of a
    running loop has been moved from [loop_data] to [archived_loop_data]. *)
Theorem handle_stop_pauses_everything speaker d i :
  ∃ i', handle_stop speaker d i
        = Returns
            (VText (if bool_decide
                         (List.filter unfinished (table "Tasks" (memory i)) ≠ [])
                    then "Stopping.  What should I do next?"
                    else "I am not doing anything"), VNull) i'
    ∧ finished i' = true
    ∧ loop_data i' = None
    ∧ archived_loop_data i'
      = match loop_data i with
        | Some l => Some l
        | None => archived_loop_data i
        end
    ∧ task_stack_peek (memory i') = Returns None (memory i')
    ∧ (∀ name, name ≠ "Tasks" →
         table name (memory i') = table name (memory i)).
Proof.
  rewrite handle_stop_run. eexists. split; [reflexivity|].
  cbn [finished loop_data archived_loop_data memory].
  split; [done|]. split; [done|]. split; [done|].
  rewrite task_stack_pause_run. cbn [final_state]. split.
  - apply task_stack_peek_empty. rewrite table_insert_eq.
    apply filter_on_stack_paused.
  - intros name Hne. by rewrite table_insert_ne.
Qed.

Lemma handle_stop_pauses_everything_witness :
  ∃ i', handle_stop "speaker" (an_action "STOP") stop_then_other
        = Returns (VText "Stopping.  What should I do next?", VNull) i'
    ∧ task_stack_peek (memory i') = Returns None (memory i')
    ∧ table "Memories" (memory i') = table "Memories" (memory stop_then_other).
Proof.
  destruct (handle_stop_pauses_everything "speaker" (an_action "STOP")
              stop_then_other) as (i' & Hrun & _ & _ & _ & Hpeek & Hother).
  exists i'. split; [exact Hrun|]. split; [exact Hpeek|].
  apply Hother. discriminate.
Defined.

(** X19. [handle_stop] followed by [handle_resume].  The second answers
    "resuming" exactly when [Tasks] has a row, finished or not, and then
    puts back into [loop_data] what [handle_stop] archived; with an empty
    [Tasks] it answers "nothing to resume" and [loop_data] stays empty.
    When no task was paused before, every table is as it was. *)
Theorem handle_stop_then_resume speaker d speaker' d' i :
  ∃ r1 i1 i2,
    handle_stop speaker d i = Returns r1 i1
    ∧ handle_resume speaker' d' i1
      = Returns
          (VText (if bool_decide (table "Tasks" (memory i) ≠ [])
                  then "resuming" else "nothing to resume"), VNull) i2
    ∧ loop_data i2
      = (if bool_decide (table "Tasks" (memory i) ≠ [])
         then match loop_data i with
              | Some l => Some l
              | None => archived_loop_data i
              end
         else None)
    ∧ ((∀ r, r ∈ table "Tasks" (memory i) → r !! "paused" = Some (VInt 0)) →
       ∀ name, table name (memory i2) = table name (memory i)).
Proof.
  eexists _, _, _. split; [apply handle_stop_run|].
  rewrite handle_resume_run. cbn [memory loop_data archived_loop_data].
  rewrite task_stack_pause_run. cbn [final_state].
  rewrite task_stack_resume_run. cbn [final_state].
  rewrite !table_insert_eq.
  assert (bool_decide
            (List.map (λ r, if unfinished r then <["paused" := VInt 1]> r
                            else r) (table "Tasks" (memory i)) ≠ [])
          = bool_decide (table "Tasks" (memory i) ≠ [])) as ->.
  { by destruct (table "Tasks" (memory i)). }
  split; [reflexivity|]. cbn [loop_data memory]. split.
  - case_bool_decide; [|done]. by destruct (loop_data i), (archived_loop_data i).
  - intros H name. destruct (decide (name = "Tasks")) as [->|Hne].
    + rewrite table_insert_eq, List.map_map.
      induction (table "Tasks" (memory i)) as [|r l IH]; simpl; [done|].
      rewrite pause_resume_row by (apply H; left).
      f_equal. apply IH. intros r' Hr'. apply H. by right.
    + rewrite table_insert_ne by done. by rewrite table_insert_ne by done.
Qed.

Lemma handle_stop_then_resume_witness :
  ∃ r1 i1 i2,
    handle_stop "speaker" (an_action "STOP") stop_then_other = Returns r1 i1
    ∧ handle_resume "speaker" (an_action "RESUME") i1
      = Returns (VText "resuming", VNull) i2
    ∧ ∀ name, table name (memory i2) = table name (memory stop_then_other).
Proof.
  destruct (handle_stop_then_resume "speaker" (an_action "STOP")
              "speaker" (an_action "RESUME") stop_then_other) as (r1 & i1 & i2 & H1 & H2 & _ & H3).
  exists r1, i1, i2. split; [exact H1|]. split; [exact H2|].
  apply H3. intros r Hr. vm_compute in Hr.
  apply list_elem_of_singleton in Hr. subst r. reflexivity.
Defined.
End Handlers.


(** * Finished tasks and their roots *)

Section RootTasks.
Implicit Types (m : AgentMemory) (r t : Row) (task : Task).

Lemma first_root_inv memids o m m' :
  first_root memids m = Returns o m' →
  m' = m
  ∧ match o with
    | Some n =>
        task_node_memid n ∈ memids
        ∧ List.filter (parent_link (task_node_memid n)) (table "Triples" m) = []
    | None =>
        ∀ v, v ∈ memids → List.filter (parent_link v) (table "Triples" m) ≠ []
    end.
Proof.
  induction memids as [|v l IH]; simpl.
  - unfold_monad. intros [= <- <-]. split; [done|]. by intros v ?%elem_of_nil.
  - unfold _db_read_one. unfold_monad.
    destruct (List.filter (parent_link v) (table "Triples" m)) as [|p ps] eqn:E;
      simpl.
    + destruct (TaskNode_init v m) as [n m1|] eqn:En; [|done].
      intros [= <- <-].
      apply TaskNode_init_inv in En as (-> & Hid & _).
      split; [done|]. rewrite Hid. split; [left|done].
    + intros H. destruct (IH H) as [-> Ho]. split; [done|].
      destruct o as [n|].
      * destruct Ho as [Hin Hnone]. split; [by right|done].
      * intros v' [->|Hv']%elem_of_cons; [by rewrite E|by apply Ho].
Qed.

(** X20. What [get_last_finished_root_task] answers, when it answers.  A
    task it returns has a row in [Tasks] that passes the filter on
    [finished_at] (and on the action name, if one is given) and is not the
    subject of any [_has_parent_task] triple; when it returns [None], every
    row that passes the filter is the subject of such a triple.  The store
    is not changed; with no row passing the filter the call returns [None]
    and does not raise. *)
Theorem get_last_finished_root_task_is_root action_name recency m :
  (∀ o m', get_last_finished_root_task action_name recency m = Returns o m' →
     m' = m
     ∧ match o with
       | Some n =>
           (∃ r, r ∈ table "Tasks" m ∧ col "uuid" r = task_node_memid n
                 ∧ finished_since (time m - recency) action_name r = true)
           ∧ List.filter (parent_link (task_node_memid n)) (table "Triples" m)
             = []
       | None =>
           ∀ r, r ∈ table "Tasks" m →
             finished_since (time m - recency) action_name r = true →
             List.filter (parent_link (col "uuid" r)) (table "Triples" m) ≠ []
       end)
  ∧ (List.filter (finished_since (time m - recency) action_name)
       (table "Tasks" m) = [] →
     get_last_finished_root_task action_name recency m = Returns None m).
Proof.
  split.
  - intros o m'. unfold get_last_finished_root_task, get_time, _db_read.
    unfold_monad. intros [-> Ho]%first_root_inv. split; [done|].
    destruct o as [n|].
    + destruct Ho as [Hin Hnone]. split; [|done].
      apply list_elem_of_fmap in Hin as (r & Hr & Hin).
      apply elem_of_order_by_desc, elem_of_filter_list in Hin as [Hin Hc].
      by exists r.
    + intros r Hr Hc. apply Ho. apply list_elem_of_fmap_2.
      apply elem_of_order_by_desc, elem_of_filter_list. done.
  - intros Hnone. unfold get_last_finished_root_task, get_time, _db_read.
    unfold_monad. by rewrite Hnone.
Qed.

Lemma get_last_finished_root_task_is_root_witness :
  get_last_finished_root_task (VText "Build") 300 finished_task_memory
  = Returns None finished_task_memory.
Proof.
  apply (get_last_finished_root_task_is_root (VText "Build") 300
           finished_task_memory).
  vm_compute. reflexivity.
Defined.

Lemma head_cons_inv {A} (l : list A) x : head l = Some x → ∃ l', l = x :: l'.
Proof. destruct l as [|y l]; [done|]. intros [= ->]. by eexists. Qed.

(** X21. The filter of [get_last_finished_root_task] is
    [finished_at >= now - recency], and an unfinished task has
    [finished_at = -1].  So when [recency] exceeds the current time, the
    task that [task_stack_push] has just put on the stack, without a
    parent, is returned as the last finished root task although it is not
    finished. *)
Theorem get_last_finished_root_task_unfinished task recency m :
  fresh m → time m < recency →
  (∀ r, r ∈ table "Tasks" m →
     Sql.compare (col "created_at" r) (VInt (time m)) = Lt) →
  List.filter (parent_link (VText (uuid_hex (uuid_supply m))))
    (table "Triples" m) = [] →
  (task_stack_push task VNull false;;
   get_last_finished_root_task VNull recency) m
  = Returns (Some (pushed_node task m)) (pushed task m)
  ∧ finished_at (pushed_node task m) = VInt (-1).
Proof.
  intros Hfresh Hrec Hold Hnone. split; [|done].
  unfold_monad. rewrite (task_stack_push_run task m Hfresh).
  unfold get_last_finished_root_task, get_time, _db_read. unfold_monad.
  set (id := uuid_hex (uuid_supply m)).
  set (x := task_row id (set_task_memid id task) (time m)).
  assert (table "Tasks" (pushed task m) = table "Tasks" m ++ [x]) as HT
    by apply table_tasks_pushed.
  assert (finished_since (time (pushed task m) - recency) VNull x = true)
    as Hx.
  { unfold finished_since. cbn [truthy]. rewrite andb_true_r.
    change (col "finished_at" x) with (VInt (-1)).
    change (time (pushed task m)) with (time m).
    cbn [Sql.ge Sql.compare].
    destruct (Z.compare_spec (-1) (time m - recency)); try done. lia. }
  destruct (head_cons_inv
              (Sql.order_by_desc (col "created_at")
                 (List.filter (finished_since (time (pushed task m) - recency)
                                 VNull) (table "Tasks" (pushed task m)))) x)
    as (rest & ->).
  { apply head_order_by_desc.
    - apply elem_of_filter_list. split; [|done].
      rewrite HT. apply elem_of_app. right. left.
    - intros y [Hy _]%elem_of_filter_list. rewrite HT in Hy.
      apply elem_of_app in Hy as [Hy|Hy%list_elem_of_singleton];
        [right|by left].
      unfold x. rewrite task_row_created_at. by apply Hold. }
  rewrite fmap_cons. cbn [first_root]. unfold _db_read_one. unfold_monad.
  change (col "uuid" x) with (VText id).
  assert (table "Triples" (pushed task m) = table "Triples" m) as ->.
  { unfold pushed. by rewrite !table_append_ne. }
  fold id in Hnone. rewrite Hnone. cbn [head].
  assert (TaskNode_init (VText id) (pushed task m)
          = Returns (pushed_node task m) (pushed task m)) as ->; [|done].
  unfold pushed_node, pushed.
  apply (TaskNode_init_last id (set_task_memid id task) (time m)).
  rewrite table_append_ne by done. rewrite table_drawn.
  by apply fresh_filter_uuid.
Qed.

Lemma get_last_finished_root_task_unfinished_witness :
  (task_stack_push (a_task "Move") VNull false;;
   get_last_finished_root_task VNull 300) fresh_memory
  = Returns (Some (pushed_node (a_task "Move") fresh_memory))
      (pushed (a_task "Move") fresh_memory).
Proof.
  apply (get_last_finished_root_task_unfinished (a_task "Move") 300
           fresh_memory).
  - exact fresh_fresh_memory.
  - vm_compute. reflexivity.
  - intros r Hr. exfalso. vm_compute in Hr. inversion Hr.
  - vm_compute. reflexivity.
Defined.
End RootTasks.


(** * Chats *)

Section ChatsMore.
Implicit Types (m : AgentMemory) (r t e : Row) (task : Task).

Lemma sql_ne_text v s :
  sql_ne v (VText s) = true → v ≠ VNull ∧ v ≠ VText s.
Proof.
  unfold sql_ne. intros [[H1 _]%andb_true_iff H2%negb_true_iff]%andb_true_iff.
  split; [by destruct v|]. intros ->. by rewrite eq_text_refl in H2.
Qed.

Lemma construct_state cls memid n m m' :
  construct cls memid m = Returns n m' → m' = m.
Proof.
  unfold construct, TaskNode_init, _db_read_one. unfold_monad.
  intros H. repeat case_match; by simplify_eq.
Qed.

(** X22. [get_most_recent_incoming_chat] never answers with a chat of the
    agent itself: a chat it returns has a row in [Chats] whose speaker is
    set and is not the agent, and whose time is not before [after].  With
    no such row it returns [None]; in particular a chat that the agent
    stores for itself does not become the incoming chat. *)
Theorem get_most_recent_incoming_chat_not_own after m :
  (∀ n m', get_most_recent_incoming_chat after m = Returns (Some n) m' →
     m' = m
     ∧ ∃ r, r ∈ table "Chats" m ∧ col "uuid" r = node_memid n
            ∧ col "speaker" r ≠ VNull ∧ col "speaker" r ≠ VText self_memid
            ∧ Sql.ge (col "time" r) after = true)
  ∧ (List.filter (incoming after) (table "Chats" m) = [] →
     get_most_recent_incoming_chat after m = Returns None m
     ∧ ∀ chat,
         (add_chat (VText self_memid) chat;;
          get_most_recent_incoming_chat after) m
         = Returns None (final_state (add_chat (VText self_memid) chat m))).
Proof.
  split.
  - intros n m'. unfold get_most_recent_incoming_chat, _db_read. unfold_monad.
    destruct (head _) as [x|] eqn:E; [|done].
    destruct (construct ChatNode (col "uuid" x) m) as [n' m1|] eqn:En; [|done].
    intros [= <- <-].
    assert (m1 = m) as -> by by eapply construct_state.
    split; [done|]. exists x.
    apply head_Some_elem_of, elem_of_order_by_desc, elem_of_filter_list in E
      as [Hx [Hs Hg]%andb_true_iff].
    apply sql_ne_text in Hs as [Hs1 Hs2].
    split; [done|]. split; [|done]. symmetry. by eapply construct_memid.
  - intros Hnone.
    assert (∀ m0, List.filter (incoming after) (table "Chats" m0) = [] →
              get_most_recent_incoming_chat after m0 = Returns None m0) as Hget.
    { intros m0 H0. unfold get_most_recent_incoming_chat, _db_read.
      unfold_monad. unfold incoming in H0. by rewrite H0. }
    split; [by apply Hget|]. intros chat. unfold_monad.
    rewrite add_chat_run. cbn [final_state]. apply Hget.
    rewrite table_append_eq, table_append_ne by done.
    rewrite table_drawn, List.filter_app, Hnone. simpl.
    unfold incoming, sql_ne.
    change (col "speaker" (make_row "Chats" _ _)) with (VText self_memid).
    by rewrite eq_text_refl.
Qed.

Lemma get_most_recent_incoming_chat_not_own_witness :
  (add_chat (VText self_memid) (VText "hello");;
   get_most_recent_incoming_chat (VInt (-1))) one_task_memory
  = Returns None
      (final_state
         (add_chat (VText self_memid) (VText "hello") one_task_memory)).
Proof.
  apply (get_most_recent_incoming_chat_not_own (VInt (-1)) one_task_memory).
  vm_compute. reflexivity.
Defined.
End ChatsMore.


(** * Relations between tasks and chats *)

Section Relations.
Implicit Types (m : AgentMemory) (r t e : Row) (task : Task).

Lemma drawn_before_undrawn supply k :
  (supply ≤ k)%N → drawn_before supply (VText (uuid_hex k)) = false.
Proof.
  intros Hk. destruct (drawn_before _ _) eqn:E; [|done]. simpl in E.
  apply orb_true_iff in E as [E|E].
  - apply String.eqb_eq in E. by apply uuid_hex_ne_self in E.
  - apply existsb_exists in E as (j & Hj & E).
    apply String.eqb_eq, uuid_hex_inj in E. apply in_seq in Hj. lia.
Qed.

Lemma unreferenced_check_sound m : unreferenced_check m = true → unreferenced m.
Proof.
  intros Hc t k Ht Hk. unfold unreferenced_check in Hc.
  rewrite forallb_forall in Hc. apply list_elem_of_In in Ht.
  apply Hc, andb_true_iff in Ht as [H1 H2].
  split; intros Heq; [rewrite Heq in H1|rewrite Heq in H2];
    by rewrite drawn_before_undrawn in *.
Qed.

Lemma eq_text_l_ne s w : w ≠ VText s → Sql.eq (VText s) w = false.
Proof.
  intros H. destruct (Sql.eq (VText s) w) eqn:E; [|done].
  by apply eq_text_l in E.
Qed.

Lemma get_triples_run subj obj st pt ot m :
  accepted subj obj st pt ot = true →
  get_triples subj obj st pt ot "if_exists" m
  = Returns ((λ te : Row * Row, triple_if_exists te.1)
               <$> join_live (where_clause subj obj st pt ot) m) m.
Proof.
  unfold accepted. intros [[A1 A2]%andb_true_iff A3]%andb_true_iff.
  unfold get_triples. unfold_monad.
  rewrite (assert_true _ m A1), (assert_true _ m A2), (assert_true _ m A3).
  f_equal. rewrite <- list_fmap_compose. apply list_fmap_ext.
  intros _ [t e] _. unfold triple_if_exists. cbn.
  by destruct (truthy (col "obj_text" t)).
Qed.

Lemma bind_pair {A B} (x : A) (l : list B) :
  l ≫= (λ y : B, [(x, y)]) = (λ y : B, (x, y)) <$> l.
Proof.
  induction l as [|y l IH]; [done|].
  rewrite bind_cons, IH. reflexivity.
Qed.

Lemma join_live_single cond t m :
  List.filter cond (table "Triples" m) = [t] →
  join_live cond m
  = (λ e, (t, e)) <$> List.filter (live_subject t) (table "Memories" m).
Proof.
  intros H. unfold join_live. rewrite H, bind_singleton.
  apply bind_pair.
Qed.

Lemma filter_live_abstracted t j m m' :
  abstracted m m' → col "subj" t = VText (uuid_hex j) → (j < uuid_supply m)%N →
  List.filter (live_subject t) (table "Memories" m')
  = List.filter (live_subject t) (table "Memories" m).
Proof.
  intros [_ _ _ _ (extra & -> & Hextra) _] Hs Hj.
  rewrite List.filter_app, (filter_none _ extra); [by rewrite app_nil_r|].
  intros e He. rewrite Forall_forall in Hextra.
  destruct (Hextra e He) as (k & Hk & ->).
  unfold live_subject. rewrite Hs, memory_row_uuid.
  rewrite eq_text_ne; [done|]. intros [= Heq%uuid_hex_inj]. lia.
Qed.

Lemma filter_live_fresh t j m :
  fresh m → col "subj" t = VText (uuid_hex j) → (uuid_supply m ≤ j)%N →
  List.filter (live_subject t) (table "Memories" m) = [].
Proof.
  intros Hfresh Hs Hj. apply filter_none. intros e He.
  unfold live_subject. rewrite Hs, eq_text_l_ne; [done|].
  by eapply Hfresh.
Qed.

Lemma live_subject_memory_row t s cls now :
  col "subj" t = VText s →
  live_subject t (memory_row s cls now false) = true.
Proof.
  intros Hs. unfold live_subject. rewrite Hs, memory_row_uuid, eq_text_refl.
  reflexivity.
Qed.

Lemma live_subject_other t s s' cls now snap :
  col "subj" t = VText s → s ≠ s' →
  live_subject t (memory_row s' cls now snap) = false.
Proof.
  intros Hs Hne. unfold live_subject.
  rewrite Hs, memory_row_uuid, eq_text_ne; [done|]. congruence.
Qed.

Lemma fresh_add_chat speaker chat m :
  fresh m → fresh (final_state (add_chat speaker chat m)).
Proof.
  intros H. rewrite add_chat_run. cbn [final_state].
  apply fresh_append; [by apply fresh_append_drawn|].
  intros k Hk. change (col "uuid" (make_row "Chats" _ _))
    with (VText (uuid_hex (uuid_supply m))).
  intros [= Heq%uuid_hex_inj]. simpl in Hk. lia.
Qed.

Lemma accepted_obj o pt :
  pt ≠ "" → accepted VNull o VNull (VText pt) VNull = true.
Proof.
  intros H. unfold accepted. rewrite (truthy_text pt H). cbn [truthy].
  by destruct (truthy o).
Qed.

Lemma accepted_subj s pt :
  pt ≠ "" → accepted s VNull VNull (VText pt) VNull = true.
Proof.
  intros H. unfold accepted. rewrite (truthy_text pt H). cbn [truthy].
  by destruct (truthy s).
Qed.

Lemma fmap_single t e :
  (λ te : Row * Row, triple_if_exists te.1) <$> ((λ e, (t, e)) <$> [e])
  = [triple_if_exists t].
Proof. reflexivity. Qed.

Lemma construct_chat memid r m :
  head (List.filter (λ r, Sql.eq (col "uuid" r) memid) (table "Chats" m))
  = Some r →
  construct ChatNode memid m = Returns (mkNode ChatNode memid) m.
Proof.
  intros H. unfold construct, _db_read_one. unfold_monad.
  change (default "" (TABLE ChatNode)) with "Chats". by rewrite H.
Qed.

(** X23. A chat of another speaker is stored, a task is pushed with
    [chat_effect=True], and [TaskNode.get_chat] of the task returned by the
    push is called.  When the chat is the latest of the incoming chats, the
    three calls return and [get_chat] gives the chat just stored. *)
Theorem task_get_chat_after_push speaker chat task m :
  fresh m → unreferenced m →
  sql_ne speaker (VText self_memid) = true →
  -1 ≤ time m →
  (∀ r, r ∈ table "Chats" m →
     Sql.compare (col "time" r) (VInt (time m)) = Lt) →
  ∃ m', chat_then_task speaker chat task m
        = Returns (Some (mkNode ChatNode (VText (uuid_hex (uuid_supply m))))) m'.
Proof.
  intros Hfresh Hunref Hsp Htime Hold.
  unfold chat_then_task. unfold_monad. rewrite add_chat_run.
  set (k := uuid_supply m).
  set (idc := uuid_hex k).
  set (crow := make_row "Chats" ["uuid"; "speaker"; "chat"; "time"]
                 [VText idc; speaker; chat; VInt (time m)]).
  set (m1 := append_row "Chats" crow
               (append_row "Memories" (memory_row idc ChatNode (time m) false)
                  (drawn m))).
  assert (fresh m1) as Hfresh1 by apply (fresh_add_chat speaker chat m Hfresh).
  assert (uuid_supply m1 = (k + 1)%N) as Hsup1 by reflexivity.
  set (idt := uuid_hex (k + 1)).
  unfold task_stack_push, TaskNode_create, new, uuid4, get_time, db_insert.
  unfold_monad. cbn [truthy].
  change (time (append_row "Memories" _ (drawn m1))) with (time m).
  change (time (drawn m1)) with (time m).
  change (uuid_hex (uuid_supply m1)) with idt.
  set (trow := task_row idt (set_task_memid idt task) (time m)).
  set (m2 := append_row "Tasks" trow
               (append_row "Memories" (memory_row idt TaskNode (time m) false)
                  (drawn m1))).
  assert (table "Chats" m2 = table "Chats" m ++ [crow]) as HC2.
  { unfold m2. rewrite !table_append_ne by done. rewrite table_drawn.
    unfold m1. by rewrite table_append_eq, table_append_ne. }
  assert (head (List.filter (λ r, Sql.eq (col "uuid" r) (VText idc))
                  (table "Chats" m2)) = Some crow) as Hcrow.
  { rewrite HC2, List.filter_app.
    pose proof (fresh_filter_uuid "Chats" k m Hfresh (N.le_refl _)) as Hf.
    fold idc in Hf. rewrite Hf.
    simpl. change (col "uuid" crow) with (VText idc).
    by rewrite eq_text_refl. }
  assert (get_most_recent_incoming_chat (VInt (-1)) m2
          = Returns (Some (mkNode ChatNode (VText idc))) m2) as ->.
  { unfold get_most_recent_incoming_chat, _db_read. unfold_monad.
    rewrite (head_order_by_desc (col "time") crow).
    - change (col "uuid" crow) with (VText idc).
      by rewrite (construct_chat (VText idc) crow m2 Hcrow).
    - apply elem_of_filter_list. split.
      + rewrite HC2. apply elem_of_app. right. left.
      + change (col "speaker" crow) with speaker.
        change (col "time" crow) with (VInt (time m)). rewrite Hsp.
        cbn [andb Sql.ge Sql.compare].
        destruct (Z.compare_spec (time m) (-1)); try done. lia.
    - intros y [Hy _]%elem_of_filter_list. rewrite HC2 in Hy.
      apply elem_of_app in Hy as [Hy|Hy%list_elem_of_singleton];
        [right|by left].
      change (col "time" crow) with (VInt (time m)). by apply Hold. }
  cbn [node_memid].
  destruct (add_triple_link (VText idc) (VText idt) "chat_effect_" m2)
    as (pred & m3 & -> & Hab); [apply uuid_hex_truthy..|].
  set (t := triple_row (uuid_hex (uuid_supply m2)) (VText idc) VNull pred
              (VText "chat_effect_") (VText idt) VNull default_confidence).
  set (m4 := append_row "Triples" t m3).
  assert (∀ name, name ≠ "Memories" → name ≠ "NamedAbstractions" →
            name ≠ "Triples" → table name m4 = table name m2) as Hother.
  { intros name H1 H2 H3. unfold m4. rewrite table_append_ne by done.
    by destruct Hab as [_ _ _ Ho _ _]; apply Ho. }
  assert (TaskNode_init (VText idt) m4
          = Returns (pushed_node task m1) m4) as ->.
  { unfold TaskNode_init, _db_read_one. unfold_monad.
    rewrite Hother by done. unfold m2. rewrite table_append_eq.
    rewrite table_append_ne by done. rewrite table_drawn, List.filter_app.
    pose proof (fresh_filter_uuid "Tasks" (k + 1) m1 Hfresh1) as Hf.
    fold idt in Hf. rewrite Hf by (rewrite Hsup1; reflexivity).
    simpl. change (col "uuid" trow) with (VText idt).
    rewrite eq_text_refl. reflexivity. }
  unfold TaskNode_get_chat. unfold_monad.
  cbn [task_node_memid pushed_node]. rewrite Hsup1. fold idt.
  rewrite get_triples_run by (by apply accepted_obj).
  assert (table "Triples" m4 = table "Triples" m ++ [t]) as HT4.
  { unfold m4. rewrite table_append_eq. f_equal.
    destruct Hab as [_ _ _ Ho _ _]. rewrite Ho by done.
    unfold m2. rewrite !table_append_ne by done. rewrite table_drawn.
    unfold m1. by rewrite !table_append_ne. }
  rewrite (join_live_single _ t).
  2:{ rewrite HT4, List.filter_app. rewrite (filter_none _ (table "Triples" m)).
      - simpl. unfold where_clause. simpl.
        change (col "pred_text" t) with (VText "chat_effect_").
        change (col "obj" t) with (VText idt). by rewrite !eq_text_refl.
      - intros t0 Ht0. unfold where_clause. simpl.
        destruct (Hunref t0 (k + 1)%N Ht0) as [_ Ho]; [unfold k; lia|].
        fold idt in Ho. rewrite (eq_text_ne _ _ Ho).
        by rewrite andb_false_r. }
  assert (List.filter (live_subject t) (table "Memories" m4)
          = [memory_row idc ChatNode (time m) false]) as ->.
  { unfold m4. rewrite table_append_ne by done.
    rewrite (filter_live_abstracted t k m2 m3 Hab) by (done || (simpl; lia)).
    unfold m2. rewrite table_append_ne by done. rewrite table_append_eq.
    rewrite table_drawn. unfold m1. rewrite table_append_ne by done.
    rewrite table_append_eq, table_drawn, !List.filter_app.
    rewrite (filter_live_fresh t k m Hfresh) by done.
    simpl. rewrite (live_subject_memory_row t idc) by done.
    rewrite (live_subject_other t idc idt); [done|done|].
    intros Heq%uuid_hex_inj. lia. }
  rewrite fmap_single. unfold triple_if_exists.
  change (col "subj" t) with (VText idc). cbv beta iota.
  rewrite (construct_chat (VText idc) crow m4); [by eexists|].
  by rewrite Hother.
Qed.

Lemma table_pushed_other name task m :
  name ≠ "Tasks" → name ≠ "Memories" →
  table name (pushed task m) = table name m.
Proof. intros H1 H2. unfold pushed. by rewrite !table_append_ne. Qed.

Lemma unreferenced_fresh_memory : unreferenced fresh_memory.
Proof. apply unreferenced_check_sound. vm_compute. reflexivity. Qed.

Lemma task_get_chat_after_push_witness :
  ∃ m', chat_then_task (VText "player") (VText "come here") (a_task "Move")
          fresh_memory
        = Returns (Some (mkNode ChatNode
                           (VText (uuid_hex (uuid_supply fresh_memory))))) m'.
Proof.
  apply (task_get_chat_after_push (VText "player") (VText "come here")
           (a_task "Move") fresh_memory).
  - exact fresh_fresh_memory.
  - exact unreferenced_fresh_memory.
  - reflexivity.
  - vm_compute. discriminate.
  - intros r Hr. exfalso. vm_compute in Hr. inversion Hr.
Defined.

(** X24. A task is pushed, then a second task is pushed with the first as
    [parent_memid].  Then [get_parent_task] of the second returns the
    first; [get_root_task] of the second returns the first as well, the
    first having no parent; and [get_child_tasks] of the first returns the
    second alone. *)
Theorem task_parent_and_children parent child fuel m :
  fresh m → unreferenced m →
  ∃ m', parent_then_child parent child (S fuel) m
        = Returns (Some (pushed_node parent m), Some (pushed_node parent m),
                   [pushed_node child (pushed parent m)]) m'.
Proof.
  intros Hfresh Hunref. unfold parent_then_child. unfold_monad.
  rewrite (task_stack_push_run parent m Hfresh).
  set (k := uuid_supply m).
  set (idp := uuid_hex k).
  set (m1 := pushed parent m).
  assert (fresh m1) as Hfresh1 by by apply fresh_pushed.
  assert (uuid_supply m1 = (k + 1)%N) as Hsup1 by reflexivity.
  set (idc := uuid_hex (k + 1)).
  assert (idp ≠ idc) as Hpc by (intros Heq%uuid_hex_inj; lia).
  assert (task_node_memid (pushed_node parent m) = VText idp) as Hp
    by reflexivity.
  rewrite Hp.
  unfold task_stack_push at 1. unfold TaskNode_create, new, uuid4, get_time,
    db_insert. unfold_monad.
  pose proof (uuid_hex_truthy k) as Htp. fold idp in Htp. rewrite Htp.
  change (time (append_row "Memories" _ (drawn m1))) with (time m1).
  change (time (drawn m1)) with (time m1).
  change (uuid_hex (uuid_supply m1)) with idc.
  change (append_row "Tasks" _ (append_row "Memories" _ (drawn m1)))
    with (pushed child m1).
  set (m2 := pushed child m1).
  destruct (add_triple_link (VText idc) (VText idp) "_has_parent_task" m2)
    as (pred & m3 & -> & Hab); [apply uuid_hex_truthy..|].
  set (t := triple_row (uuid_hex (uuid_supply m2)) (VText idc) VNull pred
              (VText "_has_parent_task") (VText idp) VNull default_confidence).
  set (m4 := append_row "Triples" t m3).
  assert (∀ name, name ≠ "Memories" → name ≠ "NamedAbstractions" →
            name ≠ "Triples" → table name m4 = table name m2) as Hother.
  { intros name H1 H2 H3. unfold m4. rewrite table_append_ne by done.
    by destruct Hab as [_ _ _ Ho _ _]; apply Ho. }
  set (prow := task_row idp (set_task_memid idp parent) (time m)).
  set (crow := task_row idc (set_task_memid idc child) (time m1)).
  assert (table "Tasks" m4 = (table "Tasks" m ++ [prow]) ++ [crow]) as HT.
  { rewrite Hother by done. unfold m2. rewrite table_tasks_pushed.
    unfold m1. by rewrite table_tasks_pushed. }
  pose proof (fresh_filter_uuid "Tasks" k m Hfresh (N.le_refl _)) as Hfp.
  fold idp in Hfp.
  assert ((uuid_supply m ≤ k + 1)%N) as Hle by (unfold k; lia).
  pose proof (fresh_filter_uuid "Tasks" (k + 1) m Hfresh Hle) as Hfc.
  fold idc in Hfc.
  assert (TaskNode_init (VText idc) m4
          = Returns (pushed_node child m1) m4) as Hinitc.
  { unfold TaskNode_init, _db_read_one. unfold_monad.
    rewrite HT, !List.filter_app, Hfc. simpl.
    change (col "uuid" prow) with (VText idp).
    change (col "uuid" crow) with (VText idc).
    rewrite eq_text_refl, (eq_text_ne (VText idp) idc) by congruence.
    reflexivity. }
  assert (TaskNode_init (VText idp) m4
          = Returns (pushed_node parent m) m4) as Hinitp.
  { unfold TaskNode_init, _db_read_one. unfold_monad.
    rewrite HT, !List.filter_app, Hfp. simpl.
    change (col "uuid" prow) with (VText idp).
    rewrite eq_text_refl. reflexivity. }
  rewrite Hinitc.
  assert (task_node_memid (pushed_node child m1) = VText idc) as Hc
    by reflexivity.
  assert (table "Triples" m4 = table "Triples" m ++ [t]) as HT4.
  { unfold m4. rewrite table_append_eq. f_equal.
    destruct Hab as [_ _ _ Ho _ _]. rewrite Ho by done.
    unfold m2, m1. by rewrite !table_pushed_other. }
  assert (List.filter (live_subject t) (table "Memories" m4)
          = [memory_row idc TaskNode (time m1) false]) as Hlive.
  { unfold m4. rewrite table_append_ne by done.
    rewrite (filter_live_abstracted t (k + 1) m2 m3 Hab)
      by (done || (simpl; lia)).
    unfold m2, pushed. rewrite table_append_ne by done.
    rewrite table_append_eq, table_drawn.
    unfold m1, pushed. rewrite table_append_ne by done.
    rewrite table_append_eq, table_drawn, !List.filter_app.
    rewrite (filter_live_fresh t (k + 1) m Hfresh) by done.
    simpl. rewrite (live_subject_other t idc idp) by (done || congruence).
    by rewrite (live_subject_memory_row t idc). }
  assert (get_triples (VText idc) VNull VNull (VText "_has_parent_task") VNull
            "if_exists" m4
          = Returns [(VText idc, VText "_has_parent_task", VText idp)] m4)
    as Hparent.
  { rewrite get_triples_run by (by apply accepted_subj).
    rewrite (join_live_single _ t), Hlive; [done|].
    rewrite HT4, List.filter_app.
    rewrite (filter_none _ (table "Triples" m)).
    - simpl. unfold where_clause. simpl.
      change (col "pred_text" t) with (VText "_has_parent_task").
      change (col "subj" t) with (VText idc). by rewrite !eq_text_refl.
    - intros t0 Ht0. unfold where_clause. simpl.
      destruct (Hunref t0 (k + 1)%N Ht0) as [Hs _]; [unfold k; lia|].
      fold idc in Hs. by rewrite (eq_text_ne _ _ Hs). }
  assert (get_triples (VText idp) VNull VNull (VText "_has_parent_task") VNull
            "if_exists" m4 = Returns [] m4) as Hroot.
  { rewrite get_triples_run by (by apply accepted_subj).
    rewrite join_live_none; [done|].
    rewrite HT4, List.filter_app.
    rewrite (filter_none _ (table "Triples" m)).
    - simpl. unfold where_clause. simpl.
      change (col "subj" t) with (VText idc).
      by rewrite (eq_text_ne (VText idc) idp) by congruence.
    - intros t0 Ht0. unfold where_clause. simpl.
      destruct (Hunref t0 k Ht0) as [Hs _]; [unfold k; lia|].
      fold idp in Hs. by rewrite (eq_text_ne _ _ Hs). }
  assert (get_triples VNull (VText idp) VNull (VText "_has_parent_task") VNull
            "if_exists" m4
          = Returns [(VText idc, VText "_has_parent_task", VText idp)] m4)
    as Hkids.
  { rewrite get_triples_run by (by apply accepted_obj).
    rewrite (join_live_single _ t), Hlive; [done|].
    rewrite HT4, List.filter_app.
    rewrite (filter_none _ (table "Triples" m)).
    - simpl. unfold where_clause. simpl.
      change (col "pred_text" t) with (VText "_has_parent_task").
      change (col "obj" t) with (VText idp). by rewrite !eq_text_refl.
    - intros t0 Ht0. unfold where_clause. simpl.
      destruct (Hunref t0 k Ht0) as [_ Ho]; [unfold k; lia|].
      fold idp in Ho. rewrite (eq_text_ne _ _ Ho).
      by rewrite andb_false_r. }
  assert (TaskNode_get_parent_task (pushed_node child m1) m4
          = Returns (Some (pushed_node parent m)) m4) as Hgp.
  { unfold TaskNode_get_parent_task. unfold_monad.
    rewrite Hc, Hparent. cbv beta iota. by rewrite Hinitp. }
  assert (TaskNode_get_parent_task (pushed_node parent m) m4
          = Returns None m4) as Hgr.
  { unfold TaskNode_get_parent_task. unfold_monad.
    by rewrite Hp, Hroot. }
  rewrite Hgp.
  assert (TaskNode_get_root_task (S fuel) (pushed_node child m1) m4
          = Returns (Some (pushed_node parent m)) m4) as ->.
  { cbn [TaskNode_get_root_task]. unfold_monad. rewrite Hgp.
    destruct fuel; cbn [TaskNode_get_root_task]; unfold_monad;
      by rewrite Hgr. }
  unfold TaskNode_get_child_tasks. unfold_monad. rewrite Hp, Hkids.
  cbn [mapM fst]. unfold_monad. rewrite Hinitc. by eexists.
Qed.

Lemma task_parent_and_children_witness :
  ∃ m', parent_then_child (a_task "Build") (a_task "Move") 1 fresh_memory
        = Returns (Some (pushed_node (a_task "Build") fresh_memory),
                   Some (pushed_node (a_task "Build") fresh_memory),
                   [pushed_node (a_task "Move")
                      (pushed (a_task "Build") fresh_memory)]) m'.
Proof.
  apply (task_parent_and_children (a_task "Build") (a_task "Move") 0
           fresh_memory).
  - exact fresh_fresh_memory.
  - exact unreferenced_fresh_memory.
Defined.
End Relations.


(** * Recent chats and locations *)

Section RecentChats.
Implicit Types (m : AgentMemory) (r t e : Row).

Lemma length_insert_desc {A} (key : A → Value) x (l : list A) :
  length (Sql.insert_desc key x l) = S (length l).
Proof.
  induction l as [|y l IH]; simpl; [done|].
  destruct (Sql.compare (key x) (key y)); simpl; by rewrite ?IH.
Qed.

Lemma length_order_by_desc {A} (key : A → Value) (l : list A) :
  length (Sql.order_by_desc key l) = length l.
Proof.
  unfold Sql.order_by_desc.
  cut (∀ acc, length (foldl (λ acc x, Sql.insert_desc key x acc) acc l)
              = (length acc + length l)%nat).
  { intros H. by rewrite H. }
  induction l as [|x l IH]; intros acc; simpl; [lia|].
  rewrite IH, length_insert_desc. lia.
Qed.

Lemma filter_true {A} (l : list A) : List.filter (λ _, true) l = l.
Proof. induction l as [|x l IH]; simpl; by rewrite ?IH. Qed.

Lemma mapM_construct_chat (rows : list Row) m :
  (∀ r, r ∈ rows → r ∈ table "Chats" m ∧ col "uuid" r ≠ VNull) →
  mapM (λ r, construct ChatNode (col "uuid" r)) rows m
  = Returns ((λ r, mkNode ChatNode (col "uuid" r)) <$> rows) m.
Proof.
  induction rows as [|r rows IH]; intros H; [done|].
  cbn [mapM]. unfold_monad.
  destruct (H r) as [Hr Hu]; [left|].
  destruct (head (List.filter (λ r0, Sql.eq (col "uuid" r0) (col "uuid" r))
                    (table "Chats" m))) as [r'|] eqn:E.
  - rewrite (construct_chat _ r' m E).
    rewrite IH by (intros r0 Hr0; apply H; by right). done.
  - exfalso. destruct (List.filter _ (table "Chats" m)) as [|? ?] eqn:E';
      [|done].
    assert (r ∈ List.filter (λ r0, Sql.eq (col "uuid" r0) (col "uuid" r))
                  (table "Chats" m)) as Hin.
    { apply elem_of_filter_list. split; [done|]. by apply eq_refl_not_null. }
    rewrite E' in Hin. by apply elem_of_nil in Hin.
Qed.

(** X25. [get_recent_chats n] on a store whose chats all have an
    identifier: the call returns chat nodes of rows of [Chats], as many as
    there are chats but at most [n]; none for [n = 0]; and all of them for
    a negative [n], which SQLite reads as no limit. *)
Theorem get_recent_chats_count n m :
  (∀ r, r ∈ table "Chats" m → col "uuid" r ≠ VNull) →
  ∃ l, get_recent_chats n m = Returns l m
    ∧ length l = (if n <? 0 then length (table "Chats" m)
                  else Nat.min (Z.to_nat n) (length (table "Chats" m)))
    ∧ ∀ c, c ∈ l →
        node_cls c = ChatNode
        ∧ ∃ r, r ∈ table "Chats" m ∧ col "uuid" r = node_memid c.
Proof.
  intros Hu. unfold get_recent_chats, _db_read. unfold_monad.
  rewrite filter_true.
  set (rows := reverse (limit n (Sql.order_by_desc (col "time")
                                   (table "Chats" m)))).
  assert (∀ r, r ∈ rows → r ∈ table "Chats" m) as Hrows.
  { intros r Hr. unfold rows in Hr. rewrite elem_of_reverse in Hr.
    unfold limit in Hr.
    destruct (n <? 0);
      [|apply elem_of_take in Hr as (i & Hr%list_elem_of_lookup_2 & _)];
      by apply elem_of_order_by_desc in Hr. }
  rewrite mapM_construct_chat
    by (intros r Hr; split; [by apply Hrows|by apply Hu, Hrows]).
  eexists. split; [reflexivity|]. split.
  - rewrite length_fmap. unfold rows. rewrite length_reverse. unfold limit.
    destruct (n <? 0).
    + apply length_order_by_desc.
    + by rewrite length_take, length_order_by_desc.
  - intros c (r & -> & Hr)%list_elem_of_fmap. split; [done|].
    exists r. split; [by apply Hrows|done].
Qed.

Lemma get_recent_chats_count_witness :
  ∃ l, get_recent_chats 1
         (final_state
            (add_chat (VText "player") (VText "come here") fresh_memory))
       = Returns l
           (final_state
              (add_chat (VText "player") (VText "come here") fresh_memory))
    ∧ length l = 1%nat.
Proof.
  destruct (get_recent_chats_count 1
              (final_state
                 (add_chat (VText "player") (VText "come here") fresh_memory)))
    as (l & Hrun & Hlen & _).
  - intros r Hr. vm_compute in Hr. apply list_elem_of_singleton in Hr.
    subst r. discriminate.
  - exists l. split; [exact Hrun|]. rewrite Hlen. vm_compute. reflexivity.
Defined.

(** X26. [add_location] writes a row of [ReferenceObjects] that
    [get_location_by_id] reads back.  A snapshot of the location leaves
    [ReferenceObjects] as it is and puts the copy, under a new identifier,
    into [ArchivedReferenceObjects]; so the constructor of [LocationNode],
    which reads [ReferenceObjects], raises [TypeError] for the identifier
    of the snapshot. *)
Theorem add_location_then_snapshot x y z m :
  fresh m →
  ∃ m1 m2,
    add_location x y z m = Returns (uuid_hex (uuid_supply m)) m1
    ∧ get_location_by_id (VText (uuid_hex (uuid_supply m))) m1
      = Returns (mkNode LocationNode (VText (uuid_hex (uuid_supply m)))) m1
    ∧ snapshot (mkNode LocationNode (VText (uuid_hex (uuid_supply m)))) m1
      = Returns tt m2
    ∧ table "ReferenceObjects" m2 = table "ReferenceObjects" m1
    ∧ archive_row LocationNode "ReferenceObjects" (uuid_hex (uuid_supply m1))
        (location_row (uuid_hex (uuid_supply m)) x y z)
      ∈ table "ArchivedReferenceObjects" m2
    ∧ get_location_by_id (VText (uuid_hex (uuid_supply m1))) m2
      = Raises TypeError m2.
Proof.
  intros Hfresh.
  set (k := uuid_supply m). set (id := uuid_hex k).
  set (lrow := location_row id x y z).
  set (m1 := append_row "ReferenceObjects" lrow
               (append_row "Memories"
                  (memory_row id LocationNode (time m) false) (drawn m))).
  assert (add_location x y z m = Returns id m1) as Hadd by reflexivity.
  assert (table "ReferenceObjects" m1 = table "ReferenceObjects" m ++ [lrow])
    as HR1.
  { unfold m1. by rewrite table_append_eq, table_append_ne. }
  pose proof (fresh_filter_uuid "ReferenceObjects" k m Hfresh (N.le_refl _))
    as Hf. fold id in Hf.
  assert (head (List.filter (λ r, Sql.eq (col "uuid" r) (VText id))
                  (table "ReferenceObjects" m1)) = Some lrow) as Hrow.
  { rewrite HR1, List.filter_app, Hf. simpl.
    change (col "uuid" lrow) with (VText id). by rewrite eq_text_refl. }
  destruct (MemoryNode_snapshot_run LocationNode "ReferenceObjects" (VText id)
              lrow m1 eq_refl (uuid_hex_truthy k) Hrow)
    as (pred1 & pred2 & m3 & m5 & Hrun & Hab1 & Hab2).
  eexists m1, _. split; [exact Hadd|]. split; [|split; [exact Hrun|]].
  { unfold get_location_by_id, construct, _db_read_one. unfold_monad.
    change (default "" (TABLE LocationNode)) with "ReferenceObjects".
    by rewrite Hrow. }
  set (s := uuid_hex (uuid_supply m1)) in *.
  set (arow := archive_row LocationNode "ReferenceObjects" s lrow) in *.
  set (mb := append_row (default "ReferenceObjects" (ARCHIVE_TABLE LocationNode))
               arow (append_row "Memories"
                       (memory_row s LocationNode (time m1) true) (drawn m1)))
    in *.
  assert (∀ name, name ≠ "Memories" → name ≠ "NamedAbstractions" →
            name ≠ "Triples" →
            table name
              (append_row "Triples"
                 (triple_row
                    (uuid_hex
                       (uuid_supply
                          (append_row "Triples"
                             (triple_row (uuid_hex (uuid_supply mb)) (VText s)
                                VNull pred1 (VText "_archive_of") (VText id)
                                VNull default_confidence) m3)))
                    (VText id) VNull pred2 (VText "_has_archive") (VText s)
                    VNull default_confidence) m5)
            = table name mb) as Hother.
  { intros name H1 H2 H3. rewrite table_append_ne by done.
    destruct Hab2 as [_ _ _ Ho2 _ _]. rewrite Ho2 by done.
    rewrite table_append_ne by done.
    destruct Hab1 as [_ _ _ Ho1 _ _]. by rewrite Ho1. }
  assert (table "ReferenceObjects" mb = table "ReferenceObjects" m1) as HRb.
  { unfold mb. by rewrite !table_append_ne. }
  split; [|split].
  - rewrite Hother by done. exact HRb.
  - rewrite Hother by done. unfold mb.
    change (default "ReferenceObjects" (ARCHIVE_TABLE LocationNode))
      with "ArchivedReferenceObjects".
    rewrite table_append_eq. apply elem_of_app. right. left.
  - unfold get_location_by_id, construct, _db_read_one. unfold_monad.
    change (default "" (TABLE LocationNode)) with "ReferenceObjects".
    rewrite Hother by done. rewrite HRb, HR1, List.filter_app.
    assert ((uuid_supply m ≤ k + 1)%N) as Hle by (unfold k; lia).
    pose proof (fresh_filter_uuid "ReferenceObjects" (k + 1) m Hfresh Hle)
      as Hf1.
    change (uuid_hex (k + 1)) with s in Hf1. rewrite Hf1. simpl.
    change (col "uuid" lrow) with (VText id).
    rewrite (eq_text_ne (VText id) s); [done|].
    intros [= Heq%uuid_hex_inj]. unfold k in Heq. simpl in Heq. lia.
Qed.

Lemma add_location_then_snapshot_witness :
  ∃ m1 m2,
    add_location (VReal 0) (VReal 63) (VReal 0) fresh_memory
    = Returns (uuid_hex (uuid_supply fresh_memory)) m1
    ∧ snapshot (mkNode LocationNode (VText (uuid_hex (uuid_supply fresh_memory))))
        m1 = Returns tt m2
    ∧ get_location_by_id (VText (uuid_hex (uuid_supply m1))) m2
      = Raises TypeError m2.
Proof.
  destruct (add_location_then_snapshot (VReal 0) (VReal 63) (VReal 0)
              fresh_memory fresh_fresh_memory)
    as (m1 & m2 & H1 & _ & H2 & _ & _ & H3).
  exists m1, m2. split; [exact H1|]. split; [exact H2|exact H3].
Defined.
End RecentChats.


(** * Triples read back, and tasks appended in one turn *)

Section ReadBack.
Implicit Types (m : AgentMemory) (r t e : Row) (task : Task).

(** X27. [add_triple] followed by [get_triples].  A triple that gives a
    live entity, by its identifier, an object by text is found again by
    [get_triples] for that subject and predicate, with the object as the
    text that was given, not as the identifier of its abstraction. *)
Theorem add_triple_then_get_triples s pt x m :
  s ≠ "" → pt ≠ "" → x ≠ "" → live_entity m (VText s) →
  ∃ m' l,
    add_triple (VText s) no_text no_text (VText pt) (VText x)
      default_confidence m = Returns tt m'
    ∧ get_triples (VText s) VNull VNull (VText pt) VNull "if_exists" m'
      = Returns l m'
    ∧ (VText s, VText pt, VText x) ∈ l.
Proof.
  intros Hs Hpt Hx (e & He & Hse & Hlive).
  destruct (add_triple_run (VText s) no_text "" pt x default_confidence m)
    as (pred & obj' & subj' & m3 & Hrun & Hab & _ & _ & Hrs & _).
  { unfold add_triple_accepts. rewrite (truthy_text s Hs), (truthy_text x Hx).
    reflexivity. }
  unfold resolved in Hrs. rewrite (truthy_text s Hs) in Hrs. subst subj'.
  fold no_text in Hrun. rewrite Hrun.
  unfold text_or_None. rewrite (truthy_text x Hx). cbn [truthy String.eqb negb].
  set (t := triple_row (uuid_hex (uuid_supply m)) (VText s) VNull pred
              (VText pt) obj' (VText x) default_confidence).
  eexists _, _. split; [reflexivity|].
  rewrite get_triples_run by (by apply accepted_subj).
  split; [reflexivity|].
  assert (triple_if_exists t = (VText s, VText pt, VText x)) as <-.
  { unfold triple_if_exists. change (col "obj_text" t) with (VText x).
    by rewrite (truthy_text x Hx). }
  apply (list_elem_of_fmap_2 (λ te : Row * Row, triple_if_exists te.1) _ (t, e)).
  apply elem_of_join_live_2; [| | |done|done].
  - rewrite table_append_eq. apply elem_of_app. right. left.
  - unfold where_clause. simpl.
    change (col "subj" t) with (VText s).
    change (col "pred_text" t) with (VText pt). by rewrite !eq_text_refl.
  - rewrite table_append_ne by done.
    eapply elem_of_prefix_of; [by apply prefix_abstracted|done].
Qed.

Lemma add_triple_then_get_triples_witness :
  ∃ m' l,
    add_triple (VText "5") no_text no_text (VText "has_colour") (VText "blue")
      default_confidence one_task_memory = Returns tt m'
    ∧ get_triples (VText "5") VNull VNull (VText "has_colour") VNull
        "if_exists" m' = Returns l m'
    ∧ (VText "5", VText "has_colour", VText "blue") ∈ l.
Proof.
  apply (add_triple_then_get_triples "5" "has_colour" "blue" one_task_memory);
    [discriminate..|].
  exists (memory_row "5" TaskNode 1 false).
  split; [|split; reflexivity].
  assert (head (List.filter (λ r, Sql.eq (col "uuid" r) (VText "5"))
                  (table "Memories" one_task_memory))
          = Some (memory_row "5" TaskNode 1 false)) as H
    by (vm_compute; reflexivity).
  apply head_Some_elem_of, elem_of_filter_list in H as [H _]. exact H.
Defined.
End ReadBack.

Section AppendTwice.
Implicit Types (m : AgentMemory) (r t e : Row) (task : Task) (i : Interpreter).

Lemma head_filter_elem {A} (f : A → bool) (l : list A) x :
  x ∈ l → f x = true → ∃ y, head (List.filter f l) = Some y.
Proof.
  intros Hx Hf.
  assert (x ∈ List.filter f l) as Hin by by apply elem_of_filter_list.
  destruct (List.filter f l) as [|y l']; [by apply elem_of_nil in Hin|].
  by exists y.
Qed.

Lemma prefix_pushed name task m :
  table name m `prefix_of` table name (pushed task m).
Proof.
  unfold pushed. etrans; [|apply prefix_append_row].
  etrans; [|apply prefix_append_row]. by rewrite table_drawn.
Qed.

(** [task_stack_push] with [chat_effect=True] when there is an incoming
    chat: the row of the task is appended to [Tasks] and the chat is
    linked to it. *)
Lemma task_stack_push_chat_run task c s m :
  List.filter (λ r, Sql.eq (col "uuid" r) (VText (uuid_hex (uuid_supply m))))
    (table "Tasks" m) = [] →
  head (Sql.order_by_desc (col "time")
          (List.filter (incoming (VInt (-1))) (table "Chats" m))) = Some c →
  col "uuid" c = VText s → s ≠ "" →
  ∃ m', task_stack_push task VNull true m = Returns (pushed_node task m) m'
    ∧ table "Tasks" m'
      = table "Tasks" m
        ++ [task_row (uuid_hex (uuid_supply m))
              (set_task_memid (uuid_hex (uuid_supply m)) task) (time m)]
    ∧ table "Chats" m' = table "Chats" m
    ∧ time m' = time m
    ∧ (uuid_supply m < uuid_supply m')%N
    ∧ ∀ name, table name m `prefix_of` table name m'.
Proof.
  intros Hnone Hhead Hu Hs.
  unfold task_stack_push, TaskNode_create, new, uuid4, get_time, db_insert.
  unfold_monad. cbn [truthy].
  change (time (append_row "Memories" _ (drawn m))) with (time m).
  change (time (drawn m)) with (time m).
  change (append_row "Tasks" _ (append_row "Memories" _ (drawn m)))
    with (pushed task m).
  set (id := uuid_hex (uuid_supply m)) in *.
  set (m2 := pushed task m).
  assert (table "Chats" m2 = table "Chats" m) as HC2
    by (by apply table_pushed_other).
  assert (c ∈ table "Chats" m) as Hc.
  { apply head_Some_elem_of, elem_of_order_by_desc, elem_of_filter_list in Hhead.
    by destruct Hhead. }
  destruct (head_filter_elem (λ r, Sql.eq (col "uuid" r) (VText s))
              (table "Chats" m2) c) as (c' & Hc').
  { by rewrite HC2. }
  { by rewrite Hu, eq_text_refl. }
  assert (get_most_recent_incoming_chat (VInt (-1)) m2
          = Returns (Some (mkNode ChatNode (VText s))) m2) as ->.
  { unfold get_most_recent_incoming_chat, _db_read. unfold_monad.
    rewrite HC2. unfold incoming in Hhead. rewrite Hhead, Hu.
    by rewrite (construct_chat (VText s) c' m2 Hc'). }
  cbn [node_memid].
  destruct (add_triple_link (VText s) (VText id) "chat_effect_" m2)
    as (pred & m3 & -> & Hab);
    [by apply truthy_text|apply uuid_hex_truthy|].
  set (t := triple_row (uuid_hex (uuid_supply m2)) (VText s) VNull pred
              (VText "chat_effect_") (VText id) VNull default_confidence).
  set (m4 := append_row "Triples" t m3).
  assert (∀ name, name ≠ "Memories" → name ≠ "NamedAbstractions" →
            name ≠ "Triples" → table name m4 = table name m2) as Hother.
  { intros name H1 H2 H3. unfold m4. rewrite table_append_ne by done.
    by destruct Hab as [_ _ _ Ho _ _]; apply Ho. }
  assert (table "Tasks" m4
          = table "Tasks" m ++ [task_row id (set_task_memid id task) (time m)])
    as HT.
  { rewrite Hother by done. apply table_tasks_pushed. }
  exists m4. split; [|split; [exact HT|split; [|split; [|split]]]].
  - unfold TaskNode_init, _db_read_one. unfold_monad.
    rewrite HT, List.filter_app, Hnone. simpl.
    rewrite task_row_uuid, eq_text_refl. reflexivity.
  - rewrite Hother by done. exact HC2.
  - destruct Hab as [Ht _ _ _ _ _]. exact Ht.
  - destruct Hab as [_ _ Hsup _ _ _]. change (uuid_supply m4)
      with (uuid_supply m3). simpl in Hsup. lia.
  - intros name. etrans; [apply (prefix_pushed name task m)|].
    etrans; [by apply prefix_abstracted|]. apply prefix_append_row.
Qed.

Lemma append_new_task_run task i n m' :
  task_stack_push task VNull true (ticked 1 (memory i)) = Returns n m' →
  append_new_task task i = Returns tt (set_memory m' i).
Proof.
  intros H. unfold append_new_task, with_memory. unfold_monad.
  rewrite add_tick_run. cbn [memory set_memory]. by rewrite H.
Qed.

(** X28. [append_new_task] ticks the clock before it pushes.  So two tasks
    appended one after the other, with an incoming chat in the store, get
    two rows of [Tasks] under different identifiers whose creation times
    are one and two ticks after the start; and when every earlier task was
    created before that, [task_stack_peek] returns the second task. *)
Theorem append_new_task_twice A B c s i :
  fresh (memory i) →
  head (Sql.order_by_desc (col "time")
          (List.filter (incoming (VInt (-1))) (table "Chats" (memory i))))
  = Some c →
  col "uuid" c = VText s → s ≠ "" →
  ∃ i2 ida idb,
    (append_new_task A;; append_new_task B) i = Returns tt i2
    ∧ table "Tasks" (memory i2)
      = table "Tasks" (memory i)
        ++ [task_row ida (set_task_memid ida A) (time (memory i) + 1);
            task_row idb (set_task_memid idb B) (time (memory i) + 2)]
    ∧ ida ≠ idb
    ∧ ((∀ r, r ∈ table "Tasks" (memory i) →
          Sql.compare (col "created_at" r) (VInt (time (memory i) + 2)) = Lt) →
       task_stack_peek (memory i2)
       = Returns
           (Some (mkTaskNode (VText idb) (set_task_memid idb B)
                    (VInt (time (memory i) + 2)) (VInt (-1))
                    (VText (task_class B))))
           (memory i2)).
Proof.
  intros Hfresh Hhead Hu Hs.
  set (m := memory i) in *. set (k := uuid_supply m).
  destruct (task_stack_push_chat_run A c s (ticked 1 m))
    as (ma & Hpa & HTa & HCa & Htime_a & Hsup_a & _); [|done..|].
  { by apply (fresh_filter_uuid "Tasks" k (ticked 1 m)
                (fresh_ticked 1 m Hfresh) (N.le_refl _)). }
  change (uuid_supply (ticked 1 m)) with k in *.
  change (table "Tasks" (ticked 1 m)) with (table "Tasks" m) in HTa.
  change (table "Chats" (ticked 1 m)) with (table "Chats" m) in HCa.
  change (time (ticked 1 m)) with (time m + 1) in *.
  set (ida := uuid_hex k) in *.
  set (rowA := task_row ida (set_task_memid ida A) (time m + 1)) in *.
  set (kb := uuid_supply ma) in *.
  set (idb := uuid_hex kb).
  assert (ida ≠ idb) as Hab by (intros Heq%uuid_hex_inj; lia).
  pose proof (fresh_filter_uuid "Tasks" kb m Hfresh) as Hfb.
  fold idb in Hfb.
  assert (List.filter (λ r, Sql.eq (col "uuid" r) (VText idb))
            (table "Tasks" m) = []) as Hnb by (apply Hfb; unfold k in *; lia).
  destruct (task_stack_push_chat_run B c s (ticked 1 ma))
    as (mb & Hpb & HTb & _ & Htime_b & _ & _).
  { change (uuid_supply (ticked 1 ma)) with kb. fold idb.
    change (table "Tasks" (ticked 1 ma)) with (table "Tasks" ma).
    rewrite HTa, List.filter_app, Hnb. simpl.
    change (col "uuid" rowA) with (VText ida).
    by rewrite (eq_text_ne (VText ida) idb) by congruence. }
  { change (table "Chats" (ticked 1 ma)) with (table "Chats" ma).
    by rewrite HCa. }
  { done. }
  { done. }
  change (uuid_supply (ticked 1 ma)) with kb in *. fold idb in HTb.
  change (table "Tasks" (ticked 1 ma)) with (table "Tasks" ma) in HTb.
  change (time (ticked 1 ma)) with (time ma + 1) in *.
  rewrite Htime_a in HTb.
  replace (time m + 1 + 1) with (time m + 2) in HTb by lia.
  set (rowB := task_row idb (set_task_memid idb B) (time m + 2)) in *.
  assert (table "Tasks" mb = table "Tasks" m ++ [rowA; rowB]) as HT.
  { rewrite HTb, HTa, <- app_assoc. done. }
  exists (set_memory mb (set_memory ma i)), ida, idb.
  split; [|split; [exact HT|split; [exact Hab|]]].
  - unfold_monad. rewrite (append_new_task_run A i _ ma Hpa).
    by rewrite (append_new_task_run B (set_memory ma i) _ mb Hpb).
  - intros Hold. cbn [memory set_memory].
    assert (Sql.compare (col "created_at" rowA) (col "created_at" rowB) = Lt)
      as HAB.
    { unfold rowA, rowB. rewrite !task_row_created_at.
      apply compare_int_lt. lia. }
    change (Some (mkTaskNode (VText idb) (set_task_memid idb B)
                    (VInt (time m + 2)) (VInt (-1)) (VText (task_class B))))
      with (Some (node_of_row rowB (set_task_memid idb B))).
    apply task_stack_peek_latest.
    + apply elem_of_filter_list. split; [|apply task_row_on_stack].
      rewrite HT. apply elem_of_app. right. right. left.
    + intros y [Hy _]%elem_of_filter_list. rewrite HT in Hy.
      apply elem_of_app in Hy as [Hy|Hy].
      * right. unfold rowB. rewrite task_row_created_at. by apply Hold.
      * apply elem_of_cons in Hy as [->|Hy%list_elem_of_singleton];
          [by right|by left].
    + rewrite HT, List.filter_app. change (col "uuid" rowB) with (VText idb).
      rewrite Hnb. simpl. change (col "uuid" rowA) with (VText ida).
      rewrite (eq_text_ne (VText ida) idb) by congruence.
      change (col "uuid" rowB) with (VText idb). by rewrite eq_text_refl.
    + reflexivity.
Qed.

Lemma append_new_task_twice_witness :
  ∃ i2 ida idb,
    (append_new_task (a_task "Build");; append_new_task (a_task "Move"))
      (an_interpreter []
         (final_state
            (add_chat (VText "player") (VText "come here") fresh_memory)))
    = Returns tt i2
    ∧ ida ≠ idb
    ∧ task_stack_peek (memory i2)
      = Returns
          (Some (mkTaskNode (VText idb) (set_task_memid idb (a_task "Move"))
                   (VInt 2) (VInt (-1)) (VText "Move")))
          (memory i2).
Proof.
  destruct (append_new_task_twice (a_task "Build") (a_task "Move")
              (make_row "Chats" ["uuid"; "speaker"; "chat"; "time"]
                 [VText "5"; VText "player"; VText "come here"; VInt 0])
              "5"
              (an_interpreter []
                 (final_state
                    (add_chat (VText "player") (VText "come here")
                       fresh_memory))))
    as (i2 & ida & idb & Hrun & _ & Hne & Hpeek).
  - apply (fresh_add_chat (VText "player") (VText "come here") fresh_memory),
      fresh_fresh_memory.
  - vm_compute. reflexivity.
  - reflexivity.
  - discriminate.
  - exists i2, ida, idb. split; [exact Hrun|]. split; [exact Hne|].
    apply Hpeek. intros r Hr. exfalso. vm_compute in Hr. inversion Hr.
Defined.
End AppendTwice.
